(** * TradeMaster.AI: the analytics core of the trading journal

    A shallow embedding of the pure computations of the journal
    (position sizing, dashboard statistics, equity and monthly series,
    calendar cells, the AI coach adapter and the row mapping of the
    trade store client) together with the properties stated about them.

    Numbers.  A JavaScript [number] is modelled as an exact rational
    ([Q]); rounding of binary floating point, [NaN] and the infinities
    are outside the model.  Equality of numbers is [Qeq] (written [==]).
    A field of type [number | undefined] is an [option Q]. *)

From Stdlib Require Import ZArith NArith Nnat QArith Qabs Qround Lqa Lia.
From Stdlib Require Import List String Ascii Bool DecimalString DecimalN.
From Stdlib Require Import Permutation Sorted OrdersEx.
Import ListNotations.

Local Open Scope Q_scope.

(** ** JavaScript primitives used by the sources *)

Module JS.

(** [x > y] on numbers. *)
Definition gt (x y : Q) : bool := negb (Qle_bool x y).

(** [x <= y] on numbers. *)
Definition le (x y : Q) : bool := Qle_bool x y.

(** [Math.floor]. *)
Definition Math_floor (x : Q) : Q := inject_Z (Qfloor x).

(** [Math.abs]. *)
Definition Math_abs (x : Q) : Q := Qabs x.

(** [Math.max] on integer counters. *)
Definition Math_max (a b : Z) : Z := Z.max a b.

(** Truthiness of a number: every number but [0] (and [NaN]). *)
Definition truthy (x : Q) : bool := negb (Qeq_bool x 0).

(** [v || 0] for [v : number | undefined]. *)
Definition or_zero (v : option Q) : Q :=
  match v with
  | Some x => if truthy x then x else 0
  | None => 0
  end.

(** [s || d] for [s : string | undefined | null]: the empty string is falsy. *)
Definition or_string (s : option string) (d : string) : string :=
  match s with
  | Some EmptyString => d
  | Some x => x
  | None => d
  end.

(** [Number(x.toFixed(2))] read on exact decimals: the magnitude is
    rounded to the nearest hundredth, a tie going to the larger one. *)
Definition toFixed2 (x : Q) : Q :=
  let n := Qfloor (Qabs x * 100 + (1 # 2)) in
  if Qle_bool 0 x then inject_Z n / 100 else - (inject_Z n / 100).

(** [Array.prototype.sort(compareFn)].  The sort is stable; it is
    modelled as the stable insertion sort, which every stable sort
    agrees with when [compareFn] is a consistent comparator. *)
Section ArraySort.
Context {A : Type}.
Variable compareFn : A -> A -> Z.

Fixpoint sort_insert (x : A) (l : list A) : list A :=
  match l with
  | [] => [x]
  | y :: r => if (0 <? compareFn x y)%Z then y :: sort_insert x r else x :: l
  end.

Definition Array_sort (l : list A) : list A := fold_right sort_insert [] l.

(** The comparator does not ask for [x] to go after [y]. *)
Definition notAfter (x y : A) : Prop := (compareFn x y <= 0)%Z.
End ArraySort.

(** [a.localeCompare(b)], read as the order of the code units: the
    host collation agrees with it on the strings compared in this
    program (digits, hyphens and lowercase hexadecimal letters). *)
Definition localeCompare (a b : string) : Z :=
  match String.compare a b with
  | Lt => -1
  | Eq => 0
  | Gt => 1
  end%Z.

(** [String(n)] for a natural number. *)
Definition String_of_N (n : N) : string :=
  NilEmpty.string_of_uint (N.to_uint n).

Definition String_of_nat (n : nat) : string := String_of_N (N.of_nat n).

(** [s.padStart(2, '0')]. *)
Definition padStart2 (s : string) : string :=
  match String.length s with
  | O => "00" ++ s
  | S O => "0" ++ s
  | _ => s
  end%string.

(** [s.startsWith(p)]. *)
Definition startsWith (s p : string) : bool := String.prefix p s.

(** [s.split('-')]. *)
Fixpoint split_dash_aux (cur : string) (s : string) : list string :=
  match s with
  | EmptyString => [cur]
  | String c r =>
      if Ascii.eqb c "-"%char then cur :: split_dash_aux EmptyString r
      else split_dash_aux (cur ++ String c EmptyString) r
  end.

Definition split_dash (s : string) : list string := split_dash_aux EmptyString s.

Definition digit_of (c : ascii) : option Z :=
  let n := nat_of_ascii c in
  if (48 <=? n)%nat && (n <=? 57)%nat then Some (Z.of_nat (n - 48)) else None.

Fixpoint parse_digits (acc : option Z) (s : string) : option Z :=
  match s with
  | EmptyString => acc
  | String c r =>
      match digit_of c with
      | Some d =>
          parse_digits (Some (10 * match acc with Some a => a | None => 0 end + d)%Z) r
      | None => acc
      end
  end.

(** [parseInt(s)] in base ten on a string without leading blanks:
    an optional sign and the longest run of digits; [None] stands
    for [NaN], which is also the result on [undefined]. *)
Definition parseInt (s : option string) : option Z :=
  match s with
  | None => None
  | Some (String "-"%char r) => option_map Z.opp (parse_digits None r)
  | Some (String "+"%char r) => parse_digits None r
  | Some s => parse_digits None s
  end.

(** The part of the [Date] object that does not depend on the time
    zone: calendar arithmetic on local dates built with
    [new Date(year, monthIndex, day)]. *)
Module Date.

(** A year argument from 0 to 99 means 1900 + year. *)
Definition fullYear (year : Z) : Z :=
  if (0 <=? year)%Z && (year <=? 99)%Z then (1900 + year)%Z else year.

(** Year and month index after the month overflow is carried. *)
Definition normalize (year monthIndex : Z) : Z * Z :=
  ((fullYear year + monthIndex / 12)%Z, (monthIndex mod 12)%Z).

Definition isLeap (y : Z) : bool :=
  ((y mod 4 =? 0) && (negb (y mod 100 =? 0) || (y mod 400 =? 0)))%Z.

Definition daysIn (y m : Z) : Z :=
  (if m =? 1 then (if isLeap y then 29 else 28)
   else if (m =? 3) || (m =? 5) || (m =? 8) || (m =? 10) then 30
   else 31)%Z.

(** Days from 1970-01-01 to the first day of month [m] (0 to 11) of
    year [y]. *)
Definition daysFromEpoch (y m : Z) : Z :=
  (let y' := if m <=? 1 then y - 1 else y in
   let era := y' / 400 in
   let yoe := y' - era * 400 in
   let doy := (153 * (if 1 <? m then m - 2 else m + 10) + 2) / 5 in
   let doe := yoe * 365 + yoe / 4 - yoe / 100 + doy in
   era * 146097 + doe - 719468)%Z.

(** [new Date(year, monthIndex + 1, 0).getDate()]. *)
Definition daysInMonth (year monthIndex : nat) : nat :=
  let '(y, m) := normalize (Z.of_nat year) (Z.of_nat monthIndex) in
  Z.to_nat (daysIn y m).

(** [new Date(year, monthIndex, 1).getDay()], 0 for Sunday. *)
Definition firstDayOfWeek (year monthIndex : nat) : nat :=
  let '(y, m) := normalize (Z.of_nat year) (Z.of_nat monthIndex) in
  Z.to_nat ((daysFromEpoch y m + 4) mod 7).

Definition monthShort (m : Z) : string :=
  nth (Z.to_nat m)
      ["Jan"; "Feb"; "Mar"; "Apr"; "May"; "Jun";
       "Jul"; "Aug"; "Sep"; "Oct"; "Nov"; "Dec"]%string EmptyString.

Definition monthLong (m : Z) : string :=
  nth (Z.to_nat m)
      ["January"; "February"; "March"; "April"; "May"; "June"; "July";
       "August"; "September"; "October"; "November"; "December"]%string
      EmptyString.

(** [new Date(year, monthIndex).toLocaleString('default',
    { month: 'short', year: '2-digit' })] in the English locale;
    a [NaN] argument gives an invalid date. *)
Definition shortMonthYear (year monthIndex : option Z) : string :=
  match year, monthIndex with
  | Some y, Some m =>
      let '(y', m') := normalize y m in
      (monthShort m' ++ " " ++ padStart2 (String_of_nat (Z.to_nat (y' mod 100))))%string
  | _, _ => "Invalid Date"%string
  end.

End Date.

(** The settlement of a call that may throw, and of a promise:
    a value, or the error it throws or rejects with. *)
Inductive Outcome (E A : Type) : Type :=
| Returned (a : A)
| Thrown (e : E).

Arguments Returned {E A} a.
Arguments Thrown {E A} e.

Definition bind {E A B : Type} (m : Outcome E A) (k : A -> Outcome E B) : Outcome E B :=
  match m with
  | Returned a => k a
  | Thrown e => Thrown e
  end.

End JS.

(** ** src/components/PositionCalculator.tsx *)

Module PositionCalculator.

(** The table [INDICES_LOT_SIZES]; a key that is not in the table
    reads as [undefined]. *)
Definition INDICES_LOT_SIZES (instrument : string) : option Q :=
  if String.eqb instrument "NIFTY" then Some 75
  else if String.eqb instrument "BANKNIFTY" then Some 15
  else if String.eqb instrument "FINNIFTY" then Some 25
  else if String.eqb instrument "MIDCPNIFTY" then Some 50
  else if String.eqb instrument "SENSEX" then Some 10
  else if String.eqb instrument "EQUITY" then Some 1
  else None.

Record Results : Type := mkResults {
  riskAmount : Q;
  slPoints : Q;
  qty : Q;
  lots : Q;
  totalValue : Q
}.

(** [lotSize > 1], false when the lot size is [undefined]. *)
Definition lotSize_gt_1 (lotSize : option Q) : option Q :=
  match lotSize with
  | Some l => if JS.gt l 1 then Some l else None
  | None => None
  end.

(** The memoised [results] of the component, as a function of its
    five state variables. *)
Definition results (capital riskPercent entryPrice stopLoss : Q)
           (instrument : string) : Results :=
  let riskAmount := (capital * riskPercent) / 100 in
  if JS.gt entryPrice 0 && JS.gt stopLoss 0 then
    let slPoints := JS.Math_abs (entryPrice - stopLoss) in
    if JS.gt slPoints 0 then
      let qty := JS.Math_floor (riskAmount / slPoints) in
      match lotSize_gt_1 (INDICES_LOT_SIZES instrument) with
      | Some lotSize =>
          let lots := JS.Math_floor (qty / lotSize) in
          let qty := lots * lotSize in
          mkResults riskAmount slPoints qty lots (qty * entryPrice)
      | None =>
          let lots := qty in
          mkResults riskAmount slPoints qty lots (qty * entryPrice)
      end
    else mkResults riskAmount slPoints 0 0 0
  else mkResults riskAmount 0 0 0 0.



(** The lot size of an instrument, 1 for one without a lot. *)
Definition lotSize (instrument : string) : Q :=
  match INDICES_LOT_SIZES instrument with
  | Some l => l
  | None => 1
  end.

End PositionCalculator.

(** ** types.ts *)

Inductive TradeType : Type := LONG | SHORT.

Inductive TradeStatus : Type := OPEN | CLOSED | PENDING.

Definition TradeType_eqb (a b : TradeType) : bool :=
  match a, b with
  | LONG, LONG | SHORT, SHORT => true
  | _, _ => false
  end.

Definition TradeStatus_eqb (a b : TradeStatus) : bool :=
  match a, b with
  | OPEN, OPEN | CLOSED, CLOSED | PENDING, PENDING => true
  | _, _ => false
  end.

Record Trade : Type := mkTrade {
  id : string;
  symbol : string;
  type : TradeType;
  status : TradeStatus;
  entryDate : string;
  expiryDate : option string;
  entryPrice : Q;
  exitPrice : option Q;
  quantity : Q;
  stopLoss : option Q;
  takeProfit : option Q;
  pnl : option Q;
  setup : string;
  notes : string;
  tags : list string
}.

Inductive Mood : Type := Happy | Neutral | Sad | Frustrated | Disciplined.

Record DailyNote : Type := mkDailyNote {
  date : string;
  content : string;
  mood : option Mood
}.

Record DashboardStats : Type := mkDashboardStats {
  totalTrades : nat;
  winRate : Q;
  netPnL : Q;
  avgWin : Q;
  avgLoss : Q;
  profitFactor : Q;
  maxWinStreak : Z;
  currentStreak : Z
}.

(** ** src/components/TradeForm.tsx *)

Module TradeForm.

(** The form state, a [Partial<Trade>].  The side and the status are
    set from the first render on and no handler unsets them. *)
Record FormData : Type := mkFormData {
  f_id : option string;
  f_symbol : option string;
  f_type : TradeType;
  f_status : TradeStatus;
  f_entryDate : option string;
  f_expiryDate : option string;
  f_entryPrice : option Q;
  f_exitPrice : option Q;
  f_quantity : option Q;
  f_stopLoss : option Q;
  f_takeProfit : option Q;
  f_pnl : option Q;
  f_setup : option string;
  f_notes : option string;
  f_tags : option (list string)
}.

(** The initial state of the form. *)
Definition initialFormData (today : string) : FormData :=
  mkFormData None (Some EmptyString) LONG OPEN (Some today)
             None None None None None None None
             (Some EmptyString) (Some EmptyString) None.

Inductive NumberField : Type :=
  N_entryPrice | N_exitPrice | N_quantity | N_stopLoss | N_takeProfit | N_pnl.

Inductive TextField : Type :=
  T_symbol | T_entryDate | T_expiryDate | T_setup | T_notes.

(** A change event, by the name of its input.  For the numeric
    inputs the value is the parsed one: [None] for the empty string,
    otherwise the number read by [parseFloat]. *)
Inductive ChangeEvent : Type :=
| ChangeNumber (name : NumberField) (parsedValue : option Q)
| ChangeText (name : TextField) (value : string)
| ChangeStatus (value : TradeStatus)
| ChangeType (value : TradeType).

(** [{ ...prev, [name]: parsedValue }]. *)
Definition assign (prev : FormData) (e : ChangeEvent) : FormData :=
  let 'mkFormData i sy ty st ed xd ep xp q sl tp p su no ta := prev in
  match e with
  | ChangeNumber N_entryPrice v => mkFormData i sy ty st ed xd v xp q sl tp p su no ta
  | ChangeNumber N_exitPrice v => mkFormData i sy ty st ed xd ep v q sl tp p su no ta
  | ChangeNumber N_quantity v => mkFormData i sy ty st ed xd ep xp v sl tp p su no ta
  | ChangeNumber N_stopLoss v => mkFormData i sy ty st ed xd ep xp q v tp p su no ta
  | ChangeNumber N_takeProfit v => mkFormData i sy ty st ed xd ep xp q sl v p su no ta
  | ChangeNumber N_pnl v => mkFormData i sy ty st ed xd ep xp q sl tp v su no ta
  | ChangeText T_symbol v => mkFormData i (Some v) ty st ed xd ep xp q sl tp p su no ta
  | ChangeText T_entryDate v => mkFormData i sy ty st (Some v) xd ep xp q sl tp p su no ta
  | ChangeText T_expiryDate v => mkFormData i sy ty st ed (Some v) ep xp q sl tp p su no ta
  | ChangeText T_setup v => mkFormData i sy ty st ed xd ep xp q sl tp p (Some v) no ta
  | ChangeText T_notes v => mkFormData i sy ty st ed xd ep xp q sl tp p su (Some v) ta
  | ChangeStatus v => mkFormData i sy ty v ed xd ep xp q sl tp p su no ta
  | ChangeType v => mkFormData i sy v st ed xd ep xp q sl tp p su no ta
  end.

Definition set_pnl (d : FormData) (v : option Q) : FormData :=
  assign d (ChangeNumber N_pnl v).

(** The realized P&L derived from entry, exit, quantity and side. *)
Definition calculatedPnl (ty : TradeType) (entry exit qty : Q) : Q :=
  let diff := exit - entry in
  if TradeType_eqb ty LONG then diff * qty else - diff * qty.

(** Does the event name one of ['entryPrice', 'exitPrice',
    'quantity', 'type']? *)
Definition recomputes (e : ChangeEvent) : bool :=
  match e with
  | ChangeNumber N_entryPrice _ | ChangeNumber N_exitPrice _
  | ChangeNumber N_quantity _ | ChangeType _ => true
  | _ => false
  end.

(** [handleChange]: the state update passed to [setFormData]. *)
Definition handleChange (prev : FormData) (e : ChangeEvent) : FormData :=
  let updatedData := assign prev e in
  if recomputes e then
    let entry := match e with ChangeNumber N_entryPrice v => v | _ => f_entryPrice prev end in
    let exit := match e with ChangeNumber N_exitPrice v => v | _ => f_exitPrice prev end in
    let qty := match e with ChangeNumber N_quantity v => v | _ => f_quantity prev end in
    let ty := match e with ChangeType v => v | _ => f_type prev end in
    match entry, exit, qty with
    | Some entry, Some exit, Some qty =>
        set_pnl updatedData (Some (JS.toFixed2 (calculatedPnl ty entry exit qty)))
    | _, _, _ => updatedData
    end
  else updatedData.

(** [toUpperCase] on the ASCII letters. *)
Definition upper_ascii (c : ascii) : ascii :=
  let n := nat_of_ascii c in
  if (97 <=? n)%nat && (n <=? 122)%nat then ascii_of_nat (n - 32) else c.

Fixpoint toUpperCase (s : string) : string :=
  match s with
  | EmptyString => EmptyString
  | String c r => String (upper_ascii c) (toUpperCase r)
  end.

Definition or_else {A : Type} (v : option A) (d : A) : A :=
  match v with Some x => x | None => d end.

(** [handleSubmit]: the trade handed to [onSave], or [None] when the
    handler returns early.  [freshId] is the value of
    [crypto.randomUUID()] and [now] that of [new Date().toISOString()]. *)
Definition handleSubmit (initialData : option Trade) (freshId now : string)
           (formData : FormData) : option Trade :=
  match f_symbol formData, f_entryPrice formData with
  | Some EmptyString, _ | None, _ | _, None => None
  | Some sym, Some entry =>
      Some (mkTrade
              (match initialData with
               | Some t => JS.or_string (Some (id t)) freshId
               | None => freshId
               end)
              (toUpperCase sym)
              (f_type formData)
              (f_status formData)
              (JS.or_string (f_entryDate formData) now)
              (f_expiryDate formData)
              entry
              (f_exitPrice formData)
              (match f_quantity formData with
               | Some q => if JS.truthy q then q else 1
               | None => 1
               end)
              (f_stopLoss formData)
              (f_takeProfit formData)
              (f_pnl formData)
              (JS.or_string (f_setup formData) "General")
              (JS.or_string (f_notes formData) EmptyString)
              (or_else (f_tags formData) []))
  end.

End TradeForm.

(** ** src/components/Dashboard.tsx *)

Module Dashboard.

(** [t.status === TradeStatus.CLOSED]. *)
Definition isClosed (t : Trade) : bool := TradeStatus_eqb (status t) CLOSED.

(** [t.pnl !== undefined]. *)
Definition hasPnl (t : Trade) : bool :=
  match pnl t with Some _ => true | None => false end.

(** [(acc, t) => acc + (t.pnl || 0)]. *)
Definition addPnl (acc : Q) (t : Trade) : Q := acc + JS.or_zero (pnl t).

(** The three variables of the streak loop. *)
Record Streaks : Type := mkStreaks {
  currentWinStreakCounter : Z;
  s_maxWinStreak : Z;
  s_currentStreak : Z
}.

(** One iteration of the streak loop. *)
Definition streakStep (s : Streaks) (trade : Trade) : Streaks :=
  let pnl := JS.or_zero (pnl trade) in
  if JS.gt pnl 0 then
    let counter := (currentWinStreakCounter s + 1)%Z in
    mkStreaks counter
              (JS.Math_max (s_maxWinStreak s) counter)
              (if (0 <=? s_currentStreak s)%Z then (s_currentStreak s + 1)%Z else 1%Z)
  else
    mkStreaks 0%Z
              (s_maxWinStreak s)
              (if (s_currentStreak s <=? 0)%Z then (s_currentStreak s - 1)%Z else (-1)%Z).

Record EquityPoint : Type := mkEquityPoint {
  e_date : string;
  equity : Q;
  e_pnl : option Q
}.

(** [sortedTrades.map(...)] with the running balance threaded
    through the callback. *)
Fixpoint equityPoints (label : string -> string) (runningBalance : Q)
         (sortedTrades : list Trade) : list EquityPoint :=
  match sortedTrades with
  | [] => []
  | t :: rest =>
      let runningBalance := runningBalance + JS.or_zero (pnl t) in
      mkEquityPoint (label (entryDate t)) runningBalance (pnl t)
      :: equityPoints label runningBalance rest
  end.

(** A [Record<string, number>] whose keys are no array indices: the
    entries in the order of their first insertion. *)
Definition Obj : Type := list (string * Q).

(** [data[key]]. *)
Fixpoint get (data : Obj) (key : string) : option Q :=
  match data with
  | [] => None
  | (k, v) :: rest => if String.eqb k key then Some v else get rest key
  end.

(** [data[key] = v]. *)
Fixpoint set (data : Obj) (key : string) (v : Q) : Obj :=
  match data with
  | [] => [(key, v)]
  | (k, w) :: rest =>
      if String.eqb k key then (k, v) :: rest else (k, w) :: set rest key v
  end.

Record MonthPoint : Type := mkMonthPoint {
  name : string;
  m_pnl : Q
}.

(** The callback that turns a sorted entry into a chart point. *)
Definition monthPoint (entry : string * Q) : MonthPoint :=
  let '(key, pnl) := entry in
  let parts := JS.split_dash key in
  let year := nth_error parts 0 in
  let month := nth_error parts 1 in
  mkMonthPoint
    (JS.Date.shortMonthYear (JS.parseInt year)
                            (option_map (fun m => m - 1)%Z (JS.parseInt month)))
    pnl.

Inductive DayCell : Type :=
| Blank
| Day (day : nat) (dateStr : string) (pnl : Q) (hasTrades hasNote : bool).

Record CalendarData : Type := mkCalendarData {
  c_year : nat;
  c_month : nat;
  days : list DayCell;
  monthName : string
}.

(** The date string of day [i] of the viewed month. *)
Definition dateStrOf (year month i : nat) : string :=
  (JS.String_of_nat year ++ "-" ++ JS.padStart2 (JS.String_of_nat (month + 1))
     ++ "-" ++ JS.padStart2 (JS.String_of_nat i))%string.

(** [trades.filter(t => t.entryDate.startsWith(dateStr) && t.status === CLOSED)]. *)
Definition dayTrades (trades : list Trade) (dateStr : string) : list Trade :=
  filter (fun t => JS.startsWith (entryDate t) dateStr && isClosed t) trades.

(** [dailyNotes.find(n => n.date === dateStr)]. *)
Definition findNote (dailyNotes : list DailyNote) (dateStr : string) : option DailyNote :=
  find (fun n => String.eqb (date n) dateStr) dailyNotes.

(** The cell pushed for day [i]. *)
Definition dayCell (trades : list Trade) (dailyNotes : list DailyNote)
           (year month i : nat) : DayCell :=
  let dateStr := dateStrOf year month i in
  let dayTrades := dayTrades trades dateStr in
  let dailyPnl := fold_left addPnl dayTrades 0 in
  let hasTrades := (0 <? List.length dayTrades)%nat in
  let note := findNote dailyNotes dateStr in
  let hasNote := match note with Some _ => true | None => false end in
  Day i dateStr dailyPnl hasTrades hasNote.

(** [calendarData] for the month shown, [month] counted from 0. *)
Definition calendarData (trades : list Trade) (dailyNotes : list DailyNote)
           (year month : nat) : CalendarData :=
  let daysInMonth := JS.Date.daysInMonth year month in
  let firstDayOfWeek := JS.Date.firstDayOfWeek year month in
  let padding := repeat Blank firstDayOfWeek in
  let actual := map (dayCell trades dailyNotes year month) (seq 1 daysInMonth) in
  mkCalendarData year month (padding ++ actual)
                 (JS.Date.monthLong (Z.of_nat month)).

(** What the component reads from the host [Date] object for an
    entry timestamp: the epoch milliseconds, the local year, the
    local month counted from 0 and the short day label. *)
Section Host.

Variable getTime : string -> Z.
Variable getFullYear : string -> nat.
Variable getMonth : string -> nat.
Variable toLocaleDateString : string -> string.

(** The comparator of the statistics: entry time, then identifier. *)
Definition byDateThenId (a b : Trade) : Z :=
  let dateDiff := (getTime (entryDate a) - getTime (entryDate b))%Z in
  if negb (dateDiff =? 0)%Z then dateDiff
  else JS.localeCompare (id a) (id b).

(** The comparator of the equity curve: entry time only. *)
Definition byDate (a b : Trade) : Z :=
  (getTime (entryDate a) - getTime (entryDate b))%Z.

(** The closed trades with a P&L, in the order of [byDateThenId]. *)
Definition closedTrades (trades : list Trade) : list Trade :=
  JS.Array_sort byDateThenId (filter (fun t => isClosed t && hasPnl t) trades).

Definition wins (trades : list Trade) : list Trade :=
  filter (fun t => JS.gt (JS.or_zero (pnl t)) 0) (closedTrades trades).

Definition losses (trades : list Trade) : list Trade :=
  filter (fun t => JS.le (JS.or_zero (pnl t)) 0) (closedTrades trades).

Definition totalWinPnl (trades : list Trade) : Q :=
  fold_left addPnl (wins trades) 0.

Definition totalLossPnl (trades : list Trade) : Q :=
  JS.Math_abs (fold_left addPnl (losses trades) 0).

(** [l.length] as a number. *)
Definition count (l : list Trade) : Q := inject_Z (Z.of_nat (List.length l)).

(** The streak variables after the loop over the closed trades. *)
Definition streaks (trades : list Trade) : Streaks :=
  fold_left streakStep (closedTrades trades) (mkStreaks 0 0 0).

(** [stats]. *)
Definition stats (trades : list Trade) : DashboardStats :=
  let totalTrades := List.length (closedTrades trades) in
  let netPnL := totalWinPnl trades - totalLossPnl trades in
  let winRate :=
    if (0 <? totalTrades)%nat
    then (count (wins trades) / count (closedTrades trades)) * 100 else 0 in
  let avgWin :=
    if (0 <? List.length (wins trades))%nat
    then totalWinPnl trades / count (wins trades) else 0 in
  let avgLoss :=
    if (0 <? List.length (losses trades))%nat
    then totalLossPnl trades / count (losses trades) else 0 in
  let profitFactor :=
    if JS.gt (totalLossPnl trades) 0 then totalWinPnl trades / totalLossPnl trades
    else if JS.gt (totalWinPnl trades) 0 then 999 else 0 in
  mkDashboardStats totalTrades winRate netPnL avgWin avgLoss profitFactor
                   (s_maxWinStreak (streaks trades))
                   (s_currentStreak (streaks trades)).

(** The closed trades in the order of [byDate]. *)
Definition sortedTrades (trades : list Trade) : list Trade :=
  JS.Array_sort byDate (filter isClosed trades).

(** [equityCurveData]. *)
Definition equityCurveData (trades : list Trade) : list EquityPoint :=
  equityPoints toLocaleDateString 0 (sortedTrades trades).

(** The bucket key of a trade, [YYYY-MM]. *)
Definition monthKey (t : Trade) : string :=
  (JS.String_of_nat (getFullYear (entryDate t)) ++ "-"
     ++ JS.padStart2 (JS.String_of_nat (getMonth (entryDate t) + 1)))%string.

(** The body of the [forEach] that fills [data]. *)
Definition addToMonth (data : Obj) (t : Trade) : Obj :=
  let key := monthKey t in
  set data key (JS.or_zero (get data key) + JS.or_zero (pnl t)).

(** [data] after the [forEach]. *)
Definition monthlyData (trades : list Trade) : Obj :=
  fold_left addToMonth (filter isClosed trades) [].

(** [Object.entries(data).sort(...)]. *)
Definition monthlyEntries (trades : list Trade) : list (string * Q) :=
  JS.Array_sort (fun a b => JS.localeCompare (fst a) (fst b)) (monthlyData trades).

(** [monthlyChartData]. *)
Definition monthlyChartData (trades : list Trade) : list MonthPoint :=
  map monthPoint (monthlyEntries trades).

End Host.

End Dashboard.

Notation "x <- m ;; k" := (JS.bind m (fun x => k))
  (at level 61, m at next level, right associativity).

(** ** services/geminiService.ts *)

Module GeminiService.

Record Response : Type := mkResponse {
  text : option string
}.

Definition dquote : string := String (ascii_of_nat 34) EmptyString.

Definition model : string := "gemini-2.5-flash".

Definition noAnalysis : string := "Could not generate analysis.".

Definition connectionError : string :=
  "Error connecting to AI Coach. Please check your API key or try again later.".

Definition TradeType_toString (t : TradeType) : string :=
  match t with LONG => "LONG" | SHORT => "SHORT" end.

(** The hosted model and the client library: building the client and
    the call [ai.models.generateContent] may each throw or reject;
    [Number_toString] renders a number inside the template. *)
Section Service.

Variables Error Client : Type.
Variable getAIClient : JS.Outcome Error Client.
Variable generateContent : Client -> string -> string -> JS.Outcome Error Response.
Variable Number_toString : Q -> string.

(** [${v || 'N/A'}]. *)
Definition number_or_NA (v : option Q) : string :=
  match v with
  | Some x => if JS.truthy x then Number_toString x else "N/A"
  | None => "N/A"
  end.

Definition prompt (trade : Trade) : string :=
  ("
      You are an expert trading psychology coach and technical analyst for the **Indian Stock Market (NSE/BSE)**. 
      Analyze the following trade entry and provide constructive feedback in 3 bullet points.
      
      Context: The trader trades Options (F&O) and Equity.
      Focus on risk management, psychology, and Indian market context (Nifty/BankNifty levels, Expiry dynamics) based on the notes.

      Trade Details:
      Symbol: " ++
  symbol trade ++
  "
      Type: " ++
  TradeType_toString (type trade) ++
  "
      Entry: " ++
  Number_toString (entryPrice trade) ++
  "
      Exit: " ++
  number_or_NA (exitPrice trade) ++
  "
      P&L: " ++
  number_or_NA (pnl trade) ++
  "
      Strategy: " ++
  setup trade ++
  "
      Trader's Notes: " ++
  dquote ++
  notes trade ++
  dquote ++
  "
      
      Output format:
      1. [Technical Observation] (Mention key levels if symbol is NIFTY/BANKNIFTY)
      2. [Psychological/Risk Insight]
      3. [Actionable Advice for next trade]
      
      Keep it concise and professional.
    ")%string.

(** The body of the [try] block. *)
Definition attempt (trade : Trade) : JS.Outcome Error string :=
  ai <- getAIClient ;;
  response <- generateContent ai model (prompt trade) ;;
  JS.Returned (JS.or_string (text response) noAnalysis).

(** [analyzeTradeWithAI]: the settlement of the returned promise and
    what was written with [console.error]. *)
Definition analyzeTradeWithAI (trade : Trade)
  : JS.Outcome Error string * list (string * Error) :=
  match attempt trade with
  | JS.Returned s => (JS.Returned s, [])
  | JS.Thrown error =>
      (JS.Returned connectionError, [("AI Analysis Error:"%string, error)])
  end.

End Service.

End GeminiService.

(** ** services/supabaseClient.ts, the two copies *)

(** A row of the table [trades] as the query returns it; a SQL [NULL]
    is [None]. *)
Record TradeRow : Type := mkTradeRow {
  r_id : string;
  r_symbol : string;
  r_type : TradeType;
  r_status : TradeStatus;
  r_entry_date : string;
  r_expiry_date : option string;
  r_entry_price : option Q;
  r_exit_price : option Q;
  r_quantity : option Q;
  r_stop_loss : option Q;
  r_take_profit : option Q;
  r_pnl : option Q;
  r_setup : option string;
  r_notes : option string;
  r_tags : option (list string)
}.

Module Columns.

(** [Number(v)] on a numeric column: [null] converts to 0. *)
Definition Number (v : option Q) : Q :=
  match v with Some x => x | None => 0 end.

(** [v ? Number(v) : undefined]. *)
Definition ifTruthy (v : option Q) : option Q :=
  match v with
  | Some x => if JS.truthy x then Some (Number v) else None
  | None => None
  end.

(** [v !== null ? Number(v) : undefined]. *)
Definition ifNotNull (v : option Q) : option Q :=
  match v with
  | Some _ => Some (Number v)
  | None => None
  end.

(** [t.tags || []]. *)
Definition tagsOr (v : option (list string)) : list string :=
  match v with Some l => l | None => [] end.

End Columns.

(** The first copy. *)
Module SupabaseClient1.

(** The callback of [data.map]. *)
Definition toTrade (t : TradeRow) : Trade :=
  mkTrade (r_id t) (r_symbol t) (r_type t) (r_status t) (r_entry_date t)
          (r_expiry_date t)
          (Columns.Number (r_entry_price t))
          (Columns.ifTruthy (r_exit_price t))
          (Columns.Number (r_quantity t))
          (Columns.ifTruthy (r_stop_loss t))
          (Columns.ifTruthy (r_take_profit t))
          (Columns.ifNotNull (r_pnl t))
          (JS.or_string (r_setup t) EmptyString)
          (JS.or_string (r_notes t) EmptyString)
          (Columns.tagsOr (r_tags t)).

(** [fetchTrades], given the settlement of the query: a query error
    is rethrown, the rows are mapped otherwise. *)
Definition fetchTrades {E : Type} (query : JS.Outcome E (list TradeRow))
  : JS.Outcome E (list Trade) :=
  data <- query ;; JS.Returned (map toTrade data).

End SupabaseClient1.

(** The second copy. *)
Module SupabaseClient2.

(** The callback of [data.map]. *)
Definition toTrade (t : TradeRow) : Trade :=
  mkTrade (r_id t) (r_symbol t) (r_type t) (r_status t) (r_entry_date t)
          (r_expiry_date t)
          (Columns.Number (r_entry_price t))
          (Columns.ifTruthy (r_exit_price t))
          (Columns.Number (r_quantity t))
          (Columns.ifTruthy (r_stop_loss t))
          (Columns.ifTruthy (r_take_profit t))
          (Columns.ifTruthy (r_pnl t))
          (JS.or_string (r_setup t) EmptyString)
          (JS.or_string (r_notes t) EmptyString)
          (Columns.tagsOr (r_tags t)).

Definition fetchTrades {E : Type} (query : JS.Outcome E (list TradeRow))
  : JS.Outcome E (list Trade) :=
  data <- query ;; JS.Returned (map toTrade data).

End SupabaseClient2.

(** ** More string and array primitives *)

Module Str.

(** [s.includes(p)]. *)
Fixpoint includes (s p : string) : bool :=
  String.prefix p s
  || match s with
     | EmptyString => false
     | String _ r => includes r p
     end.

(** The last character of a string. *)
Fixpoint lastChar (s : string) : option ascii :=
  match s with
  | EmptyString => None
  | String c EmptyString => Some c
  | String _ r => lastChar r
  end.

(** [s.endsWith(' ')]. *)
Definition endsWithSpace (s : string) : bool :=
  match lastChar s with
  | Some c => Ascii.eqb c " "%char
  | None => false
  end.

(** [Math.max(x, ...l)]. *)
Definition Math_max_of (x : Q) (l : list Q) : Q :=
  fold_left (fun acc y => if JS.gt y acc then y else acc) l x.

(** [Math.min(x, ...l)]. *)
Definition Math_min_of (x : Q) (l : list Q) : Q :=
  fold_left (fun acc y => if JS.gt acc y then y else acc) l x.

End Str.

(** ** src/components/Dashboard.tsx: the month buttons and the daily report *)

Module DashboardView.

(** [changeMonth]: the year and the month index of the date
    [new Date(prev.getFullYear(), prev.getMonth() + delta, 1)], from
    those of [prev]. *)
Definition changeMonth (delta : Z) (prev : Z * Z) : Z * Z :=
  JS.Date.normalize (fst prev) (snd prev + delta).

(** The object [dailyStats] that [prepareDailyStats] builds for the day
    whose date string is [today]; [None] when the function shows its
    alert and returns [null].  The rendering of the same numbers as a
    message is left out. *)
Definition dailyStats (today : string) (trades : list Trade) : option DashboardStats :=
  let todaysTrades :=
    filter (fun t => JS.startsWith (entryDate t) today && Dashboard.isClosed t) trades in
  if (List.length todaysTrades =? 0)%nat then None
  else
    let todayPnL := fold_left Dashboard.addPnl todaysTrades 0 in
    let winTrades := filter (fun t => JS.gt (JS.or_zero (pnl t)) 0) todaysTrades in
    let lossTrades := filter (fun t => JS.le (JS.or_zero (pnl t)) 0) todaysTrades in
    let wins := Dashboard.count winTrades in
    let winRate :=
      if (0 <? List.length todaysTrades)%nat
      then (wins / Dashboard.count todaysTrades) * 100 else 0 in
    let bestWin :=
      match map (fun t => JS.or_zero (pnl t)) winTrades with
      | x :: r => Str.Math_max_of x r
      | [] => 0
      end in
    let maxLoss :=
      match map (fun t => JS.or_zero (pnl t)) lossTrades with
      | x :: r => Str.Math_min_of x r
      | [] => 0
      end in
    Some (mkDashboardStats (List.length todaysTrades) winRate todayPnL
                           bestWin maxLoss 0 0 0).

End DashboardView.

(** ** src/components/TradeList.tsx *)

Module TradeList.

Inductive Filter : Type := ALL | ONLY_OPEN | ONLY_CLOSED.

(** The callback of [trades.filter]: [filter === 'ALL'] or
    [t.status === filter]. *)
Definition keeps (filter : Filter) (t : Trade) : bool :=
  match filter with
  | ALL => true
  | ONLY_OPEN => TradeStatus_eqb (status t) OPEN
  | ONLY_CLOSED => TradeStatus_eqb (status t) CLOSED
  end.

(** The comparator of the journal: the latest entry first. *)
Definition latestFirst (getTime : string -> Z) (a b : Trade) : Z :=
  (getTime (entryDate b) - getTime (entryDate a))%Z.

(** [filteredTrades]. *)
Definition filteredTrades (getTime : string -> Z) (filter : Filter)
           (trades : list Trade) : list Trade :=
  JS.Array_sort (latestFirst getTime) (List.filter (keeps filter) trades).

End TradeList.

(** ** services/supabaseClient.ts, first copy: writing *)

Module SupabaseWrite.

(** The object [dbTrade] sent to the store; [None] in a column is
    [null]. *)
Record DbTrade : Type := mkDbTrade {
  d_id : string;
  d_user_id : string;
  d_symbol : string;
  d_type : TradeType;
  d_status : TradeStatus;
  d_entry_date : string;
  d_entry_price : Q;
  d_quantity : Q;
  d_setup : string;
  d_notes : string;
  d_tags : list string;
  d_expiry_date : option string;
  d_exit_price : option Q;
  d_stop_loss : option Q;
  d_take_profit : option Q;
  d_pnl : option Q
}.

(** [dbTrade] for the user [userId]. *)
Definition dbTrade (userId : string) (trade : Trade) : DbTrade :=
  mkDbTrade (id trade) userId (symbol trade) (type trade) (status trade)
            (entryDate trade) (entryPrice trade) (quantity trade)
            (setup trade) (notes trade) (tags trade)
            (match expiryDate trade with
             | Some EmptyString | None => None
             | Some d => Some d
             end)
            (exitPrice trade) (stopLoss trade) (takeProfit trade) (pnl trade).

(** What [saveTradeToDb] throws: its own error for a missing user, or
    the error of the store. *)
Inductive SaveError (E : Type) : Type :=
| NoUserLoggedIn
| StoreError (e : E).

Arguments NoUserLoggedIn {E}.
Arguments StoreError {E} e.

(** [saveTradeToDb], given the user of the session (its identifier,
    [None] for no user) and the answer of the store to an upsert. *)
Definition saveTradeToDb {E : Type} (user : option string)
           (upsert : DbTrade -> JS.Outcome E unit) (trade : Trade)
  : JS.Outcome (SaveError E) unit :=
  match user with
  | None => JS.Thrown NoUserLoggedIn
  | Some userId =>
      match upsert (dbTrade userId trade) with
      | JS.Returned _ => JS.Returned tt
      | JS.Thrown error => JS.Thrown (StoreError error)
      end
  end.

End SupabaseWrite.

(** ** src/App.tsx *)

Module App.

(** What the handlers show: an alert or a line on the console. *)
Inductive Effect : Type :=
| Alert (message : string)
| ConsoleError (message : string).

(** The state the handlers below read and write. *)
Record State : Type := mkState {
  trades : list Trade;
  dailyNotes : list DailyNote;
  isFormOpen : bool;
  editingTrade : option Trade;
  aiModalOpen : bool;
  aiAnalysis : string;
  isAnalyzing : bool
}.

Definition setTrades (f : list Trade -> list Trade) (st : State) : State :=
  mkState (f (trades st)) (dailyNotes st) (isFormOpen st) (editingTrade st)
          (aiModalOpen st) (aiAnalysis st) (isAnalyzing st).

Definition setDailyNotes (notes : list DailyNote) (st : State) : State :=
  mkState (trades st) notes (isFormOpen st) (editingTrade st)
          (aiModalOpen st) (aiAnalysis st) (isAnalyzing st).

(** [loadData], given the settlements of the two fetches: both
    collections are replaced when both arrive, nothing is when one
    fails. *)
Definition loadData {E : Type} (fetchedTrades : JS.Outcome E (list Trade))
           (fetchedNotes : JS.Outcome E (list DailyNote)) (st : State)
  : State * list Effect :=
  match fetchedTrades, fetchedNotes with
  | JS.Returned ts, JS.Returned ns => (setDailyNotes ns (setTrades (fun _ => ts) st), [])
  | _, _ => (st, [ConsoleError "Error loading data:"])
  end.

(** The notes after the optimistic update of [handleSaveNote]. *)
Definition withNote (dailyNotes : list DailyNote) (note : DailyNote) : list DailyNote :=
  filter (fun n => negb (String.eqb (date n) (date note))) dailyNotes ++ [note].

(** [handleSaveNote], given the settlement of the save and of the
    reload that follows a failure. *)
Definition handleSaveNote {E : Type} (note : DailyNote)
           (saved : JS.Outcome E unit)
           (fetchedTrades : JS.Outcome E (list Trade))
           (fetchedNotes : JS.Outcome E (list DailyNote)) (st : State)
  : State * list Effect :=
  let st1 := setDailyNotes (withNote (dailyNotes st) note) st in
  match saved with
  | JS.Returned _ => (st1, [])
  | JS.Thrown _ =>
      let '(st2, effects) := loadData fetchedTrades fetchedNotes st1 in
      (st2, [ConsoleError "Error saving note:"; Alert "Failed to save note to cloud."]
              ++ effects)
  end.

(** The trades after the optimistic update of [handleSaveTrade]. *)
Definition withTrade (editingTrade : option Trade) (trade : Trade)
           (prev : list Trade) : list Trade :=
  match editingTrade with
  | Some _ => map (fun t => if String.eqb (id t) (id trade) then trade else t) prev
  | None => trade :: prev
  end.

(** [handleSaveTrade]. *)
Definition handleSaveTrade {E F : Type} (trade : Trade)
           (saved : JS.Outcome F unit)
           (fetchedTrades : JS.Outcome E (list Trade))
           (fetchedNotes : JS.Outcome E (list DailyNote)) (st : State)
  : State * list Effect :=
  let st1 :=
    mkState (withTrade (editingTrade st) trade (trades st)) (dailyNotes st)
            false None (aiModalOpen st) (aiAnalysis st) (isAnalyzing st) in
  match saved with
  | JS.Returned _ => (st1, [])
  | JS.Thrown _ =>
      let '(st2, effects) := loadData fetchedTrades fetchedNotes st1 in
      (st2, [ConsoleError "Failed to save trade:"; Alert "Failed to save trade to cloud."]
              ++ effects)
  end.

(** [handleDeleteTrade], given the answer to the confirmation. *)
Definition handleDeleteTrade {E : Type} (tradeId : string) (confirmed : bool)
           (deleted : JS.Outcome E unit)
           (fetchedTrades : JS.Outcome E (list Trade))
           (fetchedNotes : JS.Outcome E (list DailyNote)) (st : State)
  : State * list Effect :=
  if confirmed then
    let st1 := setTrades (filter (fun t => negb (String.eqb (id t) tradeId))) st in
    match deleted with
    | JS.Returned _ => (st1, [])
    | JS.Thrown _ =>
        let '(st2, effects) := loadData fetchedTrades fetchedNotes st1 in
        (st2, [ConsoleError "Failed to delete trade:";
               Alert "Failed to delete trade from cloud."] ++ effects)
    end
  else (st, []).

(** [handleAnalyzeTrade], given the settlement of the promise of
    [analyzeTradeWithAI]: a rejection would leave the handler before
    its last two updates. *)
Definition handleAnalyzeTrade {E : Type} (analysis : JS.Outcome E string) (st : State)
  : State :=
  let st1 := mkState (trades st) (dailyNotes st) (isFormOpen st) (editingTrade st)
                     true EmptyString true in
  match analysis with
  | JS.Returned result =>
      mkState (trades st) (dailyNotes st) (isFormOpen st) (editingTrade st)
              true result false
  | JS.Thrown _ => st1
  end.

End App.

(** ** src/components/TradeForm.tsx: further handlers *)

Module TradeFormHandlers.

Inductive PercentField : Type := SL | TP.

(** The price [handlePercentChange] derives from the entry price and a
    percentage. *)
Definition priceAt (field : PercentField) (isLong : bool) (entryPrice pct : Q) : Q :=
  match field, isLong with
  | SL, true | TP, false => entryPrice * (1 - pct / 100)
  | SL, false | TP, true => entryPrice * (1 + pct / 100)
  end.

(** [handlePercentChange]: the form after the update, [formData] being
    the state the handler reads and [prev] the state the update is
    applied to; [pct] is [None] when the input does not parse. *)
Definition handlePercentChange (field : PercentField) (pct : option Q)
           (formData prev : TradeForm.FormData) : TradeForm.FormData :=
  match TradeForm.f_entryPrice formData, pct with
  | Some entryPrice, Some pct =>
      if JS.truthy entryPrice then
        let isLong := TradeType_eqb (TradeForm.f_type formData) LONG in
        let newPrice := JS.toFixed2 (priceAt field isLong entryPrice pct) in
        match field with
        | SL => TradeForm.assign prev (TradeForm.ChangeNumber TradeForm.N_stopLoss
                                                              (Some newPrice))
        | TP => TradeForm.assign prev (TradeForm.ChangeNumber TradeForm.N_takeProfit
                                                              (Some newPrice))
        end
      else prev
  | _, _ => prev
  end.

(** The Buy and Sell buttons of the trade side:
    [setFormData(p => ({...p, type}))]. *)
Definition handleSideClick (type : TradeType) (p : TradeForm.FormData)
  : TradeForm.FormData :=
  TradeForm.assign p (TradeForm.ChangeType type).

(** [clearPnL]. *)
Definition clearPnL (prev : TradeForm.FormData) : TradeForm.FormData :=
  TradeForm.set_pnl prev None.

(** [handlePsychologyTag]. *)
Definition handlePsychologyTag (tag : string) (prev : TradeForm.FormData)
  : TradeForm.FormData :=
  let current := JS.or_string (TradeForm.f_notes prev) EmptyString in
  if Str.includes current ("#" ++ tag) then prev
  else
    let separator :=
      if (0 <? String.length current)%nat && negb (Str.endsWithSpace current)
      then " "%string else EmptyString in
    TradeForm.assign prev
                     (TradeForm.ChangeText TradeForm.T_notes
                                           (current ++ separator ++ "#" ++ tag)).

End TradeFormHandlers.

(** ** src/components/TradeForm.tsx: the symbol builder *)

Module TradeFormBuilder.

(** [INDIAN_INDICES], the index buttons. *)
Definition INDIAN_INDICES : list string :=
  ["NIFTY"; "BANKNIFTY"; "FINNIFTY"; "SENSEX"; "MIDCPNIFTY"]%string.

(** The table [LOT_SIZES]; a key that is not in the table reads as
    [undefined]. *)
Definition LOT_SIZES (key : string) : option Q :=
  if String.eqb key "NIFTY" then Some 75
  else if String.eqb key "BANKNIFTY" then Some 15
  else if String.eqb key "FINNIFTY" then Some 25
  else if String.eqb key "SENSEX" then Some 10
  else if String.eqb key "MIDCPNIFTY" then Some 50
  else if String.eqb key "RELIANCE" then Some 250
  else if String.eqb key "HDFCBANK" then Some 550
  else if String.eqb key "SBIN" then Some 1500
  else if String.eqb key "TATAMOTORS" then Some 1425
  else if String.eqb key "PBFINTECH" then Some 0
  else None.

(** The weekday [calculateExpiry] aims at, [-1] for none. *)
Definition targetDay (upperSymbol : string) : Z :=
  if Str.includes upperSymbol "MIDCPNIFTY" then 1
  else if Str.includes upperSymbol "FINNIFTY" then 2
  else if Str.includes upperSymbol "BANKNIFTY" then 3
  else if Str.includes upperSymbol "NIFTY" then 2
  else if Str.includes upperSymbol "SENSEX" then 5
  else (-1).

(** The days from the weekday [currentDay] to the next [targetDay]. *)
Definition daysUntil (targetDay currentDay : Z) : Z :=
  let daysUntil := (targetDay - currentDay)%Z in
  if (daysUntil <? 0)%Z then (daysUntil + 7)%Z else daysUntil.

(** What [toISOString] throws on an invalid date. *)
Inductive RangeError : Type := InvalidTimeValue.

(** [{ ...prev, symbol: idx, expiryDate: expiry, quantity: lotSize }]. *)
Definition withIndex (prev : TradeForm.FormData) (idx : string)
           (expiry : option string) (lotSize : option Q) : TradeForm.FormData :=
  let 'TradeForm.mkFormData i sy ty st ed xd ep xp q sl tp p su no ta := prev in
  TradeForm.mkFormData i (Some idx) ty st ed expiry ep xp lotSize sl tp p su no ta.

(** The host [Date]: [getDay] is the local weekday of
    [new Date(dateStr)], [None] when the string is no date, and
    [isoDateAfter dateStr n] the date part of [toISOString] after
    [setDate(getDate() + n)]. *)
Section Host.

Variable getDay : string -> option Z.
Variable isoDateAfter : string -> Z -> string.

(** [calculateExpiry]. *)
Definition calculateExpiry (symbol dateStr : string)
  : JS.Outcome RangeError (option string) :=
  let upperSymbol := TradeForm.toUpperCase symbol in
  let targetDay := targetDay upperSymbol in
  if (targetDay =? -1)%Z then JS.Returned None
  else
    match getDay dateStr with
    | Some currentDay =>
        JS.Returned (Some (isoDateAfter dateStr (daysUntil targetDay currentDay)))
    | None => JS.Thrown InvalidTimeValue
    end.

(** [handleIndexClick]: the update of the form, [today] being the
    date part of [new Date().toISOString()]. *)
Definition handleIndexClick (today idx : string) (formData prev : TradeForm.FormData)
  : JS.Outcome RangeError TradeForm.FormData :=
  let dateRef := JS.or_string (TradeForm.f_entryDate formData) today in
  expiry <- calculateExpiry idx dateRef ;;
  let lotSize := LOT_SIZES idx in
  JS.Returned (withIndex prev idx expiry lotSize).

(** [handleAutoExpiry]. *)
Definition handleAutoExpiry (today : string) (formData prev : TradeForm.FormData)
  : JS.Outcome RangeError TradeForm.FormData :=
  match TradeForm.f_symbol formData with
  | Some EmptyString | None => JS.Returned prev
  | Some symbol =>
      let dateRef := JS.or_string (TradeForm.f_entryDate formData) today in
      expiry <- calculateExpiry symbol dateRef ;;
      match expiry with
      | Some EmptyString | None => JS.Returned prev
      | Some expiry =>
          JS.Returned (TradeForm.assign prev
                         (TradeForm.ChangeText TradeForm.T_expiryDate expiry))
      end
  end.

End Host.

(** [handleBuilderStockChange]: the two updates of the form, in
    order. *)
Definition handleBuilderStockChange (value : string) (prev : TradeForm.FormData)
  : TradeForm.FormData :=
  let val := TradeForm.toUpperCase value in
  let prev :=
    match LOT_SIZES val with
    | Some lotSize =>
        if JS.truthy lotSize
        then TradeForm.assign prev (TradeForm.ChangeNumber TradeForm.N_quantity
                                                          (Some lotSize))
        else prev
    | None => prev
    end in
  TradeForm.assign prev (TradeForm.ChangeText TradeForm.T_symbol val).

End TradeFormBuilder.

(** ** src/components/Dashboard.tsx: the strategy chart *)

Module DashboardStrategy.

Record Slice : Type := mkSlice {
  s_name : string;
  value : Q
}.

(** [t.setup || 'Other']. *)
Definition setupOf (t : Trade) : string := JS.or_string (Some (setup t)) "Other".

(** The body of the [forEach] that fills [counts]. *)
Definition countSetup (counts : Dashboard.Obj) (t : Trade) : Dashboard.Obj :=
  let s := setupOf t in
  Dashboard.set counts s (JS.or_zero (Dashboard.get counts s) + 1).

(** [counts] after the [forEach]. *)
Definition counts (trades : list Trade) : Dashboard.Obj :=
  fold_left countSetup trades [].

(** The sign of a number, which is all a sort reads of what its
    comparator returns. *)
Definition sign (x : Q) : Z := Z.sgn (Qnum x).

(** [(a, b) => b.value - a.value]. *)
Definition byValueDescending (a b : Slice) : Z := sign (value b - value a).

(** [strategyData]. *)
Definition strategyData (trades : list Trade) : list Slice :=
  JS.Array_sort byValueDescending
                (map (fun e => mkSlice (fst e) (snd e)) (counts trades)).

End DashboardStrategy.

(** ** src/components/Dashboard.tsx: the note of a day *)

Module DashboardNotes.

(** The state of the day modal. *)
Record Editor : Type := mkEditor {
  selectedDay : option (string * string);
  noteContent : string;
  noteMood : Mood;
  dayDetailModalOpen : bool
}.

(** [handleDayClick]; [displayDate] is the long form the host gives
    for the date string. *)
Definition handleDayClick (displayDate : string -> string)
           (dailyNotes : list DailyNote) (dateStr : string) (ed : Editor) : Editor :=
  let existingNote := Dashboard.findNote dailyNotes dateStr in
  mkEditor (Some (dateStr, displayDate dateStr))
           (match existingNote with
            | Some n => JS.or_string (Some (content n)) EmptyString
            | None => EmptyString
            end)
           (match existingNote with
            | Some n => match mood n with Some m => m | None => Neutral end
            | None => Neutral
            end)
           true.

(** [saveCurrentNote]: the note handed to [onSaveNote], if any, and
    the state of the modal. *)
Definition saveCurrentNote (ed : Editor) : option DailyNote * Editor :=
  match selectedDay ed with
  | Some (dateStr, _) =>
      (Some (mkDailyNote dateStr (noteContent ed) (Some (noteMood ed))),
       mkEditor (selectedDay ed) (noteContent ed) (noteMood ed) false)
  | None => (None, ed)
  end.

End DashboardNotes.

(** ** src/components/TradeForm.tsx: the option type buttons *)

Module TradeFormSymbol.

(** The white space [trim] removes, among the code units below 256. *)
Definition isWhiteSpace (c : ascii) : bool :=
  let n := nat_of_ascii c in
  ((9 <=? n)%nat && (n <=? 13)%nat) || (n =? 32)%nat || (n =? 160)%nat.

Fixpoint trimStart (s : string) : string :=
  match s with
  | EmptyString => EmptyString
  | String c r => if isWhiteSpace c then trimStart r else s
  end.

Fixpoint trimEnd (s : string) : string :=
  match s with
  | EmptyString => EmptyString
  | String c r =>
      match trimEnd r with
      | EmptyString => if isWhiteSpace c then EmptyString else String c EmptyString
      | r' => String c r'
      end
  end.

(** [s.trim()]. *)
Definition trim (s : string) : string := trimEnd (trimStart s).

(** [s.split(' ')]. *)
Fixpoint split (s : string) : list string :=
  match s with
  | EmptyString => [EmptyString]
  | String c r =>
      if Ascii.eqb c " "%char then EmptyString :: split r
      else
        match split r with
        | h :: t => String c h :: t
        | [] => [String c EmptyString]
        end
  end.

(** [parts.join(' ')]. *)
Fixpoint join (parts : list string) : string :=
  match parts with
  | [] => EmptyString
  | x :: r =>
      match r with
      | [] => x
      | _ :: _ => (x ++ " " ++ join r)%string
      end
  end.

(** [OPTION_TYPES], the buttons. *)
Definition OPTION_TYPES : list string := ["CE"; "PE"; "FUT"]%string.

(** [['CE', 'PE', 'FUT'].includes(lastPart)]. *)
Definition isOptionType (lastPart : string) : bool :=
  existsb (String.eqb lastPart) ["CE"; "PE"; "FUT"]%string.

(** The symbol the builder gives, when the first branch of the handler
    returns. *)
Definition builtSymbol (type builderStock builderStrike : string) : option string :=
  match builderStock with
  | EmptyString => None
  | _ =>
      if String.eqb type "FUT"
      then Some (TradeForm.toUpperCase builderStock ++ " FUT")%string
      else
        match builderStrike with
        | EmptyString => None
        | _ => Some (TradeForm.toUpperCase builderStock ++ " " ++ builderStrike
                       ++ " " ++ type)%string
        end
  end.

(** The symbol typed by hand, with its option type replaced. *)
Definition retyped (type : string) (symbol : option string) : string :=
  let current := trim (JS.or_string symbol EmptyString) in
  let parts := split current in
  let lastPart := List.last parts EmptyString in
  let current :=
    if isOptionType lastPart then join (List.removelast parts) else current in
  match current with
  | EmptyString => type
  | _ => trim (current ++ " " ++ type)
  end.

(** [handleOptionTypeClick]. *)
Definition handleOptionTypeClick (type builderStock builderStrike : string)
           (prev : TradeForm.FormData) : TradeForm.FormData :=
  match builtSymbol type builderStock builderStrike with
  | Some newSymbol =>
      TradeForm.assign prev (TradeForm.ChangeText TradeForm.T_symbol newSymbol)
  | None =>
      TradeForm.assign prev
                       (TradeForm.ChangeText TradeForm.T_symbol
                                             (retyped type (TradeForm.f_symbol prev)))
  end.

End TradeFormSymbol.

(** ** A host for the examples *)

(** The [Date] readings of a host whose time zone is UTC, on entry
    dates of the form [YYYY-MM-DD], which the form produces and which
    are read as midnight UTC. *)
Module UTCHost.

Definition field (s : string) (start len : nat) : Z :=
  match JS.parseInt (Some (substring start len s)) with
  | Some n => n
  | None => 0%Z
  end.

Definition getFullYear (s : string) : nat := Z.to_nat (field s 0 4).

Definition getMonth (s : string) : nat := Z.to_nat (field s 5 2 - 1).

Definition getTime (s : string) : Z :=
  ((JS.Date.daysFromEpoch (field s 0 4) (field s 5 2 - 1) + field s 8 2 - 1)
   * 86400000)%Z.

End UTCHost.

(** Trades for the examples: a closed trade of the given identifier,
    entry date and realized P&L. *)
Definition closedTrade (i d : string) (p : option Q) : Trade :=
  mkTrade i "NIFTY" LONG CLOSED d None 100 None 75 None None p
          "General" EmptyString [].

(** A row of a closed trade that broke even: the stored P&L is 0. *)
Definition zeroPnlRow : TradeRow :=
  mkTradeRow "7f3c" "NIFTY" LONG CLOSED "2024-01-05T00:00:00+00:00" None
             (Some 100) (Some 100) (Some 75) None None (Some 0)
             (Some "General"%string) None None.

(** ** Vocabulary of the statements *)

(** The realized P&L of a trade as a number, 0 when it is absent. *)
Definition realized (t : Trade) : Q :=
  match pnl t with
  | Some x => x
  | None => 0
  end.

(** The sum of the realized P&L of a collection of trades. *)
Definition sumPnl (l : list Trade) : Q :=
  fold_right (fun t acc => realized t + acc) 0 l.

(** A closed trade whose P&L is present. *)
Definition closedWithPnl (t : Trade) : bool :=
  Dashboard.isClosed t && Dashboard.hasPnl t.

(** What the loop keeps true of its three variables: the running win
    counter never exceeds the maximum, it is the current streak while
    that is a win streak, and it is 0 otherwise. *)
Definition streakInv (s : Dashboard.Streaks) : Prop :=
  (0 <= Dashboard.currentWinStreakCounter s <= Dashboard.s_maxWinStreak s)%Z /\
  ((0 < Dashboard.s_currentStreak s)%Z ->
   Dashboard.s_currentStreak s = Dashboard.currentWinStreakCounter s) /\
  ((Dashboard.s_currentStreak s <= 0)%Z -> Dashboard.currentWinStreakCounter s = 0%Z).

(** The closed trades of a collection whose bucket key is [key]. *)
Definition monthBucket (getFullYear getMonth : string -> nat) (key : string)
           (trades : list Trade) : list Trade :=
  filter (fun t => Dashboard.isClosed t
                   && String.eqb (Dashboard.monthKey getFullYear getMonth t) key)
         trades.

(** A year written with four digits, from 1000 to 9999. *)
Definition fourDigits (y : nat) : Prop := (10 * 100 <= y < 100 * 100)%nat.

(** The [len] numbers from [start] on. *)
Fixpoint Nseq (start : N) (len : nat) : list N :=
  match len with
  | O => []
  | S len' => start :: Nseq (N.succ start) len'
  end.

(** The chronological order of two (year, month) pairs. *)
Definition monthBefore (y1 m1 y2 m2 : nat) : Prop :=
  (y1 < y2)%nat \/ (y1 = y2 /\ (m1 < m2)%nat).

(** What holds of [data] after the trades [l] went through the
    [forEach] of the monthly aggregation: one entry per key met,
    holding the sum of the trades of that key. *)
Definition monthlyInv (getFullYear getMonth : string -> nat)
           (l : list Trade) (data : Dashboard.Obj) : Prop :=
  NoDup (map fst data) /\
  forall k : string,
    match Dashboard.get data k with
    | Some v =>
        (exists t, In t l /\ Dashboard.monthKey getFullYear getMonth t = k) /\
        v == sumPnl (filter (fun t => String.eqb (Dashboard.monthKey getFullYear getMonth t) k) l)
    | None => forall t, In t l -> Dashboard.monthKey getFullYear getMonth t <> k
    end.

(** A win of the statistics: a P&L above 0. *)
Definition isWin (t : Trade) : bool := JS.gt (JS.or_zero (pnl t)) 0.

(** The number of elements at the head of a list that satisfy [p]. *)
Fixpoint leadingRun {A : Type} (p : A -> bool) (l : list A) : nat :=
  match l with
  | [] => O
  | x :: r => if p x then S (leadingRun p r) else O
  end.

(** The number of elements at the end of a list that satisfy [p]. *)
Definition trailingRun {A : Type} (p : A -> bool) (l : list A) : nat :=
  leadingRun p (rev l).

(** [b] is a run of consecutive wins somewhere in [l]. *)
Definition winRun (l b : list Trade) : Prop :=
  (exists a c, l = a ++ b ++ c) /\ forallb isWin b = true.

(** The sum of the values of an object. *)
Definition sumEntries (data : Dashboard.Obj) : Q :=
  fold_right (fun e acc => snd e + acc) 0 data.

(** The sum of the bars of the monthly chart. *)
Definition sumBars (points : list Dashboard.MonthPoint) : Q :=
  fold_right (fun p acc => Dashboard.m_pnl p + acc) 0 points.

(** An optional number that is absent or is not 0. *)
Definition absentOrNonzero (v : option Q) : Prop :=
  match v with
  | Some x => ~ x == 0
  | None => True
  end.

(** The trades of a list whose entry time is [k], in their order. *)
Definition enteredAt (getTime : string -> Z) (k : Z) (l : list Trade) : list Trade :=
  filter (fun t => (getTime (entryDate t) =? k)%Z) l.

(** Is the effect an alert? *)
Definition isAlert (e : App.Effect) : bool :=
  match e with
  | App.Alert _ => true
  | App.ConsoleError _ => false
  end.

(** The names every object inherits from [Object.prototype]. *)
Definition inheritedNames : list string :=
  ["constructor"; "hasOwnProperty"; "isPrototypeOf"; "propertyIsEnumerable";
   "toLocaleString"; "toString"; "valueOf"; "__proto__";
   "__defineGetter__"; "__defineSetter__"; "__lookupGetter__";
   "__lookupSetter__"]%string.

(** Is the string made of decimal digits only? *)
Fixpoint allDigits (s : string) : bool :=
  match s with
  | EmptyString => true
  | String c r =>
      (48 <=? nat_of_ascii c)%nat && (nat_of_ascii c <=? 57)%nat && allDigits r
  end.

(** A key that an object used as a map treats as an ordinary one: it
    is no inherited name and is not listed among the array indices. *)
Definition ordinaryKey (s : string) : bool :=
  negb (allDigits s) && negb (existsb (String.eqb s) inheritedNames).

(** The number of trades of a setup. *)
Definition tradesOfSetup (name : string) (trades : list Trade) : nat :=
  List.length (filter (fun t => String.eqb (DashboardStrategy.setupOf t) name) trades).

(** The sum of the slices of the strategy chart. *)
Definition sumSlices (data : list DashboardStrategy.Slice) : Q :=
  fold_right (fun p acc => DashboardStrategy.value p + acc) 0 data.

(** The first character of a string is no white space. *)
Definition startsSolid (s : string) : Prop :=
  match s with
  | EmptyString => False
  | String c _ => TradeFormSymbol.isWhiteSpace c = false
  end.

(** The last character of a string is no white space. *)
Definition endsSolid (s : string) : Prop :=
  match Str.lastChar s with
  | Some c => TradeFormSymbol.isWhiteSpace c = false
  | None => False
  end.

(** A string without a space. *)
Definition noSpace (s : string) : Prop := TradeFormSymbol.split s = [s].

(** What is left of the trimmed symbol once a trailing option type is
    taken off. *)
Definition stem (symbol : option string) : string :=
  let current := TradeFormSymbol.trim (JS.or_string symbol EmptyString) in
  let parts := TradeFormSymbol.split current in
  if TradeFormSymbol.isOptionType (List.last parts EmptyString)
  then TradeFormSymbol.join (List.removelast parts) else current.

(** A string without a hyphen. *)
Fixpoint dashFree (s : string) : bool :=
  match s with
  | EmptyString => true
  | String c r => negb (Ascii.eqb c "-") && dashFree r
  end.

(** * Properties *)

(** ** Numbers *)

Section NumberFacts.

Lemma gt_iff (x y : Q) : JS.gt x y = true <-> y < x.
Proof.
  unfold JS.gt. rewrite negb_true_iff.
  split; intro H.
  - apply Qnot_le_lt. intro Hle. apply Qle_bool_iff in Hle. congruence.
  - destruct (Qle_bool x y) eqn:E; [|reflexivity].
    apply Qle_bool_iff in E. exfalso. apply (Qlt_not_le _ _ H E).
Qed.

Lemma gt_false_iff (x y : Q) : JS.gt x y = false <-> x <= y.
Proof.
  unfold JS.gt. rewrite negb_false_iff. apply Qle_bool_iff.
Qed.

Lemma le_iff (x y : Q) : JS.le x y = true <-> x <= y.
Proof. apply Qle_bool_iff. Qed.

Lemma or_zero_Some (x : Q) : JS.or_zero (Some x) == x.
Proof.
  unfold JS.or_zero, JS.truthy.
  destruct (Qeq_bool x 0) eqn:E; simpl; [|reflexivity].
  apply Qeq_bool_iff in E. symmetry. exact E.
Qed.




Lemma abs_pos_iff (x y : Q) : 0 < Qabs (x - y) <-> ~ x == y.
Proof.
  split.
  - intros H E. rewrite E in H.
    assert (Z0 : y - y == 0) by ring. rewrite Z0 in H. simpl in H.
    apply (Qlt_irrefl 0 H).
  - intro N. apply Qnot_le_lt. intro Hle.
    apply N. pose proof (Qabs_nonneg (x - y)) as Hn.
    assert (Ez : Qabs (x - y) == 0) by (apply Qle_antisym; assumption).
    revert Ez. apply Qabs_case; intros; lra.
Qed.

End NumberFacts.

(** ** Position sizing *)

Section PositionSizing.

Import PositionCalculator.

Variables capital riskPercent entryPrice stopLoss : Q.
Variable instrument : string.

(** Outside the guard [entryPrice > 0 && stopLoss > 0] nothing is
    computed, not even the stop distance. *)
Lemma results_unguarded :
  entryPrice <= 0 \/ stopLoss <= 0 ->
  results capital riskPercent entryPrice stopLoss instrument
  = mkResults (capital * riskPercent / 100) 0 0 0 0.
Proof.
  intro H. unfold results.
  destruct H as [H | H]; apply gt_false_iff in H; rewrite H.
  - reflexivity.
  - rewrite andb_false_r. reflexivity.
Qed.

Lemma results_flat :
  0 < entryPrice -> 0 < stopLoss -> entryPrice == stopLoss ->
  results capital riskPercent entryPrice stopLoss instrument
  = mkResults (capital * riskPercent / 100) (Qabs (entryPrice - stopLoss)) 0 0 0.
Proof.
  intros He Hs Heq. unfold results.
  apply gt_iff in He. apply gt_iff in Hs. rewrite He, Hs. cbn [andb].
  assert (Hz : JS.gt (JS.Math_abs (entryPrice - stopLoss)) 0 = false).
  { apply gt_false_iff. apply Qnot_lt_le. intro Hp.
    apply abs_pos_iff in Hp. contradiction. }
  rewrite Hz. reflexivity.
Qed.

Lemma results_sized :
  0 < entryPrice -> 0 < stopLoss -> 0 < Qabs (entryPrice - stopLoss) ->
  results capital riskPercent entryPrice stopLoss instrument
  = let risk := capital * riskPercent / 100 in
    let dist := Qabs (entryPrice - stopLoss) in
    let raw := JS.Math_floor (risk / dist) in
    match lotSize_gt_1 (INDICES_LOT_SIZES instrument) with
    | Some l =>
        let lots := JS.Math_floor (raw / l) in
        mkResults (capital * riskPercent / 100) (Qabs (entryPrice - stopLoss)) (lots * l) lots (lots * l * entryPrice)
    | None => mkResults (capital * riskPercent / 100) (Qabs (entryPrice - stopLoss)) raw raw (raw * entryPrice)
    end.
Proof.
  intros He Hs Hd. unfold results.
  apply gt_iff in He. apply gt_iff in Hs. rewrite He, Hs. cbn [andb].
  apply gt_iff in Hd. unfold JS.Math_abs. rewrite Hd.
  reflexivity.
Qed.

Lemma lotSize_gt_1_big (l : Q) : 1 < l -> lotSize_gt_1 (Some l) = Some l.
Proof. intro H. simpl. apply gt_iff in H. rewrite H. reflexivity. Qed.

Lemma lotSize_gt_1_small (l : Q) : l <= 1 -> lotSize_gt_1 (Some l) = None.
Proof. intro H. simpl. apply gt_false_iff in H. rewrite H. reflexivity. Qed.

(** Every lot size of the table is 1 or more, and only 1 is not more
    than 1. *)
Lemma table_lot_sizes (l : Q) :
  INDICES_LOT_SIZES instrument = Some l -> l = 1 \/ 1 < l.
Proof.
  unfold INDICES_LOT_SIZES.
  repeat match goal with
         | |- context [String.eqb ?a ?b] => destruct (String.eqb a b)
         end;
    intro H; inversion H; subst; (left; reflexivity) || (right; reflexivity).
Qed.

Lemma lotSize_gt_1_table :
  match lotSize_gt_1 (INDICES_LOT_SIZES instrument) with
  | Some l => lotSize instrument = l /\ 1 < l
  | None => lotSize instrument = 1
  end.
Proof.
  unfold lotSize.
  destruct (INDICES_LOT_SIZES instrument) as [l|] eqn:E; [|reflexivity].
  destruct (table_lot_sizes l E) as [-> | H].
  - reflexivity.
  - rewrite (lotSize_gt_1_big l H). split; [reflexivity | exact H].
Qed.

End PositionSizing.






Lemma div_nonneg (a d : Q) : 0 <= a -> 0 < d -> 0 <= a / d.
Proof.
  intros Ha Hd. apply Qle_shift_div_l; [exact Hd|]. rewrite Qmult_0_l. exact Ha.
Qed.




(** ** Sorting and sums *)

Section SortFacts.

Context {A : Type}.
Variable compareFn : A -> A -> Z.

Lemma sort_insert_perm (x : A) (l : list A) :
  Permutation (JS.sort_insert compareFn x l) (x :: l).
Proof.
  induction l as [|y r IH]; simpl.
  - apply Permutation_refl.
  - destruct (0 <? compareFn x y)%Z.
    + apply perm_trans with (y :: x :: r).
      * apply perm_skip. exact IH.
      * apply perm_swap.
    + apply Permutation_refl.
Qed.

(** Sorting rearranges, it neither drops nor adds an element. *)
Lemma Array_sort_perm (l : list A) : Permutation (JS.Array_sort compareFn l) l.
Proof.
  induction l as [|x r IH]; simpl.
  - apply perm_nil.
  - apply perm_trans with (x :: JS.Array_sort compareFn r).
    + apply sort_insert_perm.
    + apply perm_skip. exact IH.
Qed.

Lemma Array_sort_In (x : A) (l : list A) :
  In x (JS.Array_sort compareFn l) <-> In x l.
Proof.
  split; apply Permutation_in.
  - apply Array_sort_perm.
  - apply Permutation_sym. apply Array_sort_perm.
Qed.

Lemma Array_sort_length (l : list A) :
  List.length (JS.Array_sort compareFn l) = List.length l.
Proof. apply Permutation_length. apply Array_sort_perm. Qed.

End SortFacts.

Section SumFacts.

Lemma realized_or_zero (t : Trade) : JS.or_zero (pnl t) == realized t.
Proof.
  unfold realized. destruct (pnl t) as [x|]; [apply or_zero_Some | reflexivity].
Qed.

(** The [reduce] with [addPnl] is the sum of the realized P&L on top
    of the initial accumulator. *)
Lemma fold_addPnl (l : list Trade) (acc : Q) :
  fold_left Dashboard.addPnl l acc == acc + sumPnl l.
Proof.
  revert acc. induction l as [|t r IH]; intro acc; simpl.
  - ring.
  - rewrite IH. unfold Dashboard.addPnl. rewrite realized_or_zero. ring.
Qed.

Lemma reduce_addPnl (l : list Trade) : fold_left Dashboard.addPnl l 0 == sumPnl l.
Proof. rewrite fold_addPnl. ring. Qed.

Lemma sumPnl_app (l1 l2 : list Trade) : sumPnl (l1 ++ l2) == sumPnl l1 + sumPnl l2.
Proof.
  induction l1 as [|t r IH]; simpl.
  - ring.
  - rewrite IH. ring.
Qed.

(** The sum does not depend on the order of the trades. *)
Lemma sumPnl_perm (l1 l2 : list Trade) : Permutation l1 l2 -> sumPnl l1 == sumPnl l2.
Proof.
  induction 1 as [|t l l' _ IH|t u l|l l' l'' _ IH1 _ IH2]; simpl.
  - reflexivity.
  - rewrite IH. reflexivity.
  - ring.
  - rewrite IH1. exact IH2.
Qed.

(** A collection splits into its wins and its losses. *)
Lemma sumPnl_split (l : list Trade) :
  sumPnl l
  == sumPnl (filter (fun t => JS.gt (JS.or_zero (pnl t)) 0) l)
     + sumPnl (filter (fun t => JS.le (JS.or_zero (pnl t)) 0) l).
Proof.
  induction l as [|t r IH]; simpl.
  - reflexivity.
  - unfold JS.gt, JS.le.
    destruct (Qle_bool (JS.or_zero (pnl t)) 0); simpl; rewrite IH;
      unfold JS.gt, JS.le; ring.
Qed.

Lemma sumPnl_losses_nonpos (l : list Trade) :
  sumPnl (filter (fun t => JS.le (JS.or_zero (pnl t)) 0) l) <= 0.
Proof.
  induction l as [|t r IH]; simpl.
  - apply Qle_refl.
  - destruct (JS.le (JS.or_zero (pnl t)) 0) eqn:E; [|exact IH].
    simpl. apply le_iff in E. rewrite realized_or_zero in E. lra.
Qed.

Lemma sumPnl_wins_nonneg (l : list Trade) :
  0 <= sumPnl (filter (fun t => JS.gt (JS.or_zero (pnl t)) 0) l).
Proof.
  induction l as [|t r IH]; simpl.
  - apply Qle_refl.
  - destruct (JS.gt (JS.or_zero (pnl t)) 0) eqn:E; [|exact IH].
    simpl. apply gt_iff in E. rewrite realized_or_zero in E. lra.
Qed.

End SumFacts.

Lemma filter_perm {A : Type} (f : A -> bool) (l l' : list A) :
  Permutation l l' -> Permutation (filter f l) (filter f l').
Proof.
  induction 1 as [|x l l' _ IH|x y l|l l' l'' _ IH1 _ IH2]; simpl.
  - apply perm_nil.
  - destruct (f x); [apply perm_skip|]; exact IH.
  - destruct (f x), (f y); try apply Permutation_refl. apply perm_swap.
  - apply perm_trans with (filter f l'); assumption.
Qed.

(** ** The statistics engine *)

Section StatsFacts.

Variable getTime : string -> Z.

Lemma closedTrades_perm (trades : list Trade) :
  Permutation (Dashboard.closedTrades getTime trades) (filter closedWithPnl trades).
Proof. unfold Dashboard.closedTrades. apply Array_sort_perm. Qed.

Lemma totalWinPnl_sum (trades : list Trade) :
  Dashboard.totalWinPnl getTime trades == sumPnl (Dashboard.wins getTime trades).
Proof. apply reduce_addPnl. Qed.

Lemma totalLossPnl_sum (trades : list Trade) :
  Dashboard.totalLossPnl getTime trades == - sumPnl (Dashboard.losses getTime trades).
Proof.
  unfold Dashboard.totalLossPnl, JS.Math_abs. rewrite reduce_addPnl.
  apply Qabs_neg. apply sumPnl_losses_nonpos.
Qed.

Lemma totalWinPnl_nonneg (trades : list Trade) :
  0 <= Dashboard.totalWinPnl getTime trades.
Proof. rewrite totalWinPnl_sum. apply sumPnl_wins_nonneg. Qed.

Lemma totalLossPnl_nonneg (trades : list Trade) :
  0 <= Dashboard.totalLossPnl getTime trades.
Proof. apply Qabs_nonneg. Qed.

Lemma netPnL_closed (trades : list Trade) :
  netPnL (Dashboard.stats getTime trades) == sumPnl (filter closedWithPnl trades).
Proof.
  cbn [Dashboard.stats netPnL].
  rewrite totalWinPnl_sum, totalLossPnl_sum.
  rewrite <- (sumPnl_perm _ _ (closedTrades_perm trades)).
  rewrite (sumPnl_split (Dashboard.closedTrades getTime trades)).
  unfold Dashboard.wins, Dashboard.losses. ring.
Qed.

End StatsFacts.

(** Claim C3.  The net P&L of the statistics is the sum of the realized
    P&L over exactly the closed trades whose P&L is present, and it is
    the same for every rearrangement of the collection. *)
Theorem netPnL_sum_invariant (getTime : string -> Z) (trades trades' : list Trade) :
  Permutation trades trades' ->
  netPnL (Dashboard.stats getTime trades) == sumPnl (filter closedWithPnl trades) /\
  netPnL (Dashboard.stats getTime trades') == netPnL (Dashboard.stats getTime trades).
Proof.
  intro H. split; [apply netPnL_closed|].
  rewrite !netPnL_closed. apply sumPnl_perm. apply filter_perm.
  apply Permutation_sym. exact H.
Qed.

(** Two closed trades and an open one, stored in two orders. *)
Lemma netPnL_sum_invariant_witness :
  let a := closedTrade "a" "2024-01-05" (Some 100) in
  let b := closedTrade "b" "2024-01-20" (Some (-40)) in
  let c := closedTrade "c" "2024-02-01" None in
  Permutation [a; b; c] [c; b; a] /\
  netPnL (Dashboard.stats UTCHost.getTime [c; b; a])
  == netPnL (Dashboard.stats UTCHost.getTime [a; b; c]).
Proof.
  intros a b c.
  assert (H : Permutation [a; b; c] [c; b; a]).
  { apply perm_trans with [b; a; c]; [apply perm_swap|].
    apply perm_trans with [b; c; a]; [apply perm_skip; apply perm_swap|].
    apply perm_swap. }
  split; [exact H|].
  exact (proj2 (netPnL_sum_invariant UTCHost.getTime [a; b; c] [c; b; a] H)).
Defined.

Section ProfitFactorFacts.

Variable getTime : string -> Z.
Variable trades : list Trade.

Lemma profitFactor_ratio :
  0 < (Dashboard.totalLossPnl getTime trades) -> profitFactor (Dashboard.stats getTime trades) == (Dashboard.totalWinPnl getTime trades) / (Dashboard.totalLossPnl getTime trades).
Proof.
  intro H. cbn [Dashboard.stats profitFactor].
  apply gt_iff in H. rewrite H. reflexivity.
Qed.

Lemma profitFactor_sentinel :
  (Dashboard.totalLossPnl getTime trades) == 0 -> 0 < (Dashboard.totalWinPnl getTime trades) -> profitFactor (Dashboard.stats getTime trades) == 999.
Proof.
  intros H0 HW. cbn [Dashboard.stats profitFactor].
  assert (H : JS.gt (Dashboard.totalLossPnl getTime trades) 0 = false) by (apply gt_false_iff; rewrite H0; apply Qle_refl).
  apply gt_iff in HW. rewrite H, HW. reflexivity.
Qed.

Lemma profitFactor_zero :
  (Dashboard.totalLossPnl getTime trades) == 0 -> (Dashboard.totalWinPnl getTime trades) == 0 -> profitFactor (Dashboard.stats getTime trades) == 0.
Proof.
  intros H0 HW. cbn [Dashboard.stats profitFactor].
  assert (H : JS.gt (Dashboard.totalLossPnl getTime trades) 0 = false) by (apply gt_false_iff; rewrite H0; apply Qle_refl).
  assert (H' : JS.gt (Dashboard.totalWinPnl getTime trades) 0 = false) by (apply gt_false_iff; rewrite HW; apply Qle_refl).
  rewrite H, H'. reflexivity.
Qed.

End ProfitFactorFacts.

(** Claim C4.  With the total win amount the sum of the positive P&L
    and the total loss amount the magnitude of the sum of the others,
    the profit factor is their ratio when the loss amount is positive,
    999 when it is 0 and the win amount is positive, and 0 when both
    are 0; no other case exists.  Entering entry 100, exit 120 and
    quantity 10 on the long side computes the P&L 200, and the
    statistics of that trade alone, once closed, are net P&L 200, win
    rate 100, average loss 0 and profit factor 999. *)
Theorem profitFactor_cases (getTime : string -> Z) (trades : list Trade) :
  let s := Dashboard.stats getTime trades in
  let totalWinAmount := Dashboard.totalWinPnl getTime trades in
  let totalLossAmount := Dashboard.totalLossPnl getTime trades in
  (totalWinAmount == sumPnl (Dashboard.wins getTime trades) /\
   totalLossAmount == - sumPnl (Dashboard.losses getTime trades) /\
   0 <= totalWinAmount /\ 0 <= totalLossAmount) /\
  (0 < totalLossAmount -> profitFactor s == totalWinAmount / totalLossAmount) /\
  (totalLossAmount == 0 -> 0 < totalWinAmount -> profitFactor s == 999) /\
  (totalLossAmount == 0 -> totalWinAmount == 0 -> profitFactor s == 0) /\
  (forall today freshId now : string,
      let form :=
        fold_left TradeForm.handleChange
                  [TradeForm.ChangeText TradeForm.T_symbol "nifty";
                   TradeForm.ChangeNumber TradeForm.N_entryPrice (Some 100);
                   TradeForm.ChangeNumber TradeForm.N_exitPrice (Some 120);
                   TradeForm.ChangeNumber TradeForm.N_quantity (Some 10);
                   TradeForm.ChangeStatus CLOSED]
                  (TradeForm.initialFormData today) in
      exists (trade : Trade) (p : Q),
        TradeForm.handleSubmit None freshId now form = Some trade /\
        type trade = LONG /\ status trade = CLOSED /\
        entryPrice trade == 100 /\ exitPrice trade = Some 120 /\ quantity trade == 10 /\
        pnl trade = Some p /\ p == 200 /\
        let one := Dashboard.stats getTime [trade] in
        totalTrades one = 1%nat /\ netPnL one == 200 /\ winRate one == 100 /\
        avgLoss one == 0 /\ profitFactor one == 999).
Proof.
  cbv zeta. split; [|split; [|split; [|split]]].
  - split; [apply totalWinPnl_sum|]. split; [apply totalLossPnl_sum|].
    split; [apply totalWinPnl_nonneg | apply totalLossPnl_nonneg].
  - apply profitFactor_ratio.
  - apply profitFactor_sentinel.
  - apply profitFactor_zero.
  - intros today freshId now.
    eexists. eexists.
    split; [vm_compute; reflexivity|].
    repeat split; reflexivity.
Qed.

(** The statistics of one winning and one losing trade, through
    [profitFactor_cases]. *)
Lemma profitFactor_cases_witness :
  let trades := [closedTrade "a" "2024-01-05" (Some 100);
                 closedTrade "b" "2024-01-20" (Some (-40))] in
  0 < Dashboard.totalLossPnl UTCHost.getTime trades /\
  profitFactor (Dashboard.stats UTCHost.getTime trades)
  == Dashboard.totalWinPnl UTCHost.getTime trades
     / Dashboard.totalLossPnl UTCHost.getTime trades.
Proof.
  intro trades.
  assert (H : 0 < Dashboard.totalLossPnl UTCHost.getTime trades) by reflexivity.
  split; [exact H|].
  exact (proj1 (proj2 (profitFactor_cases UTCHost.getTime trades)) H).
Defined.

(** ** The streak scan *)

Section StreakFacts.

Lemma streakInv_init : streakInv (Dashboard.mkStreaks 0 0 0).
Proof. unfold streakInv; simpl. lia. Qed.

Lemma streakStep_inv (s : Dashboard.Streaks) (t : Trade) :
  streakInv s -> streakInv (Dashboard.streakStep s t).
Proof.
  destruct s as [c m cs]. unfold streakInv, Dashboard.streakStep, JS.Math_max.
  cbn [Dashboard.currentWinStreakCounter Dashboard.s_maxWinStreak
       Dashboard.s_currentStreak].
  intros (Hc & Hpos & Hneg).
  destruct (JS.gt (JS.or_zero (pnl t)) 0);
    cbn [Dashboard.currentWinStreakCounter Dashboard.s_maxWinStreak
         Dashboard.s_currentStreak].
  - destruct (Z.leb_spec 0 cs); lia.
  - destruct (Z.leb_spec cs 0); lia.
Qed.

Lemma streak_loop_inv (l : list Trade) (s : Dashboard.Streaks) :
  streakInv s -> streakInv (fold_left Dashboard.streakStep l s).
Proof.
  revert s. induction l as [|t r IH]; intros s H; simpl.
  - exact H.
  - apply IH. apply streakStep_inv. exact H.
Qed.

Variable getTime : string -> Z.

Lemma byDateThenId_earlier (a b : Trade) :
  (getTime (entryDate a) < getTime (entryDate b))%Z ->
  (0 <? Dashboard.byDateThenId getTime a b)%Z = false.
Proof.
  intro H. unfold Dashboard.byDateThenId.
  destruct (Z.eqb_spec (getTime (entryDate a) - getTime (entryDate b)) 0) as [E|E];
    [lia|]. cbn [negb]. apply Z.ltb_ge. lia.
Qed.

Lemma byDateThenId_later (a b : Trade) :
  (getTime (entryDate b) < getTime (entryDate a))%Z ->
  (0 <? Dashboard.byDateThenId getTime a b)%Z = true.
Proof.
  intro H. unfold Dashboard.byDateThenId.
  destruct (Z.eqb_spec (getTime (entryDate a) - getTime (entryDate b)) 0) as [E|E];
    [lia|]. cbn [negb]. apply Z.ltb_lt. lia.
Qed.

(** Three closed trades with a P&L, stored oldest first or newest
    first, are scanned oldest first. *)
Lemma closedTrades_three (t1 t2 t3 : Trade) :
  closedWithPnl t1 = true -> closedWithPnl t2 = true -> closedWithPnl t3 = true ->
  (getTime (entryDate t1) < getTime (entryDate t2))%Z ->
  (getTime (entryDate t2) < getTime (entryDate t3))%Z ->
  Dashboard.closedTrades getTime [t1; t2; t3] = [t1; t2; t3] /\
  Dashboard.closedTrades getTime [t3; t2; t1] = [t1; t2; t3].
Proof.
  intros C1 C2 C3 H12 H23. unfold Dashboard.closedTrades.
  fold closedWithPnl. cbn [filter]. rewrite C1, C2, C3.
  cbn [JS.Array_sort fold_right JS.sort_insert].
  assert (H13 : (getTime (entryDate t1) < getTime (entryDate t3))%Z) by lia.
  split.
  - rewrite (byDateThenId_earlier t2 t3 H23). cbn [JS.sort_insert].
    rewrite (byDateThenId_earlier t1 t2 H12). reflexivity.
  - rewrite (byDateThenId_later t2 t1 H12). cbn [JS.sort_insert].
    rewrite (byDateThenId_later t3 t1 H13). cbn [JS.sort_insert].
    rewrite (byDateThenId_later t3 t2 H23). reflexivity.
Qed.

Lemma streakStep_pnl (s : Dashboard.Streaks) (t : Trade) (p : Q) :
  pnl t = Some p ->
  Dashboard.streakStep s t
  = Dashboard.streakStep s (closedTrade EmptyString EmptyString (Some p)).
Proof. intro H. unfold Dashboard.streakStep. rewrite H. reflexivity. Qed.

End StreakFacts.

(** Claim C5.  After the pass over the closed trades in the order of
    their entry time, ties broken by the identifier, the maximum win
    streak is at least the current streak whenever the current streak is
    positive; three closed trades with the P&L -50, 100 and -30 in the
    order of their entry times end with the current streak -1 and the
    maximum win streak 1, whether they are stored oldest or newest
    first. *)
Theorem maxWinStreak_bounds_currentStreak (getTime : string -> Z) :
  (forall trades : list Trade,
      let s := Dashboard.stats getTime trades in
      (0 < currentStreak s)%Z -> (currentStreak s <= maxWinStreak s)%Z) /\
  (forall t1 t2 t3 : Trade,
      status t1 = CLOSED -> status t2 = CLOSED -> status t3 = CLOSED ->
      pnl t1 = Some (-50) -> pnl t2 = Some 100 -> pnl t3 = Some (-30) ->
      (getTime (entryDate t1) < getTime (entryDate t2))%Z ->
      (getTime (entryDate t2) < getTime (entryDate t3))%Z ->
      forall trades : list Trade,
        trades = [t1; t2; t3] \/ trades = [t3; t2; t1] ->
        currentStreak (Dashboard.stats getTime trades) = (-1)%Z /\
        maxWinStreak (Dashboard.stats getTime trades) = 1%Z).
Proof.
  split.
  - intros trades s. unfold s. cbn [Dashboard.stats currentStreak maxWinStreak].
    unfold Dashboard.streaks.
    pose proof (streak_loop_inv (Dashboard.closedTrades getTime trades) _ streakInv_init)
      as (Hc & Hpos & _).
    intro H. rewrite (Hpos H). lia.
  - intros t1 t2 t3 S1 S2 S3 P1 P2 P3 H12 H23 trades Htrades.
    assert (C1 : closedWithPnl t1 = true)
      by (unfold closedWithPnl, Dashboard.isClosed, Dashboard.hasPnl;
          rewrite S1, P1; reflexivity).
    assert (C2 : closedWithPnl t2 = true)
      by (unfold closedWithPnl, Dashboard.isClosed, Dashboard.hasPnl;
          rewrite S2, P2; reflexivity).
    assert (C3 : closedWithPnl t3 = true)
      by (unfold closedWithPnl, Dashboard.isClosed, Dashboard.hasPnl;
          rewrite S3, P3; reflexivity).
    destruct (closedTrades_three getTime t1 t2 t3 C1 C2 C3 H12 H23) as [E1 E2].
    assert (E : Dashboard.closedTrades getTime trades = [t1; t2; t3])
      by (destruct Htrades as [-> | ->]; assumption).
    cbn [Dashboard.stats currentStreak maxWinStreak]. unfold Dashboard.streaks.
    rewrite E. cbn [fold_left].
    rewrite (streakStep_pnl _ t1 _ P1), (streakStep_pnl _ t2 _ P2),
      (streakStep_pnl _ t3 _ P3).
    split; reflexivity.
Qed.

(** Scenario B of the specification on the example host, stored newest
    first as the trade store returns them. *)
Lemma maxWinStreak_bounds_currentStreak_witness :
  let t1 := closedTrade "a" "2024-01-05" (Some (-50)) in
  let t2 := closedTrade "b" "2024-01-06" (Some 100) in
  let t3 := closedTrade "c" "2024-01-07" (Some (-30)) in
  (UTCHost.getTime (entryDate t1) < UTCHost.getTime (entryDate t2))%Z /\
  (UTCHost.getTime (entryDate t2) < UTCHost.getTime (entryDate t3))%Z /\
  currentStreak (Dashboard.stats UTCHost.getTime [t3; t2; t1]) = (-1)%Z /\
  maxWinStreak (Dashboard.stats UTCHost.getTime [t3; t2; t1]) = 1%Z.
Proof.
  intros t1 t2 t3.
  assert (H12 : (UTCHost.getTime (entryDate t1) < UTCHost.getTime (entryDate t2))%Z)
    by reflexivity.
  assert (H23 : (UTCHost.getTime (entryDate t2) < UTCHost.getTime (entryDate t3))%Z)
    by reflexivity.
  split; [exact H12|]. split; [exact H23|].
  exact (proj2 (maxWinStreak_bounds_currentStreak UTCHost.getTime)
               t1 t2 t3 eq_refl eq_refl eq_refl eq_refl eq_refl eq_refl H12 H23
               [t3; t2; t1] (or_intror eq_refl)).
Defined.

(** ** The AI coach adapter *)

(** Claim C8.  Whatever the client and the model call do (a text, an
    empty or missing text, or a failure of either), the promise of
    [analyzeTradeWithAI] resolves, never rejects, and its string is not
    empty: it is the text of the model when that is not empty, the fixed
    message for a missing analysis when it is, and the fixed message
    for a connection error when the client or the call failed. *)
Theorem analyzeTradeWithAI_resolves
        (Error Client : Type)
        (getAIClient : JS.Outcome Error Client)
        (generateContent : Client -> string -> string -> JS.Outcome Error GeminiService.Response)
        (Number_toString : Q -> string)
        (trade : Trade) :
  let call :=
    JS.bind getAIClient
            (fun ai => generateContent ai GeminiService.model
                                       (GeminiService.prompt Number_toString trade)) in
  exists s : string,
    fst (GeminiService.analyzeTradeWithAI Error Client getAIClient generateContent
                                          Number_toString trade)
    = JS.Returned s /\
    s <> EmptyString /\
    match call with
    | JS.Returned response =>
        match GeminiService.text response with
        | Some (String c r) => s = String c r
        | Some EmptyString | None => s = GeminiService.noAnalysis
        end
    | JS.Thrown _ => s = GeminiService.connectionError
    end.
Proof.
  cbv zeta. unfold GeminiService.analyzeTradeWithAI, GeminiService.attempt.
  destruct getAIClient as [ai|e]; cbn [JS.bind].
  - destruct (generateContent ai GeminiService.model
                              (GeminiService.prompt Number_toString trade))
      as [[[[|c r]|]]|e]; cbn [JS.bind fst GeminiService.text JS.or_string].
    + exists GeminiService.noAnalysis. repeat split. discriminate.
    + exists (String c r). repeat split. discriminate.
    + exists GeminiService.noAnalysis. repeat split. discriminate.
    + exists GeminiService.connectionError. repeat split. discriminate.
  - exists GeminiService.connectionError. repeat split. discriminate.
Qed.

(** ** The two copies of the trade store client *)

Section RowMapping.

Lemma ifTruthy_ifNotNull (v : option Q) :
  Columns.ifTruthy v = Columns.ifNotNull v <-> (forall x, v = Some x -> ~ x == 0).
Proof.
  destruct v as [x|]; simpl.
  - unfold JS.truthy. destruct (Qeq_bool x 0) eqn:E; simpl.
    + split; [discriminate|]. intro H. exfalso.
      apply (H x eq_refl). apply Qeq_bool_iff. exact E.
    + split; [|reflexivity]. intros _ y Hy. inversion Hy; subst.
      apply Qeq_bool_neq. exact E.
  - split; [|reflexivity]. intros _ x Hx. discriminate Hx.
Qed.

(** The two callbacks differ in the P&L column only. *)
Lemma toTrade_agree (t : TradeRow) :
  SupabaseClient1.toTrade t = SupabaseClient2.toTrade t
  <-> (forall x, r_pnl t = Some x -> ~ x == 0).
Proof.
  rewrite <- ifTruthy_ifNotNull.
  unfold SupabaseClient1.toTrade, SupabaseClient2.toTrade.
  split; intro H.
  - inversion H. congruence.
  - rewrite H. reflexivity.
Qed.

End RowMapping.

(** Claim C10 on the row [zeroPnlRow], a closed trade that broke even:
    the first copy keeps the stored P&L 0, the second copy drops it, so
    the two copies give different trades, and only the first one counts
    the trade in the statistics.  On every row whose P&L is NULL or not
    0 the two copies give the same trade. *)
Theorem fetchTrades_copies_differ :
  pnl (SupabaseClient1.toTrade zeroPnlRow) = Some 0 /\
  pnl (SupabaseClient2.toTrade zeroPnlRow) = None /\
  SupabaseClient1.fetchTrades (E := unit) (JS.Returned [zeroPnlRow])
  <> SupabaseClient2.fetchTrades (JS.Returned [zeroPnlRow]) /\
  (forall getTime : string -> Z,
      totalTrades (Dashboard.stats getTime [SupabaseClient1.toTrade zeroPnlRow]) = 1%nat /\
      totalTrades (Dashboard.stats getTime [SupabaseClient2.toTrade zeroPnlRow]) = 0%nat) /\
  (forall t : TradeRow,
      SupabaseClient1.toTrade t = SupabaseClient2.toTrade t
      <-> (forall x, r_pnl t = Some x -> ~ x == 0)).
Proof.
  split; [reflexivity|]. split; [reflexivity|]. split; [|split].
  - intro H. vm_compute in H. discriminate H.
  - intro getTime. split; reflexivity.
  - apply toTrade_agree.
Qed.

(** ** The calendar *)

Section StringFacts.

Lemma append_length (a b : string) :
  String.length (a ++ b) = (String.length a + String.length b)%nat.
Proof. induction a as [|c r IH]; simpl; [reflexivity | rewrite IH; reflexivity]. Qed.

Lemma append_inj_l (p a b : string) : (p ++ a = p ++ b)%string -> a = b.
Proof.
  induction p as [|c r IH]; simpl; intro H; [exact H|].
  inversion H. apply IH. assumption.
Qed.

(** Two prefixes of one string that have the same length are equal. *)
Lemma prefix_same_length (p1 p2 s : string) :
  String.prefix p1 s = true -> String.prefix p2 s = true ->
  String.length p1 = String.length p2 -> p1 = p2.
Proof.
  intros H1 H2 HL.
  apply prefix_correct in H1. apply prefix_correct in H2.
  rewrite <- H1, <- H2, HL. reflexivity.
Qed.

(** Two digits, read back, give the number below 100 they print. *)
Lemma padStart2_read (i : nat) :
  (i < 100)%nat ->
  String.length (JS.padStart2 (JS.String_of_nat i)) = 2%nat /\
  JS.parseInt (Some (JS.padStart2 (JS.String_of_nat i))) = Some (Z.of_nat i).
Proof.
  intro H.
  assert (C : forallb
                (fun i =>
                   Nat.eqb (String.length (JS.padStart2 (JS.String_of_nat i))) 2
                   && match JS.parseInt (Some (JS.padStart2 (JS.String_of_nat i))) with
                      | Some z => Z.eqb z (Z.of_nat i)
                      | None => false
                      end)
                (seq 0 100) = true) by (vm_compute; reflexivity).
  rewrite forallb_forall in C.
  specialize (C i). rewrite in_seq in C.
  assert (Hi : (0 <= i < 0 + 100)%nat) by lia.
  apply C in Hi. apply andb_true_iff in Hi. destruct Hi as [HL HP].
  split; [apply Nat.eqb_eq; exact HL|].
  destruct (JS.parseInt _) as [z|]; [|discriminate HP].
  apply Z.eqb_eq in HP. rewrite HP. reflexivity.
Qed.

Lemma padStart2_inj (i j : nat) :
  (i < 100)%nat -> (j < 100)%nat ->
  JS.padStart2 (JS.String_of_nat i) = JS.padStart2 (JS.String_of_nat j) -> i = j.
Proof.
  intros Hi Hj E.
  destruct (padStart2_read i Hi) as [_ Pi].
  destruct (padStart2_read j Hj) as [_ Pj].
  rewrite E in Pi. rewrite Pi in Pj. inversion Pj. lia.
Qed.

Lemma Nseq_In (len : nat) (start n : N) :
  (start <= n < start + N.of_nat len)%N -> In n (Nseq start len).
Proof.
  revert start. induction len as [|len IH]; intros start H.
  - simpl in H. lia.
  - simpl. destruct (N.eq_dec start n) as [E|E]; [left; exact E|].
    right. apply IH. lia.
Qed.

(** The years of four digits print in four characters, each year
    before the next one in the order of strings. *)
Lemma fourDigitYears_step (y : nat) :
  fourDigits y ->
  String.length (JS.String_of_nat y) = 4%nat /\
  (fourDigits (S y) ->
   String.compare (JS.String_of_nat y) (JS.String_of_nat (S y)) = Lt).
Proof.
  intro H.
  assert (C : forallb
                (fun n =>
                   Nat.eqb (String.length (JS.String_of_N n)) 4
                   && (N.eqb (N.succ n) 10000
                       || match String.compare (JS.String_of_N n)
                                               (JS.String_of_N (N.succ n)) with
                          | Lt => true
                          | _ => false
                          end))
                (Nseq 1000 (90 * 100)) = true) by (vm_compute; reflexivity).
  rewrite forallb_forall in C. specialize (C (N.of_nat y)).
  assert (Hy : In (N.of_nat y) (Nseq 1000 (90 * 100)))
    by (apply Nseq_In; unfold fourDigits in H; lia).
  apply C in Hy. apply andb_true_iff in Hy. destruct Hy as [HL HC].
  unfold JS.String_of_nat. rewrite Nat2N.inj_succ.
  split; [apply Nat.eqb_eq; exact HL|].
  intro Hlt. apply orb_true_iff in HC. destruct HC as [HC|HC].
  - apply N.eqb_eq in HC. unfold fourDigits in Hlt. lia.
  - destruct (String.compare _ _); [discriminate | reflexivity | discriminate].
Qed.

Lemma string_of_uint_dashFree (d : Decimal.uint) :
  dashFree (NilEmpty.string_of_uint d) = true.
Proof. induction d; simpl; [reflexivity | assumption ..]. Qed.

Lemma String_of_nat_dashFree (n : nat) : dashFree (JS.String_of_nat n) = true.
Proof. apply string_of_uint_dashFree. Qed.

(** [String(n)] determines [n]. *)
Lemma String_of_nat_inj (i j : nat) : JS.String_of_nat i = JS.String_of_nat j -> i = j.
Proof.
  unfold JS.String_of_nat, JS.String_of_N. intro E.
  apply (f_equal NilEmpty.uint_of_string) in E. rewrite !NilEmpty.usu in E.
  injection E as E. apply (f_equal N.of_uint) in E.
  rewrite !DecimalN.Unsigned.of_to in E. apply Nat2N.inj. exact E.
Qed.

(** Two strings that agree split at their first hyphen into equal
    parts. *)
Lemma dash_split (a a' b b' : string) :
  dashFree a = true -> dashFree a' = true ->
  (a ++ "-" ++ b = a' ++ "-" ++ b')%string -> a = a' /\ b = b'.
Proof.
  revert a'. induction a as [|c r IH]; intros [|c' r'] Ha Ha' E; simpl in *.
  - injection E as E. split; [reflexivity | exact E].
  - injection E as Ec _. subst c'. discriminate Ha'.
  - injection E as Ec _. subst c. discriminate Ha.
  - injection E as Ec Er. subst c'.
    apply andb_true_iff in Ha. apply andb_true_iff in Ha'.
    destruct (IH r' (proj2 Ha) (proj2 Ha') Er) as [E1 E2].
    split; [rewrite E1; reflexivity | exact E2].
Qed.

End StringFacts.

Section CalendarFacts.

Variable trades : list Trade.
Variable dailyNotes : list DailyNote.
Variables year month : nat.

Lemma isClosed_iff (t : Trade) : Dashboard.isClosed t = true <-> status t = CLOSED.
Proof.
  unfold Dashboard.isClosed. destruct (status t); simpl; split; congruence.
Qed.

Lemma daysInMonth_le_31 : (JS.Date.daysInMonth year month <= 31)%nat.
Proof.
  unfold JS.Date.daysInMonth.
  destruct (JS.Date.normalize (Z.of_nat year) (Z.of_nat month)) as [y m].
  unfold JS.Date.daysIn.
  destruct (m =? 1)%Z; [destruct (JS.Date.isLeap y); simpl; lia|].
  destruct ((m =? 3)%Z || (m =? 5)%Z || (m =? 8)%Z || (m =? 10)%Z); simpl; lia.
Qed.

(** The cells: first the blanks before the first day, then one cell
    per day of the month. *)
Lemma days_blank (k : nat) :
  (k < JS.Date.firstDayOfWeek year month)%nat ->
  nth_error (Dashboard.days (Dashboard.calendarData trades dailyNotes year month)) k
  = Some Dashboard.Blank.
Proof.
  intro H. cbn [Dashboard.calendarData Dashboard.days].
  rewrite nth_error_app1 by (rewrite repeat_length; exact H).
  apply nth_error_repeat. exact H.
Qed.

Lemma days_day (i : nat) :
  (1 <= i <= JS.Date.daysInMonth year month)%nat ->
  nth_error (Dashboard.days (Dashboard.calendarData trades dailyNotes year month))
            (JS.Date.firstDayOfWeek year month + (i - 1))
  = Some (Dashboard.dayCell trades dailyNotes year month i).
Proof.
  intro H. cbn [Dashboard.calendarData Dashboard.days].
  rewrite nth_error_app2 by (rewrite repeat_length; lia).
  rewrite repeat_length.
  replace (JS.Date.firstDayOfWeek year month + (i - 1)
           - JS.Date.firstDayOfWeek year month)%nat with (i - 1)%nat by lia.
  rewrite nth_error_map, nth_error_seq.
  destruct (Nat.ltb_spec (i - 1) (JS.Date.daysInMonth year month)); [|lia].
  cbn [option_map]. replace (1 + (i - 1))%nat with i by lia. reflexivity.
Qed.

Lemma days_length :
  List.length (Dashboard.days (Dashboard.calendarData trades dailyNotes year month))
  = (JS.Date.firstDayOfWeek year month + JS.Date.daysInMonth year month)%nat.
Proof.
  cbn [Dashboard.calendarData Dashboard.days].
  rewrite length_app, repeat_length, length_map, length_seq. reflexivity.
Qed.

Lemma dayTrades_In (dateStr : string) (t : Trade) :
  In t (Dashboard.dayTrades trades dateStr)
  <-> In t trades /\ status t = CLOSED /\ String.prefix dateStr (entryDate t) = true.
Proof.
  unfold Dashboard.dayTrades. rewrite filter_In, andb_true_iff, isClosed_iff.
  unfold JS.startsWith. tauto.
Qed.

Lemma dateStrOf_length (i j : nat) :
  (i < 100)%nat -> (j < 100)%nat ->
  String.length (Dashboard.dateStrOf year month i)
  = String.length (Dashboard.dateStrOf year month j).
Proof.
  intros Hi Hj. unfold Dashboard.dateStrOf.
  rewrite !append_length.
  rewrite (proj1 (padStart2_read i Hi)), (proj1 (padStart2_read j Hj)). reflexivity.
Qed.

Lemma dateStrOf_inj (i j : nat) :
  (i < 100)%nat -> (j < 100)%nat ->
  Dashboard.dateStrOf year month i = Dashboard.dateStrOf year month j -> i = j.
Proof.
  intros Hi Hj E. unfold Dashboard.dateStrOf in E.
  do 4 apply append_inj_l in E.
  apply padStart2_inj; assumption.
Qed.

(** A trade is in the bucket of one day of the month at most. *)
Lemma dayTrades_unique (i j : nat) (t : Trade) :
  (i <= JS.Date.daysInMonth year month)%nat ->
  (j <= JS.Date.daysInMonth year month)%nat ->
  In t (Dashboard.dayTrades trades (Dashboard.dateStrOf year month i)) ->
  In t (Dashboard.dayTrades trades (Dashboard.dateStrOf year month j)) ->
  i = j.
Proof.
  intros Hi Hj Ti Tj.
  pose proof daysInMonth_le_31 as Hd.
  apply dayTrades_In in Ti. apply dayTrades_In in Tj.
  destruct Ti as (_ & _ & Pi). destruct Tj as (_ & _ & Pj).
  apply dateStrOf_inj; try lia.
  apply (prefix_same_length _ _ _ Pi Pj).
  apply dateStrOf_length; lia.
Qed.

Lemma findNote_iff (dateStr : string) :
  (exists n, Dashboard.findNote dailyNotes dateStr = Some n)
  <-> (exists n, In n dailyNotes /\ date n = dateStr).
Proof.
  unfold Dashboard.findNote. split.
  - intros [n H]. apply find_some in H. destruct H as [Hin He].
    exists n. split; [exact Hin | apply String.eqb_eq; exact He].
  - intros [n [Hin He]].
    destruct (find (fun n0 => String.eqb (date n0) dateStr) dailyNotes) as [m|] eqn:F.
    + exists m. reflexivity.
    + pose proof (find_none _ _ F n Hin) as C. cbv beta in C.
      apply String.eqb_neq in C. contradiction.
Qed.

End CalendarFacts.

(** The calendar of December 999.  The notes are declared with dates
    of the form YYYY-MM-DD and the month and the day are padded, but
    the year is printed without padding: in the calendar of December
    999 the first day carries [999-12-01], so a closed trade entered on
    [0999-12-01], whose timestamp starts with the zero-padded date
    string of that day, is in no day bucket of the month, and every
    cell shows no trade and the P&L 0. *)
Lemma calendar_unpadded_year :
  let t := closedTrade "a" "0999-12-01" (Some 100) in
  status t = CLOSED /\
  String.prefix "0999-12-01" (entryDate t) = true /\
  Dashboard.dateStrOf 999 11 1 = "999-12-01"%string /\
  (forall i : nat, ~ In t (Dashboard.dayTrades [t] (Dashboard.dateStrOf 999 11 i))) /\
  Forall (fun cell =>
            match cell with
            | Dashboard.Blank => True
            | Dashboard.Day _ _ dailyPnl hasTrades _ => hasTrades = false /\ dailyPnl = 0
            end)
         (Dashboard.days (Dashboard.calendarData [t] [] 999 11)).
Proof.
  cbv zeta. split; [reflexivity|]. split; [reflexivity|]. split; [reflexivity|].
  split.
  - intros i H. unfold Dashboard.dayTrades in H. apply filter_In in H.
    destruct H as [_ H]. apply andb_true_iff in H. destruct H as [H _].
    unfold JS.startsWith, Dashboard.dateStrOf in H. cbn in H. discriminate H.
  - vm_compute. repeat constructor.
Qed.

(** Claim C2.  The calendar buckets the closed trades by the date
    string of the day, which is meant to be the zero-padded
    [YYYY-MM-DD] (the month and the day are padded, and the notes are
    declared with dates of that form) but prints the year without
    padding.  At the failing input, the calendar of December 999 with a
    closed trade entered on [0999-12-01], the trade is in no day bucket
    and every cell shows no trade and the P&L 0.  Apart from the year,
    the claim holds: for every trade collection, note collection and
    viewed (year, month), the cell of day [i] carries the date string
    of that day, which for a year of four digits is the ten characters
    of the zero-padded date; its bucket holds exactly the closed trades
    whose entry timestamp string starts with that date string, and no
    trade is in the bucket of two days; its P&L is the sum of the
    realized P&L over the bucket; [hasTrades] holds exactly when the
    bucket is not empty, an empty bucket giving [hasTrades = false] and
    the P&L 0; and [hasNote] holds exactly when a note has that date
    string as its date. *)
Theorem calendar_day_buckets :
  (let t := closedTrade "a" "0999-12-01" (Some 100) in
   status t = CLOSED /\
   String.prefix "0999-12-01" (entryDate t) = true /\
   Dashboard.dateStrOf 999 11 1 = "999-12-01"%string /\
   (forall i : nat, ~ In t (Dashboard.dayTrades [t] (Dashboard.dateStrOf 999 11 i))) /\
   Forall (fun cell =>
             match cell with
             | Dashboard.Blank => True
             | Dashboard.Day _ _ dailyPnl hasTrades _ => hasTrades = false /\ dailyPnl = 0
             end)
          (Dashboard.days (Dashboard.calendarData [t] [] 999 11))) /\
  forall (trades : list Trade) (dailyNotes : list DailyNote) (year month i : nat),
  (1 <= i <= JS.Date.daysInMonth year month)%nat ->
  let dateStr := Dashboard.dateStrOf year month i in
  let bucket := Dashboard.dayTrades trades dateStr in
  exists (dailyPnl : Q) (hasTrades hasNote : bool),
    nth_error (Dashboard.days (Dashboard.calendarData trades dailyNotes year month))
              (JS.Date.firstDayOfWeek year month + (i - 1))
    = Some (Dashboard.Day i dateStr dailyPnl hasTrades hasNote) /\
    dateStr = (JS.String_of_nat year ++ "-" ++ JS.padStart2 (JS.String_of_nat (month + 1))
                 ++ "-" ++ JS.padStart2 (JS.String_of_nat i))%string /\
    (forall t : Trade,
        In t bucket
        <-> In t trades /\ status t = CLOSED /\ String.prefix dateStr (entryDate t) = true) /\
    (forall (t : Trade) (j : nat),
        (1 <= j <= JS.Date.daysInMonth year month)%nat ->
        In t bucket ->
        In t (Dashboard.dayTrades trades (Dashboard.dateStrOf year month j)) ->
        j = i) /\
    dailyPnl == sumPnl bucket /\
    (hasTrades = true <-> bucket <> []) /\
    (bucket = [] -> hasTrades = false /\ dailyPnl == 0) /\
    (hasNote = true <-> exists n : DailyNote, In n dailyNotes /\ date n = dateStr) /\
    (fourDigits year -> (month < 12)%nat -> String.length dateStr = 10%nat).
Proof.
  split; [exact calendar_unpadded_year|].
  intros trades dailyNotes year month i Hi dateStr bucket.
  exists (fold_left Dashboard.addPnl bucket 0).
  exists (0 <? List.length bucket)%nat.
  exists (match Dashboard.findNote dailyNotes dateStr with Some _ => true | None => false end).
  split; [apply days_day; exact Hi|].
  split; [reflexivity|].
  split; [intro t; apply dayTrades_In|].
  split.
  { intros t j Hj Tb Tj.
    apply (dayTrades_unique trades year month j i t); try lia; assumption. }
  split; [apply reduce_addPnl|].
  split.
  { destruct bucket as [|t r]; simpl; split.
    - discriminate.
    - intro H. exfalso. apply H. reflexivity.
    - intros _. discriminate.
    - reflexivity. }
  split.
  { intro E. rewrite E. split; reflexivity. }
  split.
  { rewrite <- findNote_iff.
    destruct (Dashboard.findNote dailyNotes dateStr) as [n|]; split.
    - intros _. exists n. reflexivity.
    - reflexivity.
    - discriminate.
    - intros [n H]. discriminate H. }
  intros Hy Hm. unfold dateStr, Dashboard.dateStrOf.
  pose proof (daysInMonth_le_31 year month) as D.
  rewrite !append_length.
  rewrite (proj1 (fourDigitYears_step year Hy)).
  rewrite (proj1 (padStart2_read (month + 1) ltac:(lia))).
  rewrite (proj1 (padStart2_read i ltac:(lia))). reflexivity.
Qed.

(** January 2024 with two closed trades on the 5th, one open trade on
    the 5th and a note on the 5th, through [calendar_day_buckets]. *)
Lemma calendar_day_buckets_witness :
  let a := closedTrade "a" "2024-01-05" (Some 100) in
  let b := closedTrade "b" "2024-01-05T09:30:00+05:30" (Some (-40)) in
  let c := mkTrade "c" "NIFTY" LONG OPEN "2024-01-05" None 100 None 75 None None None
                   "General" EmptyString [] in
  let notes := [mkDailyNote "2024-01-05" "calm" (Some Disciplined)] in
  (1 <= 5 <= JS.Date.daysInMonth 2024 0)%nat /\
  exists dailyPnl : Q,
    nth_error (Dashboard.days (Dashboard.calendarData [a; b; c] notes 2024 0)) 5
    = Some (Dashboard.Day 5 "2024-01-05" dailyPnl true true) /\
    dailyPnl == 60.
Proof.
  intros a b c notes.
  assert (H : (1 <= 5 <= JS.Date.daysInMonth 2024 0)%nat) by (vm_compute; lia).
  split; [exact H|].
  destruct (proj2 calendar_day_buckets [a; b; c] notes 2024%nat 0%nat 5%nat H)
    as (p & ht & hn & Hcell & _ & _ & _ & Hp & _).
  exists p. split.
  - vm_compute in Hcell. vm_compute. injection Hcell as <- <- <-. reflexivity.
  - rewrite Hp. reflexivity.
Defined.

(** ** The monthly buckets *)

Section ObjFacts.

Lemma get_set_same (data : Dashboard.Obj) (key : string) (v : Q) :
  Dashboard.get (Dashboard.set data key v) key = Some v.
Proof.
  induction data as [|[k w] r IH]; simpl.
  - rewrite String.eqb_refl. reflexivity.
  - destruct (String.eqb k key) eqn:E; simpl; rewrite E; [reflexivity | exact IH].
Qed.

Lemma get_set_other (data : Dashboard.Obj) (key key' : string) (v : Q) :
  key' <> key ->
  Dashboard.get (Dashboard.set data key v) key' = Dashboard.get data key'.
Proof.
  intro N. induction data as [|[k w] r IH]; simpl.
  - destruct (String.eqb_spec key key'); [congruence | reflexivity].
  - destruct (String.eqb_spec k key) as [E|E]; simpl.
    + subst k. destruct (String.eqb_spec key key'); [congruence | reflexivity].
    + destruct (String.eqb k key'); [reflexivity | exact IH].
Qed.

Lemma get_In (data : Dashboard.Obj) (key : string) (v : Q) :
  Dashboard.get data key = Some v -> In (key, v) data.
Proof.
  induction data as [|[k w] r IH]; simpl; [discriminate|].
  destruct (String.eqb_spec k key) as [E|E].
  - intro H. inversion H. subst. left. reflexivity.
  - intro H. right. apply IH. exact H.
Qed.

Lemma get_None (data : Dashboard.Obj) (key : string) :
  Dashboard.get data key = None <-> ~ In key (map fst data).
Proof.
  induction data as [|[k w] r IH]; simpl.
  - tauto.
  - destruct (String.eqb_spec k key) as [E|E].
    + split; [discriminate|]. intro H. exfalso. apply H. left. exact E.
    + rewrite IH. tauto.
Qed.

Lemma In_get (data : Dashboard.Obj) (key : string) (v : Q) :
  NoDup (map fst data) -> In (key, v) data -> Dashboard.get data key = Some v.
Proof.
  induction data as [|[k w] r IH]; simpl; [tauto|].
  intros ND [H|H].
  - inversion H. subst. rewrite String.eqb_refl. reflexivity.
  - inversion ND as [|? ? Hk ND']. subst.
    destruct (String.eqb_spec k key) as [E|E].
    + subst k. exfalso. apply Hk. apply (in_map fst) in H. exact H.
    + apply IH; assumption.
Qed.

Lemma set_keys (data : Dashboard.Obj) (key : string) (v : Q) :
  map fst (Dashboard.set data key v)
  = if existsb (String.eqb key) (map fst data) then map fst data
    else map fst data ++ [key].
Proof.
  induction data as [|[k w] r IH]; simpl; [reflexivity|].
  rewrite (String.eqb_sym key k).
  destruct (String.eqb k key); simpl; [reflexivity|].
  rewrite IH. destruct (existsb (String.eqb key) (map fst r)); reflexivity.
Qed.

Lemma set_NoDup (data : Dashboard.Obj) (key : string) (v : Q) :
  NoDup (map fst data) -> NoDup (map fst (Dashboard.set data key v)).
Proof.
  intro ND. rewrite set_keys.
  destruct (existsb (String.eqb key) (map fst data)) eqn:E; [exact ND|].
  apply NoDup_app; [exact ND | repeat constructor; auto |].
  intros a Ha [Hb|[]]. subst a.
  assert (C : existsb (String.eqb key) (map fst data) = true).
  { apply existsb_exists. exists key. split; [exact Ha | apply String.eqb_refl]. }
  congruence.
Qed.

End ObjFacts.

Section MonthlyFacts.

Variables getFullYear getMonth : string -> nat.

Lemma filter_none {A : Type} (f : A -> bool) (l : list A) :
  (forall x, In x l -> f x = false) -> filter f l = [].
Proof.
  induction l as [|x r IH]; simpl; intro H; [reflexivity|].
  rewrite (H x (or_introl eq_refl)). apply IH. intros y Hy. apply H. right. exact Hy.
Qed.

Lemma monthlyInv_step (l : list Trade) (data : Dashboard.Obj) (t : Trade) :
  monthlyInv getFullYear getMonth l data ->
  monthlyInv getFullYear getMonth (l ++ [t])
             (Dashboard.addToMonth getFullYear getMonth data t).
Proof.
  intros [ND H]. split; [apply set_NoDup; exact ND|].
  intro k. unfold Dashboard.addToMonth.
  set (kt := Dashboard.monthKey getFullYear getMonth t).
  destruct (String.eqb_spec kt k) as [E|E].
  - subst k. rewrite get_set_same. split.
    + exists t. split; [apply in_or_app; right; left; reflexivity | reflexivity].
    + rewrite filter_app, sumPnl_app. cbn [filter]. fold kt.
      rewrite String.eqb_refl.
      change (sumPnl [t]) with (realized t + 0).
      rewrite realized_or_zero.
      specialize (H kt).
      destruct (Dashboard.get data kt) as [v|].
      * destruct H as [_ Hv]. rewrite or_zero_Some, Hv. ring.
      * rewrite filter_none; [simpl; ring|].
        intros x Hx. apply String.eqb_neq. apply H. exact Hx.
  - rewrite get_set_other by (intro C; apply E; symmetry; exact C).
    specialize (H k).
    destruct (Dashboard.get data k) as [v|].
    + destruct H as [[u [Hu Ku]] Hv]. split.
      * exists u. split; [apply in_or_app; left; exact Hu | exact Ku].
      * rewrite filter_app. cbn [filter]. fold kt.
        destruct (String.eqb_spec kt k); [contradiction|].
        rewrite app_nil_r. exact Hv.
    + intros u Hu. apply in_app_or in Hu. destruct Hu as [Hu|[Hu|[]]].
      * apply H. exact Hu.
      * subst u. exact E.
Qed.

Lemma monthlyInv_fold (l : list Trade) :
  monthlyInv getFullYear getMonth l
             (fold_left (Dashboard.addToMonth getFullYear getMonth) l []).
Proof.
  induction l as [|t r IH] using rev_ind.
  - split; [constructor|]. intros k t [].
  - rewrite fold_left_app. cbn [fold_left]. apply monthlyInv_step. exact IH.
Qed.

Lemma filter_filter_andb {A : Type} (f g : A -> bool) (l : list A) :
  filter g (filter f l) = filter (fun x => f x && g x) l.
Proof.
  induction l as [|x r IH]; simpl; [reflexivity|].
  destruct (f x); simpl; [destruct (g x)|]; rewrite IH; reflexivity.
Qed.

Variable trades : list Trade.

Lemma monthlyData_NoDup :
  NoDup (map fst (Dashboard.monthlyData getFullYear getMonth trades)).
Proof. apply (monthlyInv_fold (filter Dashboard.isClosed trades)). Qed.

(** The value stored under a key is the sum of the bucket of the key,
    which is not empty. *)
Lemma monthlyData_get (k : string) (v : Q) :
  Dashboard.get (Dashboard.monthlyData getFullYear getMonth trades) k = Some v ->
  (exists t, In t trades /\ status t = CLOSED
             /\ Dashboard.monthKey getFullYear getMonth t = k) /\
  v == sumPnl (monthBucket getFullYear getMonth k trades).
Proof.
  intro G.
  destruct (monthlyInv_fold (filter Dashboard.isClosed trades)) as [_ H].
  specialize (H k). unfold Dashboard.monthlyData in G.
  rewrite G in H. destruct H as [[t [Ht Kt]] Hv]. split.
  - apply filter_In in Ht. destruct Ht as [Ht Hc]. exists t.
    split; [exact Ht|]. split; [apply isClosed_iff; exact Hc | exact Kt].
  - rewrite Hv, filter_filter_andb. reflexivity.
Qed.

(** Every closed trade has a bucket. *)
Lemma monthlyData_has (t : Trade) :
  In t trades -> status t = CLOSED ->
  exists v, Dashboard.get (Dashboard.monthlyData getFullYear getMonth trades)
                          (Dashboard.monthKey getFullYear getMonth t)
            = Some v.
Proof.
  intros Ht Hc.
  destruct (monthlyInv_fold (filter Dashboard.isClosed trades)) as [_ H].
  specialize (H (Dashboard.monthKey getFullYear getMonth t)).
  unfold Dashboard.monthlyData.
  destruct (Dashboard.get
              (fold_left (Dashboard.addToMonth getFullYear getMonth)
                         (filter Dashboard.isClosed trades) [])
              (Dashboard.monthKey getFullYear getMonth t)) as [v|].
  - exists v. reflexivity.
  - exfalso. apply (H t); [|reflexivity].
    apply filter_In. split; [exact Ht | apply isClosed_iff; exact Hc].
Qed.

End MonthlyFacts.

Section SortedFacts.

Context {A : Type}.
Variable compareFn : A -> A -> Z.

(** The comparator never puts each of two elements after the other. *)
Hypothesis compareFn_total :
  forall x y, (0 < compareFn x y)%Z -> (compareFn y x <= 0)%Z.

Local Arguments JS.notAfter {A} compareFn x y /.

Lemma sort_insert_HdRel (y x : A) (l : list A) :
  HdRel (JS.notAfter compareFn) y l -> (compareFn y x <= 0)%Z ->
  HdRel (JS.notAfter compareFn) y (JS.sort_insert compareFn x l).
Proof.
  intros H Hyx. destruct l as [|z r]; simpl.
  - constructor. exact Hyx.
  - destruct (0 <? compareFn x z)%Z.
    + inversion H. constructor. assumption.
    + constructor. exact Hyx.
Qed.

Lemma sort_insert_Sorted (x : A) (l : list A) :
  Sorted (JS.notAfter compareFn) l ->
  Sorted (JS.notAfter compareFn) (JS.sort_insert compareFn x l).
Proof.
  induction l as [|y r IH]; simpl; intro H.
  - repeat constructor.
  - inversion H as [|? ? Hr Hy]. subst.
    destruct (Z.ltb_spec 0 (compareFn x y)) as [L|L].
    + constructor; [apply IH; exact Hr|].
      apply sort_insert_HdRel; [exact Hy | apply compareFn_total; exact L].
    + constructor; [exact H|]. constructor. exact L.
Qed.

Lemma Array_sort_Sorted (l : list A) :
  Sorted (JS.notAfter compareFn) (JS.Array_sort compareFn l).
Proof.
  induction l as [|x r IH]; simpl.
  - constructor.
  - apply sort_insert_Sorted. exact IH.
Qed.

End SortedFacts.

Section KeyOrder.

Lemma compare_as_OT (a b : string) : String.compare a b = String_as_OT.compare a b.
Proof.
  revert b. induction a as [|c r IH]; destruct b as [|d s]; simpl; reflexivity.
Qed.

Lemma compare_lt_trans (a b c : string) :
  String.compare a b = Lt -> String.compare b c = Lt -> String.compare a c = Lt.
Proof.
  rewrite !compare_as_OT. apply String_as_OT.lt_strorder.
Qed.

Lemma compare_refl (a : string) : String.compare a a = Eq.
Proof.
  rewrite compare_as_OT.
  destruct (String_as_OT.compare_spec a a) as [_|H|H]; [reflexivity| |];
    exfalso; apply (StrictOrder_Irreflexive (R := String_as_OT.lt) a H).
Qed.

Lemma compare_gt_lt (a b : string) :
  String.compare a b = Gt -> String.compare b a = Lt.
Proof.
  intro H. rewrite String.compare_antisym, H. reflexivity.
Qed.

Lemma localeCompare_pos (a b : string) :
  (0 < JS.localeCompare a b)%Z <-> String.compare a b = Gt.
Proof.
  unfold JS.localeCompare. destruct (String.compare a b); split; intro H;
    try reflexivity; try discriminate; try lia.
Qed.

Lemma localeCompare_total (a b : string) :
  (0 < JS.localeCompare a b)%Z -> (JS.localeCompare b a <= 0)%Z.
Proof.
  intro H. apply localeCompare_pos in H. apply compare_gt_lt in H.
  unfold JS.localeCompare. rewrite H. lia.
Qed.

(** A list of entries sorted by the comparator, whose keys are all
    different, has its keys in strictly ascending order. *)
Lemma sorted_keys_strict (l : list (string * Q)) :
  Sorted (JS.notAfter (fun a b => JS.localeCompare (fst a) (fst b))) l ->
  NoDup (map fst l) ->
  StronglySorted (fun a b => String.compare (fst a) (fst b) = Lt) l.
Proof.
  intros HS ND. apply Sorted_StronglySorted.
  - intros a b c. apply compare_lt_trans.
  - induction HS as [|a r Hr IH Hd]; [constructor|].
    inversion ND as [|? ? Hn ND']. subst.
    constructor; [apply IH; exact ND'|].
    destruct Hd as [|b r' Hab]; constructor.
    unfold JS.notAfter, JS.localeCompare in Hab.
    destruct (String.compare (fst a) (fst b)) eqn:E; [|reflexivity|lia].
    exfalso. apply String.compare_eq_iff in E. apply Hn.
    simpl. left. symmetry. exact E.
Qed.

End KeyOrder.

Section ChronologicalKeys.

Lemma ascii_compare_refl (c : ascii) : Ascii.compare c c = Eq.
Proof. unfold Ascii.compare. apply N.compare_refl. Qed.

Lemma compare_app_same (p a b : string) :
  String.compare (p ++ a) (p ++ b) = String.compare a b.
Proof.
  induction p as [|c r IH]; simpl; [reflexivity|].
  rewrite ascii_compare_refl. exact IH.
Qed.

Lemma compare_app_lt (a b r1 r2 : string) :
  String.length a = String.length b ->
  String.compare a b = Lt -> String.compare (a ++ r1) (b ++ r2) = Lt.
Proof.
  revert b. induction a as [|c a IH]; destruct b as [|d b]; simpl;
    try discriminate.
  intros HL H. destruct (Ascii.compare c d); try discriminate; [|reflexivity].
  apply IH; [injection HL; auto | exact H].
Qed.

Lemma fourDigitYears_lt (y1 y2 : nat) :
  fourDigits y1 -> (y1 < y2)%nat -> fourDigits y2 ->
  String.compare (JS.String_of_nat y1) (JS.String_of_nat y2) = Lt.
Proof.
  intros H1 H12 H2. induction y2 as [|y2 IH]; [lia|].
  destruct (Nat.eq_dec y1 y2) as [E|E].
  - subst y2. apply fourDigitYears_step; assumption.
  - assert (H2' : fourDigits y2) by (unfold fourDigits in *; lia).
    apply compare_lt_trans with (JS.String_of_nat y2).
    + apply IH; [lia | exact H2'].
    + apply fourDigitYears_step; assumption.
Qed.

Lemma months_lt (m1 m2 : nat) :
  (m1 < 12)%nat -> (m2 < 12)%nat -> (m1 < m2)%nat ->
  String.compare (JS.padStart2 (JS.String_of_nat (m1 + 1)))
                 (JS.padStart2 (JS.String_of_nat (m2 + 1))) = Lt.
Proof.
  intros H1 H2 H12.
  assert (C : forallb
                (fun m1 =>
                   forallb
                     (fun m2 =>
                        negb (Nat.ltb m1 m2)
                        || match String.compare
                                   (JS.padStart2 (JS.String_of_nat (m1 + 1)))
                                   (JS.padStart2 (JS.String_of_nat (m2 + 1))) with
                           | Lt => true
                           | _ => false
                           end)
                     (seq 0 12))
                (seq 0 12) = true) by (vm_compute; reflexivity).
  rewrite forallb_forall in C. specialize (C m1). rewrite in_seq in C.
  assert (I1 : (0 <= m1 < 0 + 12)%nat) by lia. apply C in I1.
  rewrite forallb_forall in I1. specialize (I1 m2). rewrite in_seq in I1.
  assert (I2 : (0 <= m2 < 0 + 12)%nat) by lia. apply I1 in I2.
  apply orb_true_iff in I2. destruct I2 as [I2|I2].
  - apply negb_true_iff in I2. apply Nat.ltb_ge in I2. lia.
  - destruct (String.compare _ _); [discriminate | reflexivity | discriminate].
Qed.

Variables getFullYear getMonth : string -> nat.

Lemma monthKey_before (t1 t2 : Trade) :
  fourDigits (getFullYear (entryDate t1)) ->
  fourDigits (getFullYear (entryDate t2)) ->
  (getMonth (entryDate t1) < 12)%nat -> (getMonth (entryDate t2) < 12)%nat ->
  monthBefore (getFullYear (entryDate t1)) (getMonth (entryDate t1))
              (getFullYear (entryDate t2)) (getMonth (entryDate t2)) ->
  String.compare (Dashboard.monthKey getFullYear getMonth t1)
                 (Dashboard.monthKey getFullYear getMonth t2) = Lt.
Proof.
  intros Y1 Y2 M1 M2 [H|[Hy Hm]]; unfold Dashboard.monthKey.
  - apply compare_app_lt.
    + rewrite (proj1 (fourDigitYears_step _ Y1)), (proj1 (fourDigitYears_step _ Y2)).
      reflexivity.
    + apply fourDigitYears_lt; assumption.
  - rewrite Hy. rewrite !compare_app_same. apply months_lt; assumption.
Qed.

(** On years of four digits the order of the keys is the order of
    time, and two trades share a key exactly when they share the year
    and the month. *)
Lemma monthKey_chronological (t1 t2 : Trade) :
  fourDigits (getFullYear (entryDate t1)) ->
  fourDigits (getFullYear (entryDate t2)) ->
  (getMonth (entryDate t1) < 12)%nat -> (getMonth (entryDate t2) < 12)%nat ->
  (String.compare (Dashboard.monthKey getFullYear getMonth t1)
                  (Dashboard.monthKey getFullYear getMonth t2) = Lt
   <-> monthBefore (getFullYear (entryDate t1)) (getMonth (entryDate t1))
                   (getFullYear (entryDate t2)) (getMonth (entryDate t2))) /\
  (Dashboard.monthKey getFullYear getMonth t1 = Dashboard.monthKey getFullYear getMonth t2
   <-> getFullYear (entryDate t1) = getFullYear (entryDate t2) /\
       getMonth (entryDate t1) = getMonth (entryDate t2)).
Proof.
  intros Y1 Y2 M1 M2.
  pose proof (monthKey_before t1 t2 Y1 Y2 M1 M2) as F12.
  pose proof (monthKey_before t2 t1 Y2 Y1 M2 M1) as F21.
  set (y1 := getFullYear (entryDate t1)) in *.
  set (y2 := getFullYear (entryDate t2)) in *.
  set (m1 := getMonth (entryDate t1)) in *.
  set (m2 := getMonth (entryDate t2)) in *.
  assert (Same : y1 = y2 /\ m1 = m2 ->
                 Dashboard.monthKey getFullYear getMonth t1
                 = Dashboard.monthKey getFullYear getMonth t2).
  { intros [Ey Em]. unfold Dashboard.monthKey. fold y1 y2 m1 m2.
    rewrite Ey, Em. reflexivity. }
  assert (Tri : monthBefore y1 m1 y2 m2 \/ (y1 = y2 /\ m1 = m2)
                \/ monthBefore y2 m2 y1 m1) by (unfold monthBefore; lia).
  split; split.
  - intro L. destruct Tri as [T|[T|T]]; [exact T| |].
    + rewrite (Same T), compare_refl in L. discriminate L.
    + apply F21 in T. rewrite String.compare_antisym, T in L. discriminate L.
  - exact F12.
  - intro E. destruct Tri as [T|[T|T]]; [|exact T|].
    + apply F12 in T. rewrite E, compare_refl in T. discriminate T.
    + apply F21 in T. rewrite E, compare_refl in T. discriminate T.
  - exact Same.
Qed.

(** Whatever the years are, two trades share a key exactly when they
    share the year and the month. *)
Lemma monthKey_inj (t1 t2 : Trade) :
  (getMonth (entryDate t1) < 12)%nat -> (getMonth (entryDate t2) < 12)%nat ->
  (Dashboard.monthKey getFullYear getMonth t1 = Dashboard.monthKey getFullYear getMonth t2
   <-> getFullYear (entryDate t1) = getFullYear (entryDate t2) /\
       getMonth (entryDate t1) = getMonth (entryDate t2)).
Proof.
  intros M1 M2. unfold Dashboard.monthKey. split.
  - intro E. apply dash_split in E; try apply String_of_nat_dashFree.
    destruct E as [Ey Em]. split; [apply String_of_nat_inj; exact Ey|].
    apply padStart2_inj in Em; lia.
  - intros [-> ->]. reflexivity.
Qed.

End ChronologicalKeys.

Section MonthlyScenario.

Variables getFullYear getMonth : string -> nat.

Lemma monthlyEntries_In (trades : list Trade) (k : string) (v : Q) :
  In (k, v) (Dashboard.monthlyEntries getFullYear getMonth trades)
  <-> Dashboard.get (Dashboard.monthlyData getFullYear getMonth trades) k = Some v.
Proof.
  unfold Dashboard.monthlyEntries. rewrite Array_sort_In. split.
  - apply In_get. apply monthlyData_NoDup.
  - apply get_In.
Qed.

Lemma monthlyEntries_NoDup (trades : list Trade) :
  NoDup (map fst (Dashboard.monthlyEntries getFullYear getMonth trades)).
Proof.
  apply (Permutation_NoDup (l := map fst (Dashboard.monthlyData getFullYear getMonth trades))).
  - apply Permutation_map. apply Permutation_sym. apply Array_sort_perm.
  - apply monthlyData_NoDup.
Qed.

(** The emitted buckets are in the strictly ascending order of their
    keys, read as strings. *)
Lemma monthlyEntries_sorted (trades : list Trade) :
  StronglySorted (fun a b => String.compare (fst a) (fst b) = Lt)
                 (Dashboard.monthlyEntries getFullYear getMonth trades).
Proof.
  apply sorted_keys_strict; [|apply monthlyEntries_NoDup].
  unfold Dashboard.monthlyEntries. apply Array_sort_Sorted.
  intros x y. apply localeCompare_total.
Qed.

(** Two closed trades of January 2024 share one bucket. *)
Lemma monthly_january (t1 t2 : Trade) :
  status t1 = CLOSED -> status t2 = CLOSED ->
  pnl t1 = Some 100 -> pnl t2 = Some (-40) ->
  getFullYear (entryDate t1) = 2024%nat -> getMonth (entryDate t1) = 0%nat ->
  getFullYear (entryDate t2) = 2024%nat -> getMonth (entryDate t2) = 0%nat ->
  exists v : Q,
    Dashboard.monthlyChartData getFullYear getMonth [t1; t2]
    = [Dashboard.mkMonthPoint "Jan 24" v] /\ v == 60.
Proof.
  intros S1 S2 P1 P2 Y1 M1 Y2 M2.
  assert (K1 : Dashboard.monthKey getFullYear getMonth t1 = "2024-01"%string)
    by (unfold Dashboard.monthKey; rewrite Y1, M1; reflexivity).
  assert (K2 : Dashboard.monthKey getFullYear getMonth t2 = "2024-01"%string)
    by (unfold Dashboard.monthKey; rewrite Y2, M2; reflexivity).
  apply isClosed_iff in S1. apply isClosed_iff in S2.
  unfold Dashboard.monthlyChartData, Dashboard.monthlyEntries, Dashboard.monthlyData.
  cbn [filter]. rewrite S1, S2. cbn [fold_left].
  unfold Dashboard.addToMonth. rewrite K1, K2, P1, P2.
  eexists. split; [vm_compute; reflexivity | reflexivity].
Qed.

End MonthlyScenario.

Lemma StronglySorted_later {A : Type} (R : A -> A -> Prop) (pre mid post : list A)
      (a b : A) :
  StronglySorted R (pre ++ a :: mid ++ b :: post) -> R a b.
Proof.
  induction pre as [|x pre IH]; simpl; intro H.
  - apply StronglySorted_inv in H. destruct H as [_ H].
    rewrite Forall_forall in H. apply H. apply in_or_app. right. left. reflexivity.
  - apply StronglySorted_inv in H. destruct H as [H _]. apply IH. exact H.
Qed.

(** December 999 and January 1000.  The comment of the source gives
    the key the format YYYY-MM "for sorting" and the month is padded,
    but the year is printed without padding: December 999 has the key
    [999-12], which the order of strings puts after [1000-01], and on
    this collection the month of January 1000 is emitted before
    December 999. *)
Lemma monthlyChartData_unpadded_year :
  let a := closedTrade "a" "0999-12-01" (Some 100) in
  let b := closedTrade "b" "1000-01-15" (Some (-40)) in
  monthBefore (UTCHost.getFullYear (entryDate a)) (UTCHost.getMonth (entryDate a))
              (UTCHost.getFullYear (entryDate b)) (UTCHost.getMonth (entryDate b)) /\
  Dashboard.monthKey UTCHost.getFullYear UTCHost.getMonth a = "999-12"%string /\
  Dashboard.monthKey UTCHost.getFullYear UTCHost.getMonth b = "1000-01"%string /\
  map fst (Dashboard.monthlyEntries UTCHost.getFullYear UTCHost.getMonth [a; b])
  = ["1000-01"; "999-12"]%string /\
  exists pa pb : Q,
    Dashboard.monthlyChartData UTCHost.getFullYear UTCHost.getMonth [a; b]
    = [Dashboard.mkMonthPoint "Jan 00" pb; Dashboard.mkMonthPoint "Dec 99" pa] /\
    pa == 100 /\ pb == -40.
Proof.
  cbv zeta. split.
  - left. vm_compute. lia.
  - split; [reflexivity|]. split; [reflexivity|]. split; [reflexivity|].
    eexists. eexists. split; [vm_compute; reflexivity|]. split; reflexivity.
Qed.

(** Claim C6.  The monthly aggregation sorts the buckets by a key
    that is meant to be the zero-padded [YYYY-MM] (the comment of the
    source says so and the month is padded) but prints the year without
    padding.  At the failing input, closed trades entered on
    [0999-12-01] and [1000-01-15], the keys are [999-12] and [1000-01]
    and January 1000 is emitted before December 999.  Apart from the
    order for such years, the claim holds: for every trade collection
    the chart points are the sorted entries of the buckets; there is
    one bucket per key, for exactly the keys of the trades with status
    closed, and it holds the sum of the P&L of the closed trades of
    that key; two trades share a key exactly when they share the year
    and the month, whatever the years; the buckets are emitted in the
    strictly ascending order of their keys as strings, which for entry
    years of four digits is the order of time, so that the buckets are
    then emitted in chronological order.  Two closed trades of January
    2024 with the P&L 100 and -40 give the single point [Jan 24] with
    the P&L 60. *)
Theorem monthlyChartData_buckets :
  (let a := closedTrade "a" "0999-12-01" (Some 100) in
   let b := closedTrade "b" "1000-01-15" (Some (-40)) in
   monthBefore (UTCHost.getFullYear (entryDate a)) (UTCHost.getMonth (entryDate a))
               (UTCHost.getFullYear (entryDate b)) (UTCHost.getMonth (entryDate b)) /\
   Dashboard.monthKey UTCHost.getFullYear UTCHost.getMonth a = "999-12"%string /\
   Dashboard.monthKey UTCHost.getFullYear UTCHost.getMonth b = "1000-01"%string /\
   map fst (Dashboard.monthlyEntries UTCHost.getFullYear UTCHost.getMonth [a; b])
   = ["1000-01"; "999-12"]%string /\
   exists pa pb : Q,
     Dashboard.monthlyChartData UTCHost.getFullYear UTCHost.getMonth [a; b]
     = [Dashboard.mkMonthPoint "Jan 00" pb; Dashboard.mkMonthPoint "Dec 99" pa] /\
     pa == 100 /\ pb == -40) /\
  forall (getFullYear getMonth : string -> nat) (trades : list Trade),
  let key := Dashboard.monthKey getFullYear getMonth in
  let entries := Dashboard.monthlyEntries getFullYear getMonth trades in
  let year := fun t : Trade => getFullYear (entryDate t) in
  let month := fun t : Trade => getMonth (entryDate t) in
  Dashboard.monthlyChartData getFullYear getMonth trades
  = map Dashboard.monthPoint entries /\
  NoDup (map fst entries) /\
  (forall (k : string) (v : Q),
      In (k, v) entries ->
      (exists t, In t trades /\ status t = CLOSED /\ key t = k) /\
      v == sumPnl (monthBucket getFullYear getMonth k trades)) /\
  (forall t : Trade,
      In t trades -> status t = CLOSED -> exists v, In (key t, v) entries) /\
  StronglySorted (fun a b => String.compare (fst a) (fst b) = Lt) entries /\
  (forall t1 t2 : Trade,
      (month t1 < 12)%nat -> (month t2 < 12)%nat ->
      (key t1 = key t2 <-> year t1 = year t2 /\ month t1 = month t2)) /\
  (forall t1 t2 : Trade,
      fourDigits (year t1) -> fourDigits (year t2) ->
      (month t1 < 12)%nat -> (month t2 < 12)%nat ->
      (String.compare (key t1) (key t2) = Lt
       <-> monthBefore (year t1) (month t1) (year t2) (month t2))) /\
  (forall (pre mid post : list (string * Q)) (a b : string * Q) (ta tb : Trade),
      entries = pre ++ a :: mid ++ b :: post ->
      key ta = fst a -> key tb = fst b ->
      fourDigits (year ta) -> fourDigits (year tb) ->
      (month ta < 12)%nat -> (month tb < 12)%nat ->
      monthBefore (year ta) (month ta) (year tb) (month tb)) /\
  (forall t1 t2 : Trade,
      status t1 = CLOSED -> status t2 = CLOSED ->
      pnl t1 = Some 100 -> pnl t2 = Some (-40) ->
      year t1 = 2024%nat -> month t1 = 0%nat ->
      year t2 = 2024%nat -> month t2 = 0%nat ->
      exists v : Q,
        Dashboard.monthlyChartData getFullYear getMonth [t1; t2]
        = [Dashboard.mkMonthPoint "Jan 24" v] /\ v == 60).
Proof.
  split; [exact monthlyChartData_unpadded_year|].
  intros getFullYear getMonth trades.
  cbv zeta. split; [reflexivity|]. split; [apply monthlyEntries_NoDup|].
  split.
  { intros k v H. apply monthlyEntries_In in H. apply monthlyData_get. exact H. }
  split.
  { intros t Ht Hc.
    destruct (monthlyData_has getFullYear getMonth trades t Ht Hc) as [v G].
    exists v. apply monthlyEntries_In. exact G. }
  split; [apply monthlyEntries_sorted|].
  split; [apply monthKey_inj|].
  split.
  { intros t1 t2 Y1 Y2 M1 M2.
    apply (proj1 (monthKey_chronological getFullYear getMonth t1 t2 Y1 Y2 M1 M2)). }
  split; [|apply monthly_january].
  intros pre mid post a b ta tb E Ka Kb Ya Yb Ma Mb.
  pose proof (monthlyEntries_sorted getFullYear getMonth trades) as HS.
  rewrite E in HS. apply StronglySorted_later in HS.
  rewrite <- Ka, <- Kb in HS.
  apply (monthKey_chronological getFullYear getMonth ta tb Ya Yb Ma Mb). exact HS.
Qed.

(** Scenario E of the specification on the example host, through
    [monthlyChartData_buckets]. *)
Lemma monthlyChartData_buckets_witness :
  let t1 := closedTrade "a" "2024-01-05" (Some 100) in
  let t2 := closedTrade "b" "2024-01-20" (Some (-40)) in
  UTCHost.getFullYear (entryDate t1) = 2024%nat /\
  UTCHost.getMonth (entryDate t1) = 0%nat /\
  UTCHost.getFullYear (entryDate t2) = 2024%nat /\
  UTCHost.getMonth (entryDate t2) = 0%nat /\
  exists v : Q,
    Dashboard.monthlyChartData UTCHost.getFullYear UTCHost.getMonth [t1; t2]
    = [Dashboard.mkMonthPoint "Jan 24" v] /\ v == 60.
Proof.
  intros t1 t2.
  split; [reflexivity|]. split; [reflexivity|]. split; [reflexivity|].
  split; [reflexivity|].
  destruct (proj2 monthlyChartData_buckets UTCHost.getFullYear UTCHost.getMonth [t1; t2])
    as (_ & _ & _ & _ & _ & _ & _ & _ & H).
  exact (H t1 t2 eq_refl eq_refl eq_refl eq_refl eq_refl eq_refl eq_refl eq_refl).
Defined.

(** ** Closed trades without a P&L *)

Section AbsentPnl.

Variable getTime : string -> Z.
Variable toLocaleDateString : string -> string.

Lemma stats_of_closedTrades (a b : list Trade) :
  Dashboard.closedTrades getTime a = Dashboard.closedTrades getTime b ->
  Dashboard.stats getTime a = Dashboard.stats getTime b.
Proof.
  intro E.
  unfold Dashboard.stats, Dashboard.totalWinPnl, Dashboard.totalLossPnl,
    Dashboard.streaks, Dashboard.wins, Dashboard.losses.
  rewrite E. reflexivity.
Qed.

Lemma closedTrades_skip (l1 l2 : list Trade) (t : Trade) :
  pnl t = None ->
  Dashboard.closedTrades getTime (l1 ++ t :: l2)
  = Dashboard.closedTrades getTime (l1 ++ l2).
Proof.
  intro P. unfold Dashboard.closedTrades.
  rewrite !filter_app. cbn [filter]. unfold Dashboard.hasPnl at 2.
  rewrite P, andb_false_r. reflexivity.
Qed.

Lemma equityPoints_app (b : Q) (l1 l2 : list Trade) :
  Dashboard.equityPoints toLocaleDateString b (l1 ++ l2)
  = Dashboard.equityPoints toLocaleDateString b l1
    ++ Dashboard.equityPoints toLocaleDateString (fold_left Dashboard.addPnl l1 b) l2.
Proof.
  revert b. induction l1 as [|t r IH]; intro b; simpl; [reflexivity|].
  rewrite IH. reflexivity.
Qed.

Lemma equityPoints_length (b : Q) (l : list Trade) :
  List.length (Dashboard.equityPoints toLocaleDateString b l) = List.length l.
Proof.
  revert b. induction l as [|t r IH]; intro b; simpl; [reflexivity|].
  rewrite IH. reflexivity.
Qed.

Lemma last_cons {A : Type} (x d : A) (l : list A) : last (x :: l) d = last l x.
Proof.
  revert x d. induction l as [|y r IH]; intros x d; [reflexivity|].
  change (last (x :: y :: r) d) with (last (y :: r) d).
  rewrite (IH y d). symmetry. apply (IH y x).
Qed.

(** The equity of the last point is the running balance. *)
Lemma equityPoints_last (b : Q) (l : list Trade) :
  last (map Dashboard.equity (Dashboard.equityPoints toLocaleDateString b l)) b
  = fold_left Dashboard.addPnl l b.
Proof.
  revert b. induction l as [|t r IH]; intro b; [reflexivity|].
  cbn [Dashboard.equityPoints map fold_left Dashboard.equity].
  rewrite last_cons. apply IH.
Qed.

End AbsentPnl.

Lemma sumPnl_filter_skip (f : Trade -> bool) (l1 l2 : list Trade) (t : Trade) :
  pnl t = None ->
  sumPnl (filter f (l1 ++ t :: l2)) == sumPnl (filter f (l1 ++ l2)).
Proof.
  intro P.
  assert (R : realized t = 0) by (unfold realized; rewrite P; reflexivity).
  rewrite !filter_app, !sumPnl_app. cbn [filter].
  destruct (f t); [|reflexivity].
  change (sumPnl (t :: filter f l2)) with (realized t + sumPnl (filter f l2)).
  rewrite R. ring.
Qed.

(** Claim C9.  A closed trade whose P&L is absent is left out of the
    closed subset of the statistics, so that no field of the statistics
    depends on it; the equity curve has a point for it whose equity is
    that of the point before (0 at the start); the monthly aggregation
    has an entry for its month whose sum is that of the other trades of
    the month; and the calendar cell of a day whose date string starts
    its entry timestamp has [hasTrades = true] and the P&L of the
    other trades of the day. *)
Theorem closed_without_pnl
        (getTime : string -> Z) (getFullYear getMonth : string -> nat)
        (toLocaleDateString : string -> string)
        (dailyNotes : list DailyNote) (l1 l2 : list Trade) (t : Trade) :
  status t = CLOSED -> pnl t = None ->
  let trades := l1 ++ t :: l2 in
  let others := l1 ++ l2 in
  (Dashboard.closedTrades getTime trades = Dashboard.closedTrades getTime others /\
   Dashboard.stats getTime trades = Dashboard.stats getTime others) /\
  (exists (pre post : list Trade) (pts1 pts2 : list Dashboard.EquityPoint) (e : Q),
      Dashboard.sortedTrades getTime trades = pre ++ t :: post /\
      Dashboard.equityCurveData getTime toLocaleDateString trades
      = pts1 ++ Dashboard.mkEquityPoint (toLocaleDateString (entryDate t)) e None :: pts2 /\
      List.length pts1 = List.length pre /\
      e == last (map Dashboard.equity pts1) 0) /\
  (exists v : Q,
      In (Dashboard.monthKey getFullYear getMonth t, v)
         (Dashboard.monthlyEntries getFullYear getMonth trades) /\
      v == sumPnl (monthBucket getFullYear getMonth
                               (Dashboard.monthKey getFullYear getMonth t) others)) /\
  (forall year month i : nat,
      (1 <= i <= JS.Date.daysInMonth year month)%nat ->
      String.prefix (Dashboard.dateStrOf year month i) (entryDate t) = true ->
      exists (dailyPnl : Q) (hasNote : bool),
        nth_error (Dashboard.days (Dashboard.calendarData trades dailyNotes year month))
                  (JS.Date.firstDayOfWeek year month + (i - 1))
        = Some (Dashboard.Day i (Dashboard.dateStrOf year month i) dailyPnl true hasNote) /\
        dailyPnl == sumPnl (Dashboard.dayTrades others (Dashboard.dateStrOf year month i))).
Proof.
  intros Hc P trades others.
  assert (Hin : In t trades) by (apply in_elt).
  split; [|split; [|split]].
  - pose proof (closedTrades_skip getTime l1 l2 t P) as E.
    split; [exact E | apply stats_of_closedTrades; exact E].
  - assert (Hs : In t (Dashboard.sortedTrades getTime trades)).
    { unfold Dashboard.sortedTrades. apply Array_sort_In. apply filter_In.
      split; [exact Hin | apply isClosed_iff; exact Hc]. }
    apply in_split in Hs. destruct Hs as (pre & post & Hs).
    exists pre, post.
    exists (Dashboard.equityPoints toLocaleDateString 0 pre).
    exists (Dashboard.equityPoints
              toLocaleDateString
              (fold_left Dashboard.addPnl pre 0 + JS.or_zero (pnl t)) post).
    exists (fold_left Dashboard.addPnl pre 0 + 0).
    split; [exact Hs|]. split; [|split].
    + unfold Dashboard.equityCurveData. rewrite Hs, equityPoints_app.
      cbn [Dashboard.equityPoints]. rewrite P. reflexivity.
    + apply equityPoints_length.
    + rewrite equityPoints_last. ring.
  - destruct (monthlyData_has getFullYear getMonth trades t Hin Hc) as [v G].
    exists v. split; [apply monthlyEntries_In; exact G|].
    apply monthlyData_get in G. destruct G as [_ G]. rewrite G.
    unfold monthBucket. apply sumPnl_filter_skip. exact P.
  - intros year month i Hi Hp.
    exists (fold_left Dashboard.addPnl
                      (Dashboard.dayTrades trades (Dashboard.dateStrOf year month i)) 0).
    exists (match Dashboard.findNote dailyNotes (Dashboard.dateStrOf year month i) with
            | Some _ => true
            | None => false
            end).
    split.
    + rewrite days_day by exact Hi. unfold Dashboard.dayCell.
      assert (Hd : In t (Dashboard.dayTrades trades (Dashboard.dateStrOf year month i))).
      { apply dayTrades_In. split; [exact Hin|]. split; [exact Hc | exact Hp]. }
      destruct (Dashboard.dayTrades trades (Dashboard.dateStrOf year month i));
        [destruct Hd | reflexivity].
    + rewrite reduce_addPnl. unfold Dashboard.dayTrades.
      apply sumPnl_filter_skip. exact P.
Qed.

(** A closed trade without a P&L between two closed trades of January
    2024, through [closed_without_pnl]. *)
Lemma closed_without_pnl_witness :
  let a := closedTrade "a" "2024-01-05" (Some 100) in
  let c := closedTrade "c" "2024-01-10" None in
  let b := closedTrade "b" "2024-01-20" (Some (-40)) in
  status c = CLOSED /\ pnl c = None /\
  Dashboard.stats UTCHost.getTime [a; c; b] = Dashboard.stats UTCHost.getTime [a; b] /\
  exists v : Q,
    In ("2024-01"%string, v)
       (Dashboard.monthlyEntries UTCHost.getFullYear UTCHost.getMonth [a; c; b]) /\
    v == 60.
Proof.
  intros a c b.
  split; [reflexivity|]. split; [reflexivity|].
  destruct (closed_without_pnl UTCHost.getTime UTCHost.getFullYear UTCHost.getMonth
                               (fun s => s) [] [a] [b] c eq_refl eq_refl)
    as ((_ & Hstats) & _ & (v & Hin & Hv) & _).
  split; [exact Hstats|].
  exists v. split; [exact Hin|]. rewrite Hv. reflexivity.
Defined.

(** * Further properties of the sources *)

(** ** The statistics on edge inputs *)

Section StatsEdges.

Variable getTime : string -> Z.

Lemma closedTrades_nil (trades : list Trade) :
  (forall t, In t trades -> closedWithPnl t = false) ->
  Dashboard.closedTrades getTime trades = [].
Proof.
  intro H. unfold Dashboard.closedTrades. fold closedWithPnl.
  rewrite (filter_none closedWithPnl trades H). reflexivity.
Qed.

Lemma count_nonneg (l : list Trade) : 0 <= Dashboard.count l.
Proof.
  unfold Dashboard.count. change 0 with (inject_Z 0). rewrite <- Zle_Qle. lia.
Qed.

Lemma count_pos (l : list Trade) :
  (0 < List.length l)%nat -> 0 < Dashboard.count l.
Proof.
  intro H. unfold Dashboard.count. change 0 with (inject_Z 0).
  rewrite <- Zlt_Qlt. lia.
Qed.

Lemma filter_length_le {A : Type} (f : A -> bool) (l : list A) :
  (List.length (filter f l) <= List.length l)%nat.
Proof.
  induction l as [|x r IH]; simpl; [lia|]. destruct (f x); simpl; lia.
Qed.

Lemma wins_losses_length (trades : list Trade) :
  (List.length (Dashboard.wins getTime trades)
   + List.length (Dashboard.losses getTime trades)
   = List.length (Dashboard.closedTrades getTime trades))%nat.
Proof.
  unfold Dashboard.wins, Dashboard.losses.
  induction (Dashboard.closedTrades getTime trades) as [|t r IH]; simpl; [reflexivity|].
  unfold JS.gt, JS.le. destruct (Qle_bool (JS.or_zero (pnl t)) 0); simpl;
    unfold JS.gt, JS.le in IH; lia.
Qed.

End StatsEdges.

(** A collection without a closed trade that has a P&L (the empty
    collection, or open and pending trades only) gives statistics that
    are 0 in every field; no division is attempted. *)
Theorem stats_without_closed (getTime : string -> Z) (trades : list Trade) :
  (forall t, In t trades -> status t <> CLOSED \/ pnl t = None) ->
  Dashboard.stats getTime trades = mkDashboardStats 0 0 0 0 0 0 0 0.
Proof.
  intro H.
  assert (E : Dashboard.closedTrades getTime trades = []).
  { apply closedTrades_nil. intros t Ht. unfold closedWithPnl, Dashboard.hasPnl.
    destruct (H t Ht) as [N|N].
    - destruct (Dashboard.isClosed t) eqn:C; [|reflexivity].
      apply isClosed_iff in C. contradiction.
    - rewrite N. apply andb_false_r. }
  unfold Dashboard.stats, Dashboard.totalWinPnl, Dashboard.totalLossPnl,
    Dashboard.streaks, Dashboard.wins, Dashboard.losses.
  rewrite E. reflexivity.
Qed.

(** An open trade and a closed trade whose P&L was cleared. *)
Lemma stats_without_closed_witness :
  let a := mkTrade "a" "NIFTY" LONG OPEN "2024-01-05" None 100 None 75 None None
                   (Some 5) "General" EmptyString [] in
  let b := closedTrade "b" "2024-01-06" None in
  (forall t, In t [a; b] -> status t <> CLOSED \/ pnl t = None) /\
  Dashboard.stats UTCHost.getTime [a; b] = mkDashboardStats 0 0 0 0 0 0 0 0.
Proof.
  intros a b.
  assert (H : forall t, In t [a; b] -> status t <> CLOSED \/ pnl t = None).
  { intros t [<-|[<-|[]]]; [left; discriminate | right; reflexivity]. }
  split; [exact H|]. exact (stats_without_closed UTCHost.getTime [a; b] H).
Defined.

(** For every collection the statistics are in range: the closed
    trades split into wins and losses, the win rate lies between 0 and
    100, and the profit factor, the average win and the average loss
    are not negative. *)
Theorem stats_ranges (getTime : string -> Z) (trades : list Trade) :
  let s := Dashboard.stats getTime trades in
  totalTrades s
  = (List.length (Dashboard.wins getTime trades)
     + List.length (Dashboard.losses getTime trades))%nat /\
  0 <= winRate s /\ winRate s <= 100 /\
  0 <= profitFactor s /\ 0 <= avgWin s /\ 0 <= avgLoss s.
Proof.
  cbv zeta. cbn [Dashboard.stats totalTrades winRate profitFactor avgWin avgLoss].
  pose proof (wins_losses_length getTime trades) as HL.
  pose proof (totalWinPnl_nonneg getTime trades) as HW.
  pose proof (totalLossPnl_nonneg getTime trades) as HLo.
  split; [symmetry; exact HL|].
  assert (Hrate :
            0 <= (if (0 <? List.length (Dashboard.closedTrades getTime trades))%nat
                  then Dashboard.count (Dashboard.wins getTime trades)
                       / Dashboard.count (Dashboard.closedTrades getTime trades) * 100
                  else 0)
            /\ (if (0 <? List.length (Dashboard.closedTrades getTime trades))%nat
                then Dashboard.count (Dashboard.wins getTime trades)
                     / Dashboard.count (Dashboard.closedTrades getTime trades) * 100
                else 0) <= 100).
  { destruct (Nat.ltb_spec 0 (List.length (Dashboard.closedTrades getTime trades)))
      as [Hp|Hp]; [|split; [apply Qle_refl | intro C; discriminate C]].
    pose proof (count_pos _ Hp) as Hc.
    pose proof (count_nonneg (Dashboard.wins getTime trades)) as Hw.
    assert (Hle : Dashboard.count (Dashboard.wins getTime trades)
                  <= Dashboard.count (Dashboard.closedTrades getTime trades)).
    { unfold Dashboard.count. rewrite <- Zle_Qle. lia. }
    set (w := Dashboard.count (Dashboard.wins getTime trades)) in *.
    set (c := Dashboard.count (Dashboard.closedTrades getTime trades)) in *.
    assert (H1 : 0 <= w / c) by (apply div_nonneg; assumption).
    assert (H2 : w / c <= 1).
    { apply Qle_shift_div_r; [exact Hc|]. rewrite Qmult_1_l. exact Hle. }
    split; lra. }
  destruct Hrate as [R1 R2]. split; [exact R1|]. split; [exact R2|].
  split; [|split].
  - destruct (JS.gt (Dashboard.totalLossPnl getTime trades) 0) eqn:G.
    + apply gt_iff in G. apply div_nonneg; assumption.
    + destruct (JS.gt (Dashboard.totalWinPnl getTime trades) 0);
        intro C; discriminate C.
  - destruct (Nat.ltb_spec 0 (List.length (Dashboard.wins getTime trades)))
      as [Hp|Hp]; [|apply Qle_refl].
    apply div_nonneg; [exact HW | apply count_pos; exact Hp].
  - destruct (Nat.ltb_spec 0 (List.length (Dashboard.losses getTime trades)))
      as [Hp|Hp]; [|apply Qle_refl].
    apply div_nonneg; [exact HLo | apply count_pos; exact Hp].
Qed.

(** ** What the streak scan computes *)

Section RunFacts.

Context {A : Type}.
Variable p : A -> bool.

Lemma trailingRun_snoc (l : list A) (x : A) :
  trailingRun p (l ++ [x]) = if p x then S (trailingRun p l) else O.
Proof. unfold trailingRun. rewrite rev_unit. reflexivity. Qed.

Lemma leadingRun_app_all (x y : list A) :
  forallb p x = true -> leadingRun p (x ++ y) = (List.length x + leadingRun p y)%nat.
Proof.
  induction x as [|a x IH]; simpl; intro H; [reflexivity|].
  apply andb_true_iff in H. destruct H as [Ha Hx]. rewrite Ha, (IH Hx). reflexivity.
Qed.

Lemma leadingRun_split (l : list A) :
  exists x y, l = x ++ y /\ forallb p x = true /\ List.length x = leadingRun p l.
Proof.
  induction l as [|a l IH]; simpl.
  - exists [], []. repeat split.
  - destruct (p a) eqn:E.
    + destruct IH as (x & y & Hl & Hx & Hn).
      exists (a :: x), y. simpl. rewrite E, Hx, Hn, <- Hl. repeat split.
    + exists [], (a :: l). repeat split.
Qed.

Lemma forallb_rev (l : list A) : forallb p (rev l) = forallb p l.
Proof.
  induction l as [|a l IH]; simpl; [reflexivity|].
  rewrite forallb_app, IH. simpl. rewrite andb_true_r. apply andb_comm.
Qed.

(** A block of elements that all satisfy [p] at the end of a list is
    no longer than the trailing run. *)
Lemma suffix_le_trailingRun (a b : list A) :
  forallb p b = true -> (List.length b <= trailingRun p (a ++ b))%nat.
Proof.
  intro H. unfold trailingRun. rewrite rev_app_distr.
  rewrite leadingRun_app_all by (rewrite forallb_rev; exact H).
  rewrite length_rev. lia.
Qed.

Lemma trailingRun_suffix (l : list A) :
  exists a b, l = a ++ b /\ forallb p b = true /\ List.length b = trailingRun p l.
Proof.
  destruct (leadingRun_split (rev l)) as (x & y & Hl & Hx & Hn).
  exists (rev y), (rev x). split; [|split].
  - rewrite <- rev_app_distr, <- Hl. symmetry. apply rev_involutive.
  - rewrite forallb_rev. exact Hx.
  - rewrite length_rev. exact Hn.
Qed.

End RunFacts.

Lemma trailingRun_exclusive (l : list Trade) :
  (0 < trailingRun isWin l)%nat -> trailingRun (fun t => negb (isWin t)) l = O.
Proof.
  unfold trailingRun. destruct (rev l) as [|t r]; simpl; [lia|].
  destruct (isWin t); simpl; [reflexivity | lia].
Qed.

Lemma trailingRun_some (l : list Trade) :
  l <> [] ->
  (0 < trailingRun isWin l)%nat \/ (0 < trailingRun (fun t => negb (isWin t)) l)%nat.
Proof.
  intro N. unfold trailingRun. destruct (rev l) as [|t r] eqn:E.
  - exfalso. apply N. rewrite <- (rev_involutive l), E. reflexivity.
  - simpl. destruct (isWin t); simpl; [left | right]; lia.
Qed.

Lemma snoc_cases {A : Type} (l a b c : list A) (t : A) :
  l ++ [t] = a ++ b ++ c ->
  (exists c', c = c' ++ [t] /\ l = a ++ b ++ c')
  \/ (c = [] /\ exists b', b = b' ++ [t] /\ l = a ++ b')
  \/ (c = [] /\ b = []).
Proof.
  intro H. destruct c as [|x c _] using rev_ind.
  - right. rewrite app_nil_r in H.
    destruct b as [|y b _] using rev_ind.
    + right. split; reflexivity.
    + left. split; [reflexivity|]. rewrite app_assoc in H.
      apply app_inj_tail in H. destruct H as [H1 H2]. subst y.
      exists b. split; [reflexivity | exact H1].
  - left. rewrite !app_assoc in H. apply app_inj_tail in H.
    destruct H as [H1 H2]. subst x. exists c. split; [reflexivity|].
    rewrite H1, app_assoc. reflexivity.
Qed.

Section StreakMeaning.

(** The streak variables after a scan of [l]: the running counter is
    the run of wins that ends [l], the current streak is that run or,
    negated, the run of losses that ends [l], and the maximum is the
    length of a longest run of wins in [l]. *)
Lemma streak_scan (l : list Trade) :
  let s := fold_left Dashboard.streakStep l (Dashboard.mkStreaks 0 0 0) in
  Dashboard.currentWinStreakCounter s = Z.of_nat (trailingRun isWin l) /\
  Dashboard.s_currentStreak s
  = (if (0 <? trailingRun isWin l)%nat then Z.of_nat (trailingRun isWin l)
     else - Z.of_nat (trailingRun (fun t => negb (isWin t)) l))%Z /\
  (forall b, winRun l b -> (Z.of_nat (List.length b) <= Dashboard.s_maxWinStreak s)%Z) /\
  (exists b, winRun l b /\ Z.of_nat (List.length b) = Dashboard.s_maxWinStreak s).
Proof.
  induction l as [|t l IH] using rev_ind.
  - cbv zeta. cbn [fold_left]. split; [reflexivity|]. split; [reflexivity|]. split.
    + intros b [(a & c & E) _]. symmetry in E.
      apply app_eq_nil in E. destruct E as [_ E].
      apply app_eq_nil in E. destruct E as [E _]. subst b. simpl. lia.
    + exists []. split; [|reflexivity]. split; [exists [], []; reflexivity | reflexivity].
  - cbv zeta in *. rewrite fold_left_app. cbn [fold_left].
    destruct IH as (Hc & Hcs & Hle & (b0 & Hb0 & Hlen0)).
    set (s := fold_left Dashboard.streakStep l (Dashboard.mkStreaks 0 0 0)) in *.
    assert (Hold : winRun (l ++ [t]) b0).
    { destruct Hb0 as [(a & c & E) F]. split; [|exact F].
      exists a, (c ++ [t]). rewrite E, <- !app_assoc. reflexivity. }
    rewrite !trailingRun_snoc. unfold Dashboard.streakStep. fold (isWin t).
    destruct (isWin t) eqn:W;
      cbn [Dashboard.currentWinStreakCounter Dashboard.s_maxWinStreak
           Dashboard.s_currentStreak negb Nat.ltb Nat.leb].
    + split; [rewrite Hc; lia|]. split.
      { rewrite Hcs. destruct (Nat.ltb_spec 0 (trailingRun isWin l)) as [P|P].
        - destruct (Z.leb_spec 0 (Z.of_nat (trailingRun isWin l))); lia.
        - destruct (Z.leb_spec 0 (- Z.of_nat (trailingRun (fun t0 => negb (isWin t0)) l)));
            lia. }
      split.
      { intros b [(a & c & E) F]. unfold JS.Math_max.
        apply snoc_cases in E. destruct E as [(c' & Ec & El)|[(Ec & b' & Eb & El)|(Ec & Eb)]].
        - assert (Hb : winRun l b) by (split; [exists a, c'; exact El | exact F]).
          specialize (Hle b Hb). lia.
        - subst b. rewrite forallb_app in F. apply andb_true_iff in F.
          destruct F as [F _].
          pose proof (suffix_le_trailingRun isWin a b' F) as S. rewrite <- El in S.
          rewrite length_app. simpl. rewrite Hc. lia.
        - subst b. simpl. destruct Hb0 as [_ _].
          specialize (Hle [] (conj (ex_intro _ [] (ex_intro _ l eq_refl)) eq_refl)).
          simpl in Hle. lia. }
      { unfold JS.Math_max.
        destruct (Z.le_gt_cases (Dashboard.currentWinStreakCounter s + 1)
                                (Dashboard.s_maxWinStreak s)) as [M|M].
        - exists b0. split; [exact Hold | lia].
        - destruct (trailingRun_suffix isWin l) as (a & b & El & Fb & Nb).
          exists (b ++ [t]). split.
          + split.
            * exists a, []. rewrite app_nil_r, El, <- app_assoc. reflexivity.
            * rewrite forallb_app, Fb. simpl. rewrite W. reflexivity.
          + rewrite length_app. simpl. rewrite Hc in M. lia. }
    + split; [reflexivity|]. split.
      { rewrite Hcs. destruct (Nat.ltb_spec 0 (trailingRun isWin l)) as [P|P].
        - rewrite (trailingRun_exclusive l P).
          destruct (Z.leb_spec (Z.of_nat (trailingRun isWin l)) 0); lia.
        - destruct (Z.leb_spec (- Z.of_nat (trailingRun (fun t0 => negb (isWin t0)) l)) 0);
            lia. }
      split.
      { intros b [(a & c & E) F].
        apply snoc_cases in E. destruct E as [(c' & Ec & El)|[(Ec & b' & Eb & El)|(Ec & Eb)]].
        - apply Hle. split; [exists a, c'; exact El | exact F].
        - subst b. rewrite forallb_app in F. apply andb_true_iff in F.
          destruct F as [_ F]. simpl in F. rewrite W in F. discriminate F.
        - subst b.
          specialize (Hle [] (conj (ex_intro _ [] (ex_intro _ l eq_refl)) eq_refl)).
          exact Hle. }
      { exists b0. split; [exact Hold | exact Hlen0]. }
Qed.

End StreakMeaning.

(** The two streaks of the statistics, by what they mean on the closed
    trades in scan order: the current streak is the length of the run
    of wins that ends the list or, negated, of the run of losses that
    ends it (a P&L of 0 counts as a loss), it is 0 only when there is no
    closed trade, and the maximum win streak is the length of a longest
    run of consecutive wins. *)
Theorem streaks_meaning (getTime : string -> Z) (trades : list Trade) :
  let l := Dashboard.closedTrades getTime trades in
  let s := Dashboard.stats getTime trades in
  currentStreak s
  = (if (0 <? trailingRun isWin l)%nat then Z.of_nat (trailingRun isWin l)
     else - Z.of_nat (trailingRun (fun t => negb (isWin t)) l))%Z /\
  (currentStreak s = 0%Z <-> l = []) /\
  (forall b, winRun l b -> (Z.of_nat (List.length b) <= maxWinStreak s)%Z) /\
  (exists b, winRun l b /\ Z.of_nat (List.length b) = maxWinStreak s).
Proof.
  cbv zeta. cbn [Dashboard.stats currentStreak maxWinStreak]. unfold Dashboard.streaks.
  destruct (streak_scan (Dashboard.closedTrades getTime trades)) as (_ & Hcs & Hle & Hex).
  split; [exact Hcs|]. split; [|split; assumption].
  rewrite Hcs. split.
  - intro H0.
    destruct (Dashboard.closedTrades getTime trades) as [|t r] eqn:E; [reflexivity|].
    exfalso.
    assert (N : t :: r <> []) by discriminate.
    destruct (trailingRun_some (t :: r) N) as [P|P].
    + destruct (Nat.ltb_spec 0 (trailingRun isWin (t :: r))); lia.
    + destruct (Nat.ltb_spec 0 (trailingRun isWin (t :: r))); lia.
  - intro E. rewrite E. reflexivity.
Qed.

(** ** The scan order does not depend on the storage order *)

Section UniqueOrder.

Lemma compare_le_trans (a b c : string) :
  String.compare a b <> Gt -> String.compare b c <> Gt -> String.compare a c <> Gt.
Proof.
  intros Hab Hbc.
  destruct (String.compare a b) eqn:Eab; [| |contradiction].
  - apply String.compare_eq_iff in Eab. subst b. exact Hbc.
  - destruct (String.compare b c) eqn:Ebc; [| |contradiction].
    + apply String.compare_eq_iff in Ebc. subst c. rewrite Eab. discriminate.
    + rewrite (compare_lt_trans a b c Eab Ebc). discriminate.
Qed.

Lemma localeCompare_le (a b : string) :
  (JS.localeCompare a b <= 0)%Z <-> String.compare a b <> Gt.
Proof.
  unfold JS.localeCompare. destruct (String.compare a b); split; intro H;
    try lia; try discriminate. exfalso. apply H. reflexivity.
Qed.

Variable getTime : string -> Z.

Lemma byDateThenId_le (a b : Trade) :
  JS.notAfter (Dashboard.byDateThenId getTime) a b
  <-> (getTime (entryDate a) < getTime (entryDate b))%Z
      \/ (getTime (entryDate a) = getTime (entryDate b)
          /\ String.compare (id a) (id b) <> Gt).
Proof.
  unfold JS.notAfter, Dashboard.byDateThenId.
  destruct (Z.eqb_spec (getTime (entryDate a) - getTime (entryDate b)) 0) as [E|E];
    cbn [negb].
  - rewrite localeCompare_le. split.
    + intro H. right. split; [lia | exact H].
    + intros [H|[_ H]]; [lia | exact H].
  - split.
    + intro H. left. lia.
    + intros [H|[H _]]; lia.
Qed.

Lemma byDateThenId_total (a b : Trade) :
  (0 < Dashboard.byDateThenId getTime a b)%Z ->
  (Dashboard.byDateThenId getTime b a <= 0)%Z.
Proof.
  intro H. apply (byDateThenId_le b a).
  destruct (Z.lt_trichotomy (getTime (entryDate a)) (getTime (entryDate b)))
    as [L|[L|L]].
  - exfalso.
    assert (N : JS.notAfter (Dashboard.byDateThenId getTime) a b)
      by (apply byDateThenId_le; left; exact L).
    unfold JS.notAfter in N. lia.
  - right. split; [symmetry; exact L|].
    unfold Dashboard.byDateThenId in H.
    destruct (Z.eqb_spec (getTime (entryDate a) - getTime (entryDate b)) 0) as [E|E];
      [|lia]. cbn [negb] in H.
    apply localeCompare_pos in H. apply compare_gt_lt in H. rewrite H. discriminate.
  - left. exact L.
Qed.

Lemma byDateThenId_trans (a b c : Trade) :
  JS.notAfter (Dashboard.byDateThenId getTime) a b ->
  JS.notAfter (Dashboard.byDateThenId getTime) b c ->
  JS.notAfter (Dashboard.byDateThenId getTime) a c.
Proof.
  rewrite !byDateThenId_le. intros [H1|[H1 I1]] [H2|[H2 I2]].
  - left. lia.
  - left. lia.
  - left. lia.
  - right. split; [lia|]. apply (compare_le_trans _ (id b)); assumption.
Qed.

Lemma byDateThenId_antisym (a b : Trade) :
  JS.notAfter (Dashboard.byDateThenId getTime) a b ->
  JS.notAfter (Dashboard.byDateThenId getTime) b a ->
  id a = id b.
Proof.
  rewrite !byDateThenId_le. intros [H1|[H1 I1]] [H2|[H2 I2]]; try lia.
  destruct (String.compare (id a) (id b)) eqn:E.
  - apply String.compare_eq_iff. exact E.
  - exfalso. apply I2. rewrite String.compare_antisym, E. reflexivity.
  - contradiction.
Qed.

(** Two arrangements of the same elements that are both in order are
    the same list, when only equal elements can each come before the
    other. *)
Lemma sorted_perm_unique {A : Type} (R : A -> A -> Prop) (l l' : list A) :
  (forall x y, In x l -> In y l -> R x y -> R y x -> x = y) ->
  StronglySorted R l -> StronglySorted R l' -> Permutation l l' -> l = l'.
Proof.
  revert l'. induction l as [|x r IH]; intros l' Anti S S' P.
  - apply Permutation_nil in P. symmetry. exact P.
  - destruct l' as [|x' r'].
    + apply Permutation_sym, Permutation_nil in P. discriminate P.
    + apply StronglySorted_inv in S. destruct S as [Sr Fx].
      apply StronglySorted_inv in S'. destruct S' as [Sr' Fx'].
      rewrite Forall_forall in Fx, Fx'.
      assert (E : x = x').
      { assert (I' : In x' (x :: r))
          by (apply (Permutation_in x' (Permutation_sym P)); left; reflexivity).
        assert (I : In x (x' :: r'))
          by (apply (Permutation_in x P); left; reflexivity).
        destruct I' as [I'|I']; [exact I'|].
        destruct I as [I|I]; [symmetry; exact I|].
        apply Anti; [left; reflexivity | right; exact I' | apply Fx; exact I'
                     | apply Fx'; exact I]. }
      subst x'. f_equal. apply IH.
      * intros a b Ha Hb. apply Anti; right; assumption.
      * exact Sr.
      * exact Sr'.
      * apply (Permutation_cons_inv P).
Qed.

Lemma closedTrades_StronglySorted (trades : list Trade) :
  StronglySorted (JS.notAfter (Dashboard.byDateThenId getTime))
                 (Dashboard.closedTrades getTime trades).
Proof.
  apply Sorted_StronglySorted.
  - intros a b c. apply byDateThenId_trans.
  - unfold Dashboard.closedTrades. apply Array_sort_Sorted. apply byDateThenId_total.
Qed.

Lemma id_inj_of_NoDup (l : list Trade) (a b : Trade) :
  NoDup (map id l) -> In a l -> In b l -> id a = id b -> a = b.
Proof.
  induction l as [|x r IH]; simpl; intros ND Ha Hb E; [destruct Ha|].
  inversion ND as [|? ? Hx ND']. subst.
  destruct Ha as [Ha|Ha], Hb as [Hb|Hb].
  - congruence.
  - subst a. exfalso. apply Hx. rewrite E. apply in_map. exact Hb.
  - subst b. exfalso. apply Hx. rewrite <- E. apply in_map. exact Ha.
  - apply IH; assumption.
Qed.

End UniqueOrder.

(** When the identifiers of the trades are all different, every field
    of the statistics (the streaks included) is the same for every
    storage order of the collection: the sort by entry time and then by
    identifier fixes the scan order. *)
Theorem stats_order_independent (getTime : string -> Z) (trades trades' : list Trade) :
  NoDup (map id trades) -> Permutation trades trades' ->
  Dashboard.closedTrades getTime trades' = Dashboard.closedTrades getTime trades /\
  Dashboard.stats getTime trades' = Dashboard.stats getTime trades.
Proof.
  intros ND P.
  assert (E : Dashboard.closedTrades getTime trades'
              = Dashboard.closedTrades getTime trades).
  { apply (sorted_perm_unique (JS.notAfter (Dashboard.byDateThenId getTime))).
    - intros a b Ha Hb Hab Hba.
      assert (Ia : In a trades').
      { apply (Permutation_in a (closedTrades_perm getTime trades')) in Ha.
        apply filter_In in Ha. apply Ha. }
      assert (Ib : In b trades').
      { apply (Permutation_in b (closedTrades_perm getTime trades')) in Hb.
        apply filter_In in Hb. apply Hb. }
      apply (id_inj_of_NoDup trades').
      + apply (Permutation_NoDup (l := map id trades)); [|exact ND].
        apply Permutation_map. exact P.
      + exact Ia.
      + exact Ib.
      + apply (byDateThenId_antisym getTime); assumption.
    - apply closedTrades_StronglySorted.
    - apply closedTrades_StronglySorted.
    - apply perm_trans with (filter closedWithPnl trades').
      + apply closedTrades_perm.
      + apply perm_trans with (filter closedWithPnl trades).
        * apply filter_perm. apply Permutation_sym. exact P.
        * apply Permutation_sym. apply closedTrades_perm. }
  split; [exact E | apply stats_of_closedTrades; exact E].
Qed.

(** Three trades of one day, stored in two orders. *)
Lemma stats_order_independent_witness :
  let a := closedTrade "a" "2024-01-05" (Some 100) in
  let b := closedTrade "b" "2024-01-05" (Some (-40)) in
  let c := closedTrade "c" "2024-01-05" (Some 10) in
  NoDup (map id [a; b; c]) /\ Permutation [a; b; c] [c; a; b] /\
  Dashboard.stats UTCHost.getTime [c; a; b] = Dashboard.stats UTCHost.getTime [a; b; c].
Proof.
  intros a b c.
  assert (ND : NoDup (map id [a; b; c])).
  { simpl. repeat constructor; simpl; intuition discriminate. }
  assert (P : Permutation [a; b; c] [c; a; b]).
  { apply perm_trans with [a; c; b]; [apply perm_skip; apply perm_swap | apply perm_swap]. }
  split; [exact ND|]. split; [exact P|].
  exact (proj2 (stats_order_independent UTCHost.getTime [a; b; c] [c; a; b] ND P)).
Defined.

(** ** The three totals of the dashboard *)

Section Totals.

Lemma sumEntries_set (data : Dashboard.Obj) (key : string) (x : Q) :
  sumEntries (Dashboard.set data key (JS.or_zero (Dashboard.get data key) + x))
  == sumEntries data + x.
Proof.
  induction data as [|[k w] r IH].
  - simpl. ring.
  - cbn [Dashboard.get Dashboard.set]. destruct (String.eqb k key) eqn:E.
    + cbn [sumEntries fold_right snd]. rewrite or_zero_Some. ring.
    + cbn [sumEntries fold_right snd]. fold (sumEntries r).
      fold (sumEntries (Dashboard.set r key (JS.or_zero (Dashboard.get r key) + x))).
      rewrite IH. ring.
Qed.

Lemma sumEntries_perm (d d' : Dashboard.Obj) :
  Permutation d d' -> sumEntries d == sumEntries d'.
Proof.
  induction 1 as [|e l l' _ IH|e f l|l l' l'' _ IH1 _ IH2]; simpl.
  - reflexivity.
  - rewrite IH. reflexivity.
  - ring.
  - rewrite IH1. exact IH2.
Qed.

Lemma sumBars_map (entries : list (string * Q)) :
  sumBars (map Dashboard.monthPoint entries) == sumEntries entries.
Proof.
  induction entries as [|[k v] r IH]; simpl; [reflexivity|].
  rewrite IH. reflexivity.
Qed.

Variables getFullYear getMonth : string -> nat.

Lemma sumEntries_fold (l : list Trade) (data : Dashboard.Obj) :
  sumEntries (fold_left (Dashboard.addToMonth getFullYear getMonth) l data)
  == sumEntries data + sumPnl l.
Proof.
  revert data. induction l as [|t r IH]; intro data; simpl.
  - ring.
  - rewrite IH. unfold Dashboard.addToMonth. rewrite sumEntries_set.
    rewrite realized_or_zero. ring.
Qed.

Lemma sumPnl_closedWithPnl (l : list Trade) :
  sumPnl (filter closedWithPnl l) == sumPnl (filter Dashboard.isClosed l).
Proof.
  induction l as [|t r IH]; simpl; [reflexivity|].
  unfold closedWithPnl at 1. destruct (Dashboard.isClosed t); simpl; [|exact IH].
  unfold Dashboard.hasPnl. destruct (pnl t) as [x|] eqn:P; simpl.
  - rewrite IH. reflexivity.
  - change (sumPnl (t :: filter Dashboard.isClosed r))
      with (realized t + sumPnl (filter Dashboard.isClosed r)).
    unfold realized at 1. rewrite P, IH. ring.
Qed.

End Totals.

(** The net P&L card, the end of the equity curve and the sum of the
    monthly bars show one number: the sum of the P&L of the closed
    trades, a missing P&L counting as 0.  The equity curve has one
    point per closed trade. *)
Theorem dashboard_totals_agree
        (getTime : string -> Z) (getFullYear getMonth : string -> nat)
        (toLocaleDateString : string -> string) (trades : list Trade) :
  let total := sumPnl (filter Dashboard.isClosed trades) in
  let curve := Dashboard.equityCurveData getTime toLocaleDateString trades in
  netPnL (Dashboard.stats getTime trades) == total /\
  last (map Dashboard.equity curve) 0 == total /\
  sumBars (Dashboard.monthlyChartData getFullYear getMonth trades) == total /\
  List.length curve = List.length (filter Dashboard.isClosed trades).
Proof.
  cbv zeta. split; [|split; [|split]].
  - rewrite netPnL_closed. apply sumPnl_closedWithPnl.
  - unfold Dashboard.equityCurveData. rewrite equityPoints_last, reduce_addPnl.
    apply sumPnl_perm. unfold Dashboard.sortedTrades. apply Array_sort_perm.
  - unfold Dashboard.monthlyChartData. rewrite sumBars_map.
    unfold Dashboard.monthlyEntries.
    rewrite (sumEntries_perm _ _ (Array_sort_perm _ _)).
    unfold Dashboard.monthlyData. rewrite sumEntries_fold. simpl. ring.
  - unfold Dashboard.equityCurveData. rewrite equityPoints_length.
    unfold Dashboard.sortedTrades. apply Array_sort_length.
Qed.

(** ** The position size is the largest one within the risk *)

Section Maximal.




End Maximal.



(** ** Moving between months *)

Section Months.

Lemma fullYear_far (y : Z) : (y < 0 \/ 99 < y)%Z -> JS.Date.fullYear y = y.
Proof.
  intro H. unfold JS.Date.fullYear.
  destruct (Z.leb_spec 0 y); destruct (Z.leb_spec y 99); simpl; try reflexivity; lia.
Qed.

Lemma isLeap_spec (y : Z) :
  JS.Date.isLeap y = true
  <-> ((y mod 4 = 0)%Z /\ ((y mod 100 <> 0)%Z \/ (y mod 400 = 0)%Z)).
Proof.
  unfold JS.Date.isLeap.
  rewrite andb_true_iff, orb_true_iff, negb_true_iff, !Z.eqb_eq, Z.eqb_neq.
  reflexivity.
Qed.

(** The first day of a month is the first day of the month before plus
    the length of that month. *)
Lemma daysFromEpoch_next (y m : Z) :
  (0 <= m < 12)%Z ->
  JS.Date.daysFromEpoch (if (m =? 11)%Z then y + 1 else y)%Z
                        (if (m =? 11)%Z then 0 else m + 1)%Z
  = (JS.Date.daysFromEpoch y m + JS.Date.daysIn y m)%Z.
Proof.
  intro H.
  assert (C : (m = 0 \/ m = 1 \/ m = 2 \/ m = 3 \/ m = 4 \/ m = 5 \/ m = 6
               \/ m = 7 \/ m = 8 \/ m = 9 \/ m = 10 \/ m = 11)%Z) by lia.
  unfold JS.Date.daysIn.
  destruct (JS.Date.isLeap y) eqn:L.
  - apply isLeap_spec in L.
    repeat (destruct C as [C|C]; [subst m; unfold JS.Date.daysFromEpoch; simpl;
                                  Z.div_mod_to_equations; lia|]).
    subst m. unfold JS.Date.daysFromEpoch. simpl. Z.div_mod_to_equations. lia.
  - assert (N : ~ ((y mod 4 = 0)%Z /\ ((y mod 100 <> 0)%Z \/ (y mod 400 = 0)%Z))).
    { intro P. apply isLeap_spec in P. congruence. }
    repeat (destruct C as [C|C]; [subst m; unfold JS.Date.daysFromEpoch; simpl;
                                  Z.div_mod_to_equations; lia|]).
    subst m. unfold JS.Date.daysFromEpoch. simpl. Z.div_mod_to_equations. lia.
Qed.

End Months.

(** The month buttons: from a year outside 0..99 (where the [Date]
    constructor would add 1900) a change by [delta] months lands on a
    month index between 0 and 11, exactly [delta] months away counted
    across the years, and the opposite change leads back. *)
Theorem changeMonth_rollover (y m delta : Z) :
  (y < 0 \/ 99 < y)%Z -> (0 <= m < 12)%Z ->
  let next := DashboardView.changeMonth delta (y, m) in
  (0 <= snd next < 12)%Z /\
  (12 * fst next + snd next = 12 * y + m + delta)%Z /\
  ((fst next < 0 \/ 99 < fst next)%Z ->
   DashboardView.changeMonth (- delta) next = (y, m)).
Proof.
  intros Hy Hm. cbv zeta.
  unfold DashboardView.changeMonth, JS.Date.normalize. cbn [fst snd].
  rewrite (fullYear_far y Hy).
  split; [apply Z.mod_pos_bound; lia|].
  split; [Z.div_mod_to_equations; lia|].
  intro Hy'. rewrite (fullYear_far _ Hy'). f_equal; Z.div_mod_to_equations; lia.
Qed.

(** December 2024 and one month on. *)
Lemma changeMonth_rollover_witness :
  (2024 < 0 \/ 99 < 2024)%Z /\ (0 <= 11 < 12)%Z /\
  DashboardView.changeMonth 1 (2024, 11)%Z = (2025, 0)%Z /\
  DashboardView.changeMonth (-1) (2025, 0)%Z = (2024, 11)%Z.
Proof.
  assert (Hy : (2024 < 0 \/ 99 < 2024)%Z) by (right; reflexivity).
  assert (Hm : (0 <= 11 < 12)%Z) by (split; [discriminate | reflexivity]).
  split; [exact Hy|]. split; [exact Hm|]. split; [reflexivity|].
  destruct (changeMonth_rollover 2024 11 1 Hy Hm) as (_ & _ & H).
  apply H. right. reflexivity.
Defined.

(** The calendar grids of two months in a row fit together: a month
    has 28 to 31 day cells after fewer than 7 blank cells, and the
    month that the forward button leads to starts on the weekday that
    follows the last day of this month. *)
Theorem calendar_next_month (trades : list Trade) (dailyNotes : list DailyNote)
        (year month : nat) :
  (99 < year)%nat -> (month < 12)%nat ->
  let cells := Dashboard.days (Dashboard.calendarData trades dailyNotes year month) in
  let blanks := JS.Date.firstDayOfWeek year month in
  let next := DashboardView.changeMonth 1 (Z.of_nat year, Z.of_nat month) in
  (blanks < 7)%nat /\
  (28 <= JS.Date.daysInMonth year month <= 31)%nat /\
  List.length cells = (blanks + JS.Date.daysInMonth year month)%nat /\
  JS.Date.firstDayOfWeek (Z.to_nat (fst next)) (Z.to_nat (snd next))
  = ((blanks + JS.Date.daysInMonth year month) mod 7)%nat.
Proof.
  intros Hy Hm. cbv zeta.
  assert (Hfar : (Z.of_nat year < 0 \/ 99 < Z.of_nat year)%Z) by lia.
  assert (Hn : JS.Date.normalize (Z.of_nat year) (Z.of_nat month)
               = (Z.of_nat year, Z.of_nat month)).
  { unfold JS.Date.normalize. rewrite (fullYear_far _ Hfar).
    f_equal; Z.div_mod_to_equations; lia. }
  assert (Hdays : (28 <= JS.Date.daysIn (Z.of_nat year) (Z.of_nat month) <= 31)%Z).
  { unfold JS.Date.daysIn.
    destruct (Z.of_nat month =? 1)%Z; [destruct (JS.Date.isLeap _); lia|].
    destruct ((Z.of_nat month =? 3)%Z || (Z.of_nat month =? 5)%Z
              || (Z.of_nat month =? 8)%Z || (Z.of_nat month =? 10)%Z); lia. }
  assert (Hblank : (JS.Date.firstDayOfWeek year month < 7)%nat).
  { unfold JS.Date.firstDayOfWeek. rewrite Hn.
    pose proof (Z.mod_pos_bound
                  (JS.Date.daysFromEpoch (Z.of_nat year) (Z.of_nat month) + 4) 7).
    lia. }
  split; [exact Hblank|].
  assert (Hdim : JS.Date.daysInMonth year month
                 = Z.to_nat (JS.Date.daysIn (Z.of_nat year) (Z.of_nat month))).
  { unfold JS.Date.daysInMonth. rewrite Hn. reflexivity. }
  split; [rewrite Hdim; lia|]. split; [apply days_length|].
  pose proof (daysFromEpoch_next (Z.of_nat year) (Z.of_nat month)) as Hnext.
  assert (Hstep : DashboardView.changeMonth 1 (Z.of_nat year, Z.of_nat month)
                  = ((if (Z.of_nat month =? 11)%Z then Z.of_nat year + 1
                      else Z.of_nat year)%Z,
                     (if (Z.of_nat month =? 11)%Z then 0 else Z.of_nat month + 1)%Z)).
  { unfold DashboardView.changeMonth, JS.Date.normalize. cbn [fst snd].
    rewrite (fullYear_far _ Hfar).
    destruct (Z.eqb_spec (Z.of_nat month) 11) as [E|E];
      f_equal; Z.div_mod_to_equations; lia. }
  rewrite Hstep. cbn [fst snd].
  set (y' := (if (Z.of_nat month =? 11)%Z then Z.of_nat year + 1 else Z.of_nat year)%Z)
    in *.
  set (m' := (if (Z.of_nat month =? 11)%Z then 0 else Z.of_nat month + 1)%Z) in *.
  assert (Hy' : (99 < y')%Z) by (unfold y'; destruct (Z.of_nat month =? 11)%Z; lia).
  assert (Hm' : (0 <= m' < 12)%Z)
    by (unfold m'; destruct (Z.eqb_spec (Z.of_nat month) 11); lia).
  assert (Hn' : JS.Date.normalize (Z.of_nat (Z.to_nat y')) (Z.of_nat (Z.to_nat m'))
                = (y', m')).
  { rewrite !Z2Nat.id by lia. unfold JS.Date.normalize.
    rewrite (fullYear_far y') by lia. f_equal; Z.div_mod_to_equations; lia. }
  unfold JS.Date.firstDayOfWeek at 1. rewrite Hn'.
  rewrite Hnext by lia.
  unfold JS.Date.firstDayOfWeek. rewrite Hn, Hdim.
  set (d := JS.Date.daysFromEpoch (Z.of_nat year) (Z.of_nat month)) in *.
  set (n := JS.Date.daysIn (Z.of_nat year) (Z.of_nat month)) in *.
  apply Nat2Z.inj. rewrite Nat2Z.inj_mod, Nat2Z.inj_add.
  pose proof (Z.mod_pos_bound (d + 4) 7) as B1.
  pose proof (Z.mod_pos_bound (d + n + 4) 7) as B2.
  rewrite !Z2Nat.id by lia.
  Z.div_mod_to_equations. lia.
Qed.

(** February 2024, a leap month that starts on a Thursday, and March
    2024, which starts on a Friday. *)
Lemma calendar_next_month_witness :
  (99 < 2024)%nat /\ (1 < 12)%nat /\
  JS.Date.firstDayOfWeek 2024 1 = 4%nat /\
  JS.Date.daysInMonth 2024 1 = 29%nat /\
  JS.Date.firstDayOfWeek 2024 2 = ((4 + 29) mod 7)%nat.
Proof.
  assert (Hy : (99 < 2024)%nat) by (vm_compute; lia).
  assert (Hm : (1 < 12)%nat) by lia.
  split; [exact Hy|]. split; [exact Hm|]. split; [reflexivity|]. split; [reflexivity|].
  exact (proj2 (proj2 (proj2 (calendar_next_month [] [] 2024 1 Hy Hm)))).
Defined.

(** ** The daily report *)

Section DailyReport.

Lemma Math_max_of_spec (x : Q) (l : list Q) :
  In (Str.Math_max_of x l) (x :: l) /\
  forall y, In y (x :: l) -> y <= Str.Math_max_of x l.
Proof.
  revert x. induction l as [|z l IH]; intro x.
  - simpl. split; [left; reflexivity|]. intros y [<-|[]]. apply Qle_refl.
  - unfold Str.Math_max_of. cbn [fold_left].
    destruct (JS.gt z x) eqn:G.
    + destruct (IH z) as [I1 I2]. fold (Str.Math_max_of z l). split.
      * right. exact I1.
      * intros y [<-|Hy].
        -- apply gt_iff in G. apply Qle_trans with z; [apply Qlt_le_weak; exact G|].
           apply I2. left. reflexivity.
        -- apply I2. exact Hy.
    + destruct (IH x) as [I1 I2]. fold (Str.Math_max_of x l). split.
      * destruct I1 as [I1|I1]; [left; exact I1 | right; right; exact I1].
      * intros y [<-|[<-|Hy]].
        -- apply I2. left. reflexivity.
        -- apply gt_false_iff in G. apply Qle_trans with x; [exact G|].
           apply I2. left. reflexivity.
        -- apply I2. right. exact Hy.
Qed.

Lemma Math_min_of_spec (x : Q) (l : list Q) :
  In (Str.Math_min_of x l) (x :: l) /\
  forall y, In y (x :: l) -> Str.Math_min_of x l <= y.
Proof.
  revert x. induction l as [|z l IH]; intro x.
  - simpl. split; [left; reflexivity|]. intros y [<-|[]]. apply Qle_refl.
  - unfold Str.Math_min_of. cbn [fold_left].
    destruct (JS.gt x z) eqn:G.
    + destruct (IH z) as [I1 I2]. fold (Str.Math_min_of z l). split.
      * right. exact I1.
      * intros y [<-|Hy].
        -- apply gt_iff in G. apply Qle_trans with z; [|apply Qlt_le_weak; exact G].
           apply I2. left. reflexivity.
        -- apply I2. exact Hy.
    + destruct (IH x) as [I1 I2]. fold (Str.Math_min_of x l). split.
      * destruct I1 as [I1|I1]; [left; exact I1 | right; right; exact I1].
      * intros y [<-|[<-|Hy]].
        -- apply I2. left. reflexivity.
        -- apply gt_false_iff in G. apply Qle_trans with x; [|exact G].
           apply I2. left. reflexivity.
        -- apply I2. right. exact Hy.
Qed.

End DailyReport.

(** The daily report for the date string [today].  There is no report
    exactly when no closed trade has an entry timestamp that starts
    with [today].  Otherwise its trade count is the size of that
    bucket, its net P&L is the P&L of the calendar cell of the day with
    that date string, its win rate lies between 0 and 100, the field
    [avgWin] holds the largest P&L among the wins (0 without a win) and
    the field [avgLoss] the lowest P&L among the losses (0 without a
    loss), signed. *)
Theorem dailyStats_report (today : string) (trades : list Trade) :
  let bucket := Dashboard.dayTrades trades today in
  (DashboardView.dailyStats today trades = None <-> bucket = []) /\
  forall s : DashboardStats,
    DashboardView.dailyStats today trades = Some s ->
    totalTrades s = List.length bucket /\
    (forall (dailyNotes : list DailyNote) (year month i : nat),
        Dashboard.dateStrOf year month i = today ->
        exists hasNote : bool,
          Dashboard.dayCell trades dailyNotes year month i
          = Dashboard.Day i today (netPnL s) true hasNote) /\
    0 <= winRate s /\ winRate s <= 100 /\
    (forall t, In t bucket -> isWin t = true -> realized t <= avgWin s) /\
    ((avgWin s = 0 /\ forall t, In t bucket -> isWin t = false)
     \/ exists t, In t bucket /\ isWin t = true /\ avgWin s == realized t) /\
    (forall t, In t bucket -> isWin t = false -> avgLoss s <= realized t) /\
    ((avgLoss s = 0 /\ forall t, In t bucket -> isWin t = true)
     \/ exists t, In t bucket /\ isWin t = false /\ avgLoss s == realized t).
Proof.
  cbv zeta. unfold DashboardView.dailyStats.
  change (filter (fun t => JS.startsWith (entryDate t) today && Dashboard.isClosed t)
                 trades)
    with (Dashboard.dayTrades trades today).
  set (bucket := Dashboard.dayTrades trades today).
  destruct bucket as [|t0 r0] eqn:Eb.
  { simpl. split; [split; reflexivity|]. intros s C. discriminate C. }
  rewrite <- Eb.
  assert (Hlen : (0 < List.length bucket)%nat) by (rewrite Eb; simpl; lia).
  destruct (Nat.eqb_spec (List.length bucket) 0) as [Z|_]; [lia|].
  split.
  { split; [intro C; discriminate C | intro C; rewrite Eb in C; discriminate C]. }
  intros s Hs. injection Hs as <-.
  cbn [totalTrades netPnL winRate avgWin avgLoss].
  split; [reflexivity|]. split.
  { intros dailyNotes year month i Hd. unfold Dashboard.dayCell. rewrite Hd.
    fold bucket.
    destruct (Nat.ltb_spec 0 (List.length bucket)) as [_|C]; [|lia].
    eexists. reflexivity. }
  assert (Hrate :
            0 <= (if (0 <? List.length bucket)%nat
                  then Dashboard.count (filter (fun t => JS.gt (JS.or_zero (pnl t)) 0) bucket)
                       / Dashboard.count bucket * 100 else 0)
            /\ (if (0 <? List.length bucket)%nat
                then Dashboard.count (filter (fun t => JS.gt (JS.or_zero (pnl t)) 0) bucket)
                     / Dashboard.count bucket * 100 else 0) <= 100).
  { destruct (Nat.ltb_spec 0 (List.length bucket)) as [_|C]; [|lia].
    pose proof (count_pos _ Hlen) as Hc.
    pose proof (count_nonneg (filter (fun t => JS.gt (JS.or_zero (pnl t)) 0) bucket)) as Hw.
    assert (Hle : Dashboard.count (filter (fun t => JS.gt (JS.or_zero (pnl t)) 0) bucket)
                  <= Dashboard.count bucket).
    { unfold Dashboard.count. rewrite <- Zle_Qle.
      pose proof (filter_length_le (fun t => JS.gt (JS.or_zero (pnl t)) 0) bucket). lia. }
    set (w := Dashboard.count (filter (fun t => JS.gt (JS.or_zero (pnl t)) 0) bucket)) in *.
    set (c := Dashboard.count bucket) in *.
    assert (H1 : 0 <= w / c) by (apply div_nonneg; assumption).
    assert (H2 : w / c <= 1).
    { apply Qle_shift_div_r; [exact Hc|]. rewrite Qmult_1_l. exact Hle. }
    split; lra. }
  destruct Hrate as [R1 R2]. split; [exact R1|]. split; [exact R2|].
  fold isWin.
  change (fun t : Trade => JS.gt (JS.or_zero (pnl t)) 0) with isWin.
  assert (Hloss : forall t, JS.le (JS.or_zero (pnl t)) 0 = negb (isWin t))
    by (intro t; unfold isWin, JS.gt, JS.le; rewrite negb_involutive; reflexivity).
  rewrite (filter_ext _ _ Hloss).
  split; [|split; [|split]].
  - intros t Ht Wt.
    assert (I : In (JS.or_zero (pnl t)) (map (fun t => JS.or_zero (pnl t))
                                           (filter isWin bucket))).
    { apply (in_map (fun t => JS.or_zero (pnl t))). apply filter_In. split; assumption. }
    destruct (map (fun t => JS.or_zero (pnl t)) (filter isWin bucket)) as [|x l];
      [destruct I|].
    rewrite <- realized_or_zero. apply (proj2 (Math_max_of_spec x l)). exact I.
  - destruct (map (fun t => JS.or_zero (pnl t)) (filter isWin bucket)) as [|x l] eqn:M.
    + left. split; [reflexivity|]. intros t Ht.
      destruct (isWin t) eqn:W; [|reflexivity]. exfalso.
      assert (I : In (JS.or_zero (pnl t)) (map (fun t => JS.or_zero (pnl t))
                                             (filter isWin bucket)))
        by (apply (in_map (fun t => JS.or_zero (pnl t))); apply filter_In; split; assumption).
      rewrite M in I. destruct I.
    + right. pose proof (proj1 (Math_max_of_spec x l)) as I. rewrite <- M in I.
      apply in_map_iff in I. destruct I as (t & Et & Ht).
      apply filter_In in Ht. destruct Ht as [Ht Wt].
      exists t. split; [exact Ht|]. split; [exact Wt|].
      rewrite <- Et. apply realized_or_zero.
  - intros t Ht Wt.
    assert (I : In (JS.or_zero (pnl t))
                   (map (fun t => JS.or_zero (pnl t))
                        (filter (fun t => negb (isWin t)) bucket))).
    { apply (in_map (fun t => JS.or_zero (pnl t))). apply filter_In. split; [exact Ht | rewrite Wt; reflexivity]. }
    destruct (map (fun t => JS.or_zero (pnl t))
                  (filter (fun t => negb (isWin t)) bucket)) as [|x l]; [destruct I|].
    rewrite <- realized_or_zero. apply (proj2 (Math_min_of_spec x l)). exact I.
  - destruct (map (fun t => JS.or_zero (pnl t))
                  (filter (fun t => negb (isWin t)) bucket)) as [|x l] eqn:M.
    + left. split; [reflexivity|]. intros t Ht.
      destruct (isWin t) eqn:W; [reflexivity|]. exfalso.
      assert (I : In (JS.or_zero (pnl t))
                     (map (fun t => JS.or_zero (pnl t))
                          (filter (fun t => negb (isWin t)) bucket)))
        by (apply (in_map (fun t => JS.or_zero (pnl t))); apply filter_In; split; [exact Ht | rewrite W; reflexivity]).
      rewrite M in I. destruct I.
    + right. pose proof (proj1 (Math_min_of_spec x l)) as I. rewrite <- M in I.
      apply in_map_iff in I. destruct I as (t & Et & Ht).
      apply filter_In in Ht. destruct Ht as [Ht Wt].
      exists t. split; [exact Ht|]. split; [apply negb_true_iff; exact Wt|].
      rewrite <- Et. apply realized_or_zero.
Qed.

(** A win and a loss on 2024-01-05. *)
Lemma dailyStats_report_witness :
  let a := closedTrade "a" "2024-01-05" (Some 100) in
  let b := closedTrade "b" "2024-01-05" (Some (-40)) in
  exists s : DashboardStats,
    DashboardView.dailyStats "2024-01-05" [a; b] = Some s /\
    totalTrades s = 2%nat /\ netPnL s == 60 /\ winRate s == 50 /\
    avgWin s == 100 /\ avgLoss s == -40.
Proof.
  intros a b.
  destruct (DashboardView.dailyStats "2024-01-05" [a; b]) as [s|] eqn:E;
    [|vm_compute in E; discriminate E].
  exists s.
  destruct (proj2 (dailyStats_report "2024-01-05" [a; b]) s E) as (Hn & _).
  split; [reflexivity|]. split; [exact Hn|].
  vm_compute in E. injection E as <-. repeat split; reflexivity.
Defined.

(** ** The handlers of the application *)

Section Handlers.

Lemma findNote_withNote_same (notes : list DailyNote) (note : DailyNote) :
  Dashboard.findNote (App.withNote notes note) (date note) = Some note.
Proof.
  unfold Dashboard.findNote, App.withNote.
  induction notes as [|n r IH]; simpl.
  - rewrite String.eqb_refl. reflexivity.
  - destruct (String.eqb (date n) (date note)) eqn:E; simpl.
    + exact IH.
    + rewrite E. exact IH.
Qed.

Lemma findNote_withNote_other (notes : list DailyNote) (note : DailyNote) (d : string) :
  d <> date note ->
  Dashboard.findNote (App.withNote notes note) d = Dashboard.findNote notes d.
Proof.
  intro Hd. unfold Dashboard.findNote, App.withNote.
  induction notes as [|n r IH]; simpl.
  - destruct (String.eqb_spec (date note) d); [congruence | reflexivity].
  - destruct (String.eqb_spec (date n) (date note)) as [E|E]; simpl.
    + destruct (String.eqb_spec (date n) d); [congruence | exact IH].
    + destruct (String.eqb (date n) d); [reflexivity | exact IH].
Qed.

Lemma withNote_once (notes : list DailyNote) (note : DailyNote) :
  List.length (filter (fun n => String.eqb (date n) (date note))
                      (App.withNote notes note)) = 1%nat.
Proof.
  unfold App.withNote. rewrite filter_app. simpl. rewrite String.eqb_refl.
  rewrite length_app. simpl.
  replace (filter (fun n => String.eqb (date n) (date note))
                  (filter (fun n => negb (String.eqb (date n) (date note))) notes))
    with (@nil DailyNote); [reflexivity|].
  induction notes as [|n r IH]; simpl; [reflexivity|].
  destruct (String.eqb (date n) (date note)) eqn:E; simpl; [exact IH|].
  rewrite E. exact IH.
Qed.

Lemma NoDup_map_filter {A B : Type} (g : A -> B) (f : A -> bool) (l : list A) :
  NoDup (map g l) -> NoDup (map g (filter f l)).
Proof.
  induction l as [|a l IH]; simpl; intro H; [constructor|].
  inversion H as [|x xs Hn Hd]; subst.
  destruct (f a); simpl; [|exact (IH Hd)].
  constructor; [|exact (IH Hd)].
  intro C. apply Hn. apply in_map_iff in C. destruct C as (b & Eb & Hb).
  apply filter_In in Hb. apply in_map_iff. exists b. tauto.
Qed.

Lemma withNote_NoDup (notes : list DailyNote) (note : DailyNote) :
  NoDup (map date notes) -> NoDup (map date (App.withNote notes note)).
Proof.
  intro H. unfold App.withNote. rewrite map_app. simpl.
  apply (Permutation_NoDup (Permutation_cons_append _ _)).
  constructor; [|apply NoDup_map_filter; exact H].
  intro C. apply in_map_iff in C. destruct C as (b & Eb & Hb).
  apply filter_In in Hb. destruct Hb as [_ Hb].
  rewrite Eb, String.eqb_refl in Hb. discriminate Hb.
Qed.

Lemma replace_ids (trade : Trade) (l : list Trade) :
  map id (map (fun t => if String.eqb (id t) (id trade) then trade else t) l)
  = map id l.
Proof.
  rewrite map_map. apply map_ext. intro t.
  destruct (String.eqb_spec (id t) (id trade)) as [E|E]; [symmetry; exact E | reflexivity].
Qed.

Lemma filter_fresh (tradeId : string) (l : list Trade) :
  ~ In tradeId (map id l) ->
  filter (fun t => negb (String.eqb (id t) tradeId)) l = l.
Proof.
  induction l as [|t l IH]; simpl; intro H; [reflexivity|].
  destruct (String.eqb_spec (id t) tradeId) as [E|E]; simpl.
  - exfalso. apply H. left. exact E.
  - f_equal. apply IH. intro C. apply H. right. exact C.
Qed.

End Handlers.

(** Saving a note, the store accepting it.  Afterwards the notes hold
    exactly one note for its date, the one saved, which is the note the
    calendar finds for that date; the note found for any other date is
    the one found before; dates that were pairwise distinct stay so;
    and the calendar cell of a day with that date string shows a note.
    The trades are not touched and nothing is shown. *)
Theorem handleSaveNote_one_note_per_date
        (E : Type) (note : DailyNote)
        (fetchedTrades : JS.Outcome E (list Trade))
        (fetchedNotes : JS.Outcome E (list DailyNote)) (st : App.State) :
  let after := App.handleSaveNote note (JS.Returned tt) fetchedTrades fetchedNotes st in
  let notes' := App.dailyNotes (fst after) in
  Dashboard.findNote notes' (date note) = Some note /\
  List.length (filter (fun n => String.eqb (date n) (date note)) notes') = 1%nat /\
  (forall d, d <> date note ->
             Dashboard.findNote notes' d = Dashboard.findNote (App.dailyNotes st) d) /\
  (NoDup (map date (App.dailyNotes st)) -> NoDup (map date notes')) /\
  (forall (trades : list Trade) (year month i : nat),
      Dashboard.dateStrOf year month i = date note ->
      exists (p : Q) (hasTrades : bool),
        Dashboard.dayCell trades notes' year month i
        = Dashboard.Day i (date note) p hasTrades true) /\
  App.trades (fst after) = App.trades st /\
  snd after = [].
Proof.
  cbv zeta. cbn [App.handleSaveNote fst snd App.setDailyNotes App.dailyNotes App.trades].
  split; [apply findNote_withNote_same|].
  split; [apply withNote_once|].
  split; [intros d Hd; apply findNote_withNote_other; exact Hd|].
  split; [apply withNote_NoDup|].
  split; [|split; reflexivity].
  intros trades year month i Hd. unfold Dashboard.dayCell. rewrite Hd.
  rewrite findNote_withNote_same. eexists. eexists. reflexivity.
Qed.

(** Saving an edited trade, the store accepting it.  The identifiers
    of the trades, in order, are what they were; every trade carrying
    the identifier of the saved one is now the saved one, the other
    trades are the ones there were, the form is closed and no trade is
    being edited any more. *)
Theorem handleSaveTrade_edit_keeps_ids
        (E F : Type) (trade edited : Trade)
        (fetchedTrades : JS.Outcome E (list Trade))
        (fetchedNotes : JS.Outcome E (list DailyNote)) (st : App.State) :
  App.editingTrade st = Some edited ->
  let after := @App.handleSaveTrade E F trade (JS.Returned tt)
                                    fetchedTrades fetchedNotes st in
  let trades' := App.trades (fst after) in
  map id trades' = map id (App.trades st) /\
  (forall t, In t trades' -> id t = id trade -> t = trade) /\
  (forall t, id t <> id trade -> (In t trades' <-> In t (App.trades st))) /\
  (In (id trade) (map id (App.trades st)) -> In trade trades') /\
  App.isFormOpen (fst after) = false /\
  App.editingTrade (fst after) = None /\
  snd after = [].
Proof.
  intro He. cbv zeta.
  cbn [App.handleSaveTrade fst snd App.trades App.isFormOpen App.editingTrade].
  rewrite He. cbn [App.withTrade].
  split; [apply replace_ids|].
  split.
  { intros t Ht Et. apply in_map_iff in Ht. destruct Ht as (u & Eu & _).
    destruct (String.eqb_spec (id u) (id trade)) as [C|C];
      [symmetry; exact Eu | subst u; contradiction]. }
  split.
  { intros t Ht. rewrite in_map_iff. split.
    - intros (u & Eu & Hu).
      destruct (String.eqb_spec (id u) (id trade)) as [C|C];
        [subst t; contradiction | subst u; exact Hu].
    - intro Hin. exists t. split; [|exact Hin].
      destruct (String.eqb_spec (id t) (id trade)) as [C|C];
        [contradiction | reflexivity]. }
  split; [|repeat split].
  intro Hin. apply in_map_iff in Hin. destruct Hin as (u & Eu & Hu).
  apply in_map_iff. exists u. split; [|exact Hu].
  rewrite Eu, String.eqb_refl. reflexivity.
Qed.

(** Editing the second of two trades. *)
Lemma handleSaveTrade_edit_keeps_ids_witness :
  map id (App.trades (fst (@App.handleSaveTrade unit unit
     (closedTrade "b" "2024-01-06" (Some 10)) (JS.Returned tt)
     (JS.Thrown tt) (JS.Thrown tt)
     (App.mkState [closedTrade "a" "2024-01-05" (Some 100);
                   closedTrade "b" "2024-01-05" None] [] true
                  (Some (closedTrade "b" "2024-01-05" None)) false EmptyString false))))
  = ["a"; "b"]%string.
Proof.
  exact (proj1 (handleSaveTrade_edit_keeps_ids
                  unit unit (closedTrade "b" "2024-01-06" (Some 10))
                  (closedTrade "b" "2024-01-05" None) (JS.Thrown tt) (JS.Thrown tt)
                  (App.mkState [closedTrade "a" "2024-01-05" (Some 100);
                                closedTrade "b" "2024-01-05" None] [] true
                               (Some (closedTrade "b" "2024-01-05" None))
                               false EmptyString false)
                  eq_refl)).
Defined.

(** Deleting a trade, the user confirming and the store accepting.
    The trades left are those there were whose identifier is not the
    deleted one, in their order; no trade carries that identifier any
    more, and when none did the trades are unchanged.  The notes are
    not touched.  Without confirmation nothing changes. *)
Theorem handleDeleteTrade_removes
        (E : Type) (tradeId : string) (deleted : JS.Outcome E unit)
        (fetchedTrades : JS.Outcome E (list Trade))
        (fetchedNotes : JS.Outcome E (list DailyNote)) (st : App.State) :
  let after := App.handleDeleteTrade tradeId true (JS.Returned tt)
                                     fetchedTrades fetchedNotes st in
  let trades' := App.trades (fst after) in
  (forall t, In t trades' <-> In t (App.trades st) /\ id t <> tradeId) /\
  ~ In tradeId (map id trades') /\
  (~ In tradeId (map id (App.trades st)) -> trades' = App.trades st) /\
  (forall getTime, StronglySorted (fun a b => (TradeList.latestFirst getTime a b <= 0)%Z)
                                  (App.trades st) ->
                   StronglySorted (fun a b => (TradeList.latestFirst getTime a b <= 0)%Z)
                                  trades') /\
  App.dailyNotes (fst after) = App.dailyNotes st /\
  App.handleDeleteTrade tradeId false deleted fetchedTrades fetchedNotes st = (st, []).
Proof.
  cbv zeta. cbn [App.handleDeleteTrade fst snd App.setTrades App.trades App.dailyNotes].
  split.
  { intro t. rewrite filter_In. split; intros [H1 H2]; split; try exact H1.
    - intro C. rewrite C, String.eqb_refl in H2. discriminate H2.
    - destruct (String.eqb_spec (id t) tradeId); [contradiction | reflexivity]. }
  split.
  { intro C. apply in_map_iff in C. destruct C as (t & Et & Ht).
    apply filter_In in Ht. destruct Ht as [_ Ht].
    rewrite Et, String.eqb_refl in Ht. discriminate Ht. }
  split; [apply filter_fresh|].
  split; [|split; reflexivity].
  intros getTime H. induction H as [|a l Hs IH Ha]; simpl; [constructor|].
  destruct (negb (String.eqb (id a) tradeId)); [|exact IH].
  constructor; [exact IH|].
  apply Forall_forall. intros x Hx. apply filter_In in Hx.
  rewrite Forall_forall in Ha. apply Ha. tauto.
Qed.

(** A new trade whose identifier no trade carries is put in front of
    the others, and deleting it afterwards gives back the trades there
    were before it was saved. *)
Theorem handleSaveTrade_new_then_delete
        (E F : Type) (trade : Trade)
        (fetchedTrades : JS.Outcome E (list Trade))
        (fetchedNotes : JS.Outcome E (list DailyNote)) (st : App.State) :
  App.editingTrade st = None ->
  ~ In (id trade) (map id (App.trades st)) ->
  let saved := fst (@App.handleSaveTrade E F trade (JS.Returned tt)
                                         fetchedTrades fetchedNotes st) in
  App.trades saved = trade :: App.trades st /\
  App.trades (fst (App.handleDeleteTrade (id trade) true (JS.Returned tt)
                                         fetchedTrades fetchedNotes saved))
  = App.trades st.
Proof.
  intros He Hf. cbv zeta.
  cbn [App.handleSaveTrade App.handleDeleteTrade fst App.setTrades App.trades].
  rewrite He. cbn [App.withTrade]. split; [reflexivity|].
  cbn [filter]. rewrite String.eqb_refl. cbn [negb].
  apply filter_fresh. exact Hf.
Qed.

(** A first trade saved and deleted again. *)
Lemma handleSaveTrade_new_then_delete_witness :
  App.trades
    (fst (App.handleDeleteTrade "b" true (JS.Returned tt) (JS.Thrown tt) (JS.Thrown tt)
            (fst (@App.handleSaveTrade unit unit
                    (closedTrade "b" "2024-01-06" (Some 10)) (JS.Returned tt)
                    (JS.Thrown tt) (JS.Thrown tt)
                    (App.mkState [closedTrade "a" "2024-01-05" (Some 100)] [] true
                                 None false EmptyString false)))))
  = [closedTrade "a" "2024-01-05" (Some 100)].
Proof.
  refine (proj2 (handleSaveTrade_new_then_delete
                   unit unit (closedTrade "b" "2024-01-06" (Some 10))
                   (JS.Thrown tt) (JS.Thrown tt)
                   (App.mkState [closedTrade "a" "2024-01-05" (Some 100)] [] true
                                None false EmptyString false)
                   eq_refl _)).
  simpl. intros [C|[]]. discriminate C.
Defined.

(** The coach button.  Whatever the client and the model do, once
    [analyzeTradeWithAI] has settled the handler has stopped the
    spinner and the modal, open, shows a text that is not empty; the
    trades and the notes are as they were.  A promise that rejected
    would have left the spinner running over an empty text. *)
Theorem handleAnalyzeTrade_settles
        (Error Client : Type)
        (getAIClient : JS.Outcome Error Client)
        (generateContent : Client -> string -> string
                           -> JS.Outcome Error GeminiService.Response)
        (Number_toString : Q -> string)
        (trade : Trade) (st : App.State) :
  let settled :=
    fst (GeminiService.analyzeTradeWithAI Error Client getAIClient generateContent
                                          Number_toString trade) in
  let after := App.handleAnalyzeTrade settled st in
  (App.isAnalyzing after = false /\
   App.aiModalOpen after = true /\
   App.aiAnalysis after <> EmptyString /\
   App.trades after = App.trades st /\
   App.dailyNotes after = App.dailyNotes st) /\
  forall error : Error,
    App.isAnalyzing (App.handleAnalyzeTrade (JS.Thrown error) st) = true /\
    App.aiAnalysis (App.handleAnalyzeTrade (E:=Error) (JS.Thrown error) st) = EmptyString.
Proof.
  cbv zeta. split; [|intro error; split; reflexivity].
  unfold GeminiService.analyzeTradeWithAI, GeminiService.attempt.
  destruct getAIClient as [ai|e]; cbn [JS.bind].
  - destruct (generateContent ai GeminiService.model
                              (GeminiService.prompt Number_toString trade))
      as [response|e]; cbn [JS.bind fst App.handleAnalyzeTrade App.isAnalyzing
                                    App.aiModalOpen App.aiAnalysis App.trades
                                    App.dailyNotes].
    + repeat split.
      destruct (GeminiService.text response) as [[|c r]|]; cbn; discriminate.
    + repeat split. discriminate.
  - cbn [fst App.handleAnalyzeTrade App.isAnalyzing App.aiModalOpen App.aiAnalysis
             App.trades App.dailyNotes].
    repeat split. discriminate.
Qed.

(** ** The journal list *)

Section Journal.

Variable getTime : string -> Z.

Lemma latestFirst_total (x y : Trade) :
  (0 < TradeList.latestFirst getTime x y)%Z -> (TradeList.latestFirst getTime y x <= 0)%Z.
Proof. unfold TradeList.latestFirst. lia. Qed.

Lemma sort_insert_enteredAt (k : Z) (x : Trade) (l : list Trade) :
  enteredAt getTime k (JS.sort_insert (TradeList.latestFirst getTime) x l)
  = enteredAt getTime k (x :: l).
Proof.
  unfold enteredAt. induction l as [|z r IH]; [reflexivity|].
  cbn [JS.sort_insert].
  destruct (Z.ltb_spec 0 (TradeList.latestFirst getTime x z)) as [L|L]; [|reflexivity].
  cbn [filter] in *. rewrite IH.
  unfold TradeList.latestFirst in L.
  destruct (Z.eqb_spec (getTime (entryDate x)) k) as [Ex|Ex];
    destruct (Z.eqb_spec (getTime (entryDate z)) k) as [Ez|Ez];
    try reflexivity. lia.
Qed.

Lemma Array_sort_enteredAt (k : Z) (l : list Trade) :
  enteredAt getTime k (JS.Array_sort (TradeList.latestFirst getTime) l)
  = enteredAt getTime k l.
Proof.
  induction l as [|x r IH]; [reflexivity|].
  cbn [JS.Array_sort fold_right]. rewrite sort_insert_enteredAt.
  unfold enteredAt in *. cbn [filter].
  fold (JS.Array_sort (TradeList.latestFirst getTime) r). rewrite IH. reflexivity.
Qed.

End Journal.

(** The journal list.  The trades shown are those of the collection
    that pass the filter (all of them, the open ones or the closed
    ones, so that a pending trade is shown under the first filter
    only), each as often as it occurs; no trade shown has an entry time
    later than one shown before it; and trades of the same entry time
    are shown in the order of the collection. *)
Theorem filteredTrades_latest_first (getTime : string -> Z) (filter : TradeList.Filter)
        (trades : list Trade) :
  let shown := TradeList.filteredTrades getTime filter trades in
  Permutation shown (List.filter (TradeList.keeps filter) trades) /\
  (forall t, In t shown <->
             In t trades /\
             (filter = TradeList.ALL
              \/ (filter = TradeList.ONLY_OPEN /\ status t = OPEN)
              \/ (filter = TradeList.ONLY_CLOSED /\ status t = CLOSED))) /\
  StronglySorted (fun a b => (getTime (entryDate b) <= getTime (entryDate a))%Z) shown /\
  (forall k, enteredAt getTime k shown
             = enteredAt getTime k (List.filter (TradeList.keeps filter) trades)).
Proof.
  cbv zeta. unfold TradeList.filteredTrades.
  split; [apply Array_sort_perm|].
  split.
  { intro t. rewrite Array_sort_In, filter_In.
    destruct filter; cbn [TradeList.keeps]; destruct (status t); cbn;
      intuition (try discriminate; auto). }
  split; [|intro k; apply Array_sort_enteredAt].
  apply Sorted_StronglySorted; [intros a b c; lia|].
  pose proof (Array_sort_Sorted (TradeList.latestFirst getTime)
                                (latestFirst_total getTime)
                                (List.filter (TradeList.keeps filter) trades)) as H.
  induction H as [|a l Hs IH Hh]; constructor; [exact IH|].
  destruct Hh as [|b l Hab]; constructor.
  unfold JS.notAfter, TradeList.latestFirst in Hab. lia.
Qed.

(** ** Writing to the store and reading back *)

Section RoundTrip.

Lemma truthy_iff (x : Q) : JS.truthy x = true <-> ~ x == 0.
Proof.
  unfold JS.truthy. rewrite negb_true_iff. split.
  - intros H C. apply Qeq_bool_iff in C. congruence.
  - intro H. destruct (Qeq_bool x 0) eqn:E; [|reflexivity].
    exfalso. apply H. apply Qeq_bool_iff. exact E.
Qed.

Lemma ifTruthy_keeps (v : option Q) : Columns.ifTruthy v = v <-> absentOrNonzero v.
Proof.
  destruct v as [x|]; cbn; [|tauto].
  destruct (JS.truthy x) eqn:T.
  - split; [intros _; apply truthy_iff; exact T | reflexivity].
  - split; [intro C; discriminate C|].
    intro H. apply truthy_iff in H. congruence.
Qed.

Lemma ifNotNull_keeps (v : option Q) : Columns.ifNotNull v = v.
Proof. destruct v; reflexivity. Qed.

End RoundTrip.

(** The optional numbers of a trade, written by [saveTradeToDb] and
    read by [fetchTrades].  The row sent holds each of exit price, stop
    loss, take profit and P&L as the number it is, 0 included, and
    [null] for an absent one.  From a row whose four columns are the
    ones sent, whatever its other columns, the first copy of
    [fetchTrades] reads the P&L as it was and each of the other three
    as it was exactly when it is not 0, a 0 coming back absent; the
    second copy reads the P&L too only when it is not 0. *)
Theorem saved_numbers_read_back (userId : string) (trade : Trade) (row : TradeRow) :
  let sent := SupabaseWrite.dbTrade userId trade in
  r_exit_price row = SupabaseWrite.d_exit_price sent ->
  r_stop_loss row = SupabaseWrite.d_stop_loss sent ->
  r_take_profit row = SupabaseWrite.d_take_profit sent ->
  r_pnl row = SupabaseWrite.d_pnl sent ->
  let read := SupabaseClient1.toTrade row in
  let read2 := SupabaseClient2.toTrade row in
  (SupabaseWrite.d_exit_price sent = exitPrice trade /\
   SupabaseWrite.d_stop_loss sent = stopLoss trade /\
   SupabaseWrite.d_take_profit sent = takeProfit trade /\
   SupabaseWrite.d_pnl sent = pnl trade) /\
  pnl read = pnl trade /\
  (exitPrice read = exitPrice trade <-> absentOrNonzero (exitPrice trade)) /\
  (stopLoss read = stopLoss trade <-> absentOrNonzero (stopLoss trade)) /\
  (takeProfit read = takeProfit trade <-> absentOrNonzero (takeProfit trade)) /\
  (~ absentOrNonzero (exitPrice trade) -> exitPrice read = None) /\
  (~ absentOrNonzero (stopLoss trade) -> stopLoss read = None) /\
  (~ absentOrNonzero (takeProfit trade) -> takeProfit read = None) /\
  (pnl read2 = pnl trade <-> absentOrNonzero (pnl trade)) /\
  (~ absentOrNonzero (pnl trade) -> pnl read2 = None /\ pnl read <> pnl read2) /\
  exitPrice read2 = exitPrice read /\ stopLoss read2 = stopLoss read /\
  takeProfit read2 = takeProfit read.
Proof.
  cbv zeta. intros Hx Hs Ht Hp.
  unfold SupabaseClient1.toTrade, SupabaseClient2.toTrade.
  cbn [pnl exitPrice stopLoss takeProfit].
  rewrite Hx, Hs, Ht, Hp. destruct trade as [i sy ty st ed xd ep xp q sl tp p su no ta].
  cbn [SupabaseWrite.dbTrade SupabaseWrite.d_exit_price SupabaseWrite.d_stop_loss
         SupabaseWrite.d_take_profit SupabaseWrite.d_pnl
         pnl exitPrice stopLoss takeProfit].
  assert (Gone : forall v, ~ absentOrNonzero v -> Columns.ifTruthy v = None).
  { intros [x|] H; [|exfalso; apply H; exact I]. cbn.
    destruct (JS.truthy x) eqn:T; [|reflexivity].
    exfalso. apply H. apply truthy_iff. exact T. }
  split; [repeat split|].
  split; [apply ifNotNull_keeps|].
  split; [apply ifTruthy_keeps|]. split; [apply ifTruthy_keeps|].
  split; [apply ifTruthy_keeps|].
  split; [apply Gone|]. split; [apply Gone|]. split; [apply Gone|].
  split; [apply ifTruthy_keeps|].
  split; [|repeat split].
  intro H. split; [apply Gone; exact H|].
  rewrite ifNotNull_keeps, (Gone p H).
  destruct p as [x|]; [discriminate | exfalso; apply H; exact I].
Qed.

(** A trade that broke even, and the row the store returns for it with
    the entry date in the store's own format. *)
Lemma saved_numbers_read_back_witness :
  let trade := mkTrade "7f3c" "NIFTY" LONG CLOSED "2024-01-05" None 100 (Some 100) 75
                       None None (Some 0) "General" EmptyString [] in
  pnl (SupabaseClient1.toTrade zeroPnlRow) = Some 0 /\
  pnl (SupabaseClient2.toTrade zeroPnlRow) = None /\
  exitPrice (SupabaseClient1.toTrade zeroPnlRow) = Some 100.
Proof.
  intro trade.
  destruct (saved_numbers_read_back "u1" trade zeroPnlRow
                                    eq_refl eq_refl eq_refl eq_refl)
    as (_ & H1 & H2 & _ & _ & _ & _ & _ & _ & H3 & _).
  split; [exact H1|]. split.
  - apply H3. intro C. apply C. reflexivity.
  - apply H2. intro C. discriminate C.
Defined.

(** Saving a trade from the form: nothing is shown exactly when a user
    is logged in and the store accepts the row built for that user.
    Without a user the save fails before the store is asked, and the
    handler alerts as for any refusal of the store. *)
Theorem handleSaveTrade_alerts
        (E : Type) (user : option string)
        (upsert : SupabaseWrite.DbTrade -> JS.Outcome E unit) (trade : Trade)
        (fetchedTrades : JS.Outcome E (list Trade))
        (fetchedNotes : JS.Outcome E (list DailyNote)) (st : App.State) :
  let saved := SupabaseWrite.saveTradeToDb user upsert trade in
  let after := App.handleSaveTrade trade saved fetchedTrades fetchedNotes st in
  (snd after = [] <->
   exists userId, user = Some userId /\
                  upsert (SupabaseWrite.dbTrade userId trade) = JS.Returned tt) /\
  (snd after <> [] ->
   filter isAlert (snd after) = [App.Alert "Failed to save trade to cloud."]) /\
  (user = None -> saved = JS.Thrown SupabaseWrite.NoUserLoggedIn).
Proof.
  cbv zeta. unfold SupabaseWrite.saveTradeToDb, App.handleSaveTrade.
  destruct user as [userId|].
  - destruct (upsert (SupabaseWrite.dbTrade userId trade)) as [[]|e] eqn:U.
    + cbn [snd]. split; [|split].
      * split; [intros _; exists userId; split; [reflexivity | exact U] | reflexivity].
      * intro C. contradiction C. reflexivity.
      * intro C. discriminate C.
    + destruct fetchedTrades, fetchedNotes; cbn [App.loadData snd app];
        (split; [|split]);
        try (split; [intro C; discriminate C
                    | intros (u & Eu & Hu); injection Eu as <-; rewrite U in Hu;
                      discriminate Hu]);
        try (intros _; reflexivity); intro C; discriminate C.
  - destruct fetchedTrades, fetchedNotes; cbn [App.loadData snd app];
      (split; [|split]);
      try (split; [intro C; discriminate C | intros (u & Eu & _); discriminate Eu]);
      try (intros _; reflexivity).
Qed.


(** ** The trade form *)

Section Rounding.

Lemma floor_bounds (y : Q) : inject_Z (Qfloor y) <= y /\ y < inject_Z (Qfloor y) + 1.
Proof.
  split; [apply Qfloor_le|].
  pose proof (Qlt_floor y) as H. rewrite inject_Z_plus in H. exact H.
Qed.

Lemma floor_unique (y : Q) (k : Z) :
  inject_Z k <= y -> y < inject_Z k + 1 -> Qfloor y = k.
Proof.
  intros H1 H2. destruct (floor_bounds y) as [F1 F2].
  assert (A : (Qfloor y < k + 1)%Z).
  { rewrite Zlt_Qlt, inject_Z_plus. change (inject_Z 1) with 1. lra. }
  assert (B : (k < Qfloor y + 1)%Z).
  { rewrite Zlt_Qlt, inject_Z_plus. change (inject_Z 1) with 1. lra. }
  lia.
Qed.

Lemma toFixed2_nonneg (x : Q) :
  0 <= x -> JS.toFixed2 x == inject_Z (Qfloor (x * 100 + (1 # 2))) / 100.
Proof.
  intro H. unfold JS.toFixed2.
  destruct (Qle_bool 0 x) eqn:B.
  - rewrite (Qabs_pos x H). reflexivity.
  - exfalso. apply Qle_bool_iff in H. congruence.
Qed.

Lemma toFixed2_neg (x : Q) :
  x < 0 -> JS.toFixed2 x == - (inject_Z (Qfloor (- x * 100 + (1 # 2))) / 100).
Proof.
  intro H. unfold JS.toFixed2.
  destruct (Qle_bool 0 x) eqn:B.
  - apply Qle_bool_iff in B. lra.
  - rewrite (Qabs_neg x) by lra. reflexivity.
Qed.

Lemma toFixed2_error (x : Q) : Qabs (JS.toFixed2 x - x) <= 1 # 200.
Proof.
  apply Qabs_Qle_condition.
  destruct (Qlt_le_dec x 0) as [N|P].
  - rewrite (toFixed2_neg x N).
    destruct (floor_bounds (- x * 100 + (1 # 2))) as [F1 F2].
    set (n := inject_Z (Qfloor (- x * 100 + (1 # 2)))) in *.
    unfold Qdiv. change (/ 100) with (1 # 100). split; lra.
  - rewrite (toFixed2_nonneg x P).
    destruct (floor_bounds (x * 100 + (1 # 2))) as [F1 F2].
    set (n := inject_Z (Qfloor (x * 100 + (1 # 2)))) in *.
    unfold Qdiv. change (/ 100) with (1 # 100). split; lra.
Qed.

Lemma toFixed2_mono (x y : Q) : x <= y -> JS.toFixed2 x <= JS.toFixed2 y.
Proof.
  intro H.
  destruct (Qlt_le_dec x 0) as [Nx|Px]; destruct (Qlt_le_dec y 0) as [Ny|Py].
  - rewrite (toFixed2_neg x Nx), (toFixed2_neg y Ny).
    assert (L : inject_Z (Qfloor (- y * 100 + (1 # 2)))
                <= inject_Z (Qfloor (- x * 100 + (1 # 2)))).
    { rewrite <- Zle_Qle. apply Qfloor_resp_le. lra. }
    unfold Qdiv. change (/ 100) with (1 # 100). lra.
  - rewrite (toFixed2_neg x Nx), (toFixed2_nonneg y Py).
    assert (L1 : 0 <= inject_Z (Qfloor (- x * 100 + (1 # 2)))).
    { change 0 with (inject_Z 0). rewrite <- Zle_Qle.
      change 0%Z with (Qfloor 0). apply Qfloor_resp_le. lra. }
    assert (L2 : 0 <= inject_Z (Qfloor (y * 100 + (1 # 2)))).
    { change 0 with (inject_Z 0). rewrite <- Zle_Qle.
      change 0%Z with (Qfloor 0). apply Qfloor_resp_le. lra. }
    unfold Qdiv. change (/ 100) with (1 # 100). lra.
  - lra.
  - rewrite (toFixed2_nonneg x Px), (toFixed2_nonneg y Py).
    assert (L : inject_Z (Qfloor (x * 100 + (1 # 2)))
                <= inject_Z (Qfloor (y * 100 + (1 # 2)))).
    { rewrite <- Zle_Qle. apply Qfloor_resp_le. lra. }
    unfold Qdiv. change (/ 100) with (1 # 100). lra.
Qed.

Lemma toFixed2_hundredths (k : Z) : JS.toFixed2 (inject_Z k / 100) == inject_Z k / 100.
Proof.
  destruct (Qlt_le_dec (inject_Z k / 100) 0) as [N|P].
  - rewrite (toFixed2_neg _ N).
    rewrite (floor_unique (- (inject_Z k / 100) * 100 + (1 # 2)) (- k)).
    + rewrite inject_Z_opp. field.
    + rewrite inject_Z_opp. field_simplify. lra.
    + rewrite inject_Z_opp. field_simplify. lra.
  - rewrite (toFixed2_nonneg _ P).
    rewrite (floor_unique (inject_Z k / 100 * 100 + (1 # 2)) k).
    + reflexivity.
    + field_simplify. lra.
    + field_simplify. lra.
Qed.

Lemma toFixed2_is_hundredths (x : Q) : exists k : Z, JS.toFixed2 x == inject_Z k / 100.
Proof.
  destruct (Qlt_le_dec x 0) as [N|P].
  - exists (- Qfloor (- x * 100 + (1 # 2)))%Z. rewrite (toFixed2_neg x N).
    rewrite inject_Z_opp. field.
  - eexists. apply (toFixed2_nonneg x P).
Qed.

Lemma toFixed2_opp (x : Q) : JS.toFixed2 (- x) == - JS.toFixed2 x.
Proof.
  destruct (Qlt_le_dec x 0) as [N|P].
  - rewrite (toFixed2_neg x N), (toFixed2_nonneg (- x)) by lra. lra.
  - destruct (Qeq_dec x 0) as [Z|NZ].
    + rewrite (toFixed2_nonneg x P), (toFixed2_nonneg (- x)) by lra.
      assert (E : Qfloor (- x * 100 + (1 # 2)) = Qfloor (x * 100 + (1 # 2))).
      { apply Qfloor_comp. lra. }
      rewrite E.
      rewrite (floor_unique (x * 100 + (1 # 2)) 0) by (change (inject_Z 0) with 0; lra).
      reflexivity.
    + rewrite (toFixed2_nonneg x P), (toFixed2_neg (- x)) by lra.
      assert (E : Qfloor (- - x * 100 + (1 # 2)) = Qfloor (x * 100 + (1 # 2))).
      { apply Qfloor_comp. lra. }
      rewrite E. reflexivity.
Qed.

Lemma toFixed2_comp (x y : Q) : x == y -> JS.toFixed2 x == JS.toFixed2 y.
Proof.
  intro H. apply Qle_antisym; apply toFixed2_mono; lra.
Qed.

End Rounding.

(** The percentage inputs of the form, for a positive entry price and
    a percentage that is not negative.  The handler writes the stop
    loss (the take profit) into the state it updates and changes no
    other field; both prices are hundredths, each within half a
    hundredth of the entry price moved by the percentage, and the
    rounded entry price lies between them: stop below and target above
    for a long trade, the other way round for a short one. *)
Theorem handlePercentChange_brackets
        (formData prev : TradeForm.FormData) (entry pct : Q) :
  TradeForm.f_entryPrice formData = Some entry -> 0 < entry -> 0 <= pct ->
  let isLong := TradeType_eqb (TradeForm.f_type formData) LONG in
  exists sl tp : Q,
    TradeFormHandlers.handlePercentChange TradeFormHandlers.SL (Some pct) formData prev
    = TradeForm.assign prev (TradeForm.ChangeNumber TradeForm.N_stopLoss (Some sl)) /\
    TradeFormHandlers.handlePercentChange TradeFormHandlers.TP (Some pct) formData prev
    = TradeForm.assign prev (TradeForm.ChangeNumber TradeForm.N_takeProfit (Some tp)) /\
    (if isLong
     then sl <= JS.toFixed2 entry /\ JS.toFixed2 entry <= tp
     else tp <= JS.toFixed2 entry /\ JS.toFixed2 entry <= sl) /\
    Qabs (sl - (if isLong then entry - entry * pct / 100
                else entry + entry * pct / 100)) <= 1 # 200 /\
    Qabs (tp - (if isLong then entry + entry * pct / 100
                else entry - entry * pct / 100)) <= 1 # 200 /\
    (exists k : Z, sl == inject_Z k / 100) /\
    (exists k : Z, tp == inject_Z k / 100).
Proof.
  intros He Hpos Hpct. cbv zeta.
  unfold TradeFormHandlers.handlePercentChange. rewrite He.
  assert (T : JS.truthy entry = true) by (apply truthy_iff; lra).
  rewrite T.
  assert (D : 0 <= entry * (pct / 100)).
  { apply Qmult_le_0_compat; [lra|]. unfold Qdiv. change (/ 100) with (1 # 100). lra. }
  set (d := entry * (pct / 100)) in *.
  assert (Lo : entry * (1 - pct / 100) == entry - d) by (unfold d; ring).
  assert (Hi : entry * (1 + pct / 100) == entry + d) by (unfold d; ring).
  assert (Dd : entry * pct / 100 == d) by (unfold d; field).
  destruct (TradeType_eqb (TradeForm.f_type formData) LONG);
    cbn [TradeFormHandlers.priceAt].
  - exists (JS.toFixed2 (entry * (1 - pct / 100))), (JS.toFixed2 (entry * (1 + pct / 100))).
    split; [reflexivity|]. split; [reflexivity|].
    split; [split; apply toFixed2_mono; lra|].
    split; [rewrite Dd, <- Lo; apply toFixed2_error|].
    split; [rewrite Dd, <- Hi; apply toFixed2_error|].
    split; apply toFixed2_is_hundredths.
  - exists (JS.toFixed2 (entry * (1 + pct / 100))), (JS.toFixed2 (entry * (1 - pct / 100))).
    split; [reflexivity|]. split; [reflexivity|].
    split; [split; apply toFixed2_mono; lra|].
    split; [rewrite Dd, <- Hi; apply toFixed2_error|].
    split; [rewrite Dd, <- Lo; apply toFixed2_error|].
    split; apply toFixed2_is_hundredths.
Qed.

(** Two percent around an entry of 100, long. *)
Lemma handlePercentChange_brackets_witness :
  let formData :=
    TradeForm.handleChange (TradeForm.initialFormData "2024-01-05")
                           (TradeForm.ChangeNumber TradeForm.N_entryPrice (Some 100)) in
  0 < 100 /\ 0 <= 2 /\
  exists sl tp : Q,
    TradeFormHandlers.handlePercentChange TradeFormHandlers.SL (Some 2) formData formData
    = TradeForm.assign formData (TradeForm.ChangeNumber TradeForm.N_stopLoss (Some sl)) /\
    TradeFormHandlers.handlePercentChange TradeFormHandlers.TP (Some 2) formData formData
    = TradeForm.assign formData (TradeForm.ChangeNumber TradeForm.N_takeProfit (Some tp)) /\
    sl <= JS.toFixed2 100 /\ JS.toFixed2 100 <= tp.
Proof.
  intro formData. split; [reflexivity|]. split; [discriminate|].
  destruct (handlePercentChange_brackets formData formData 100 2 eq_refl
                                         eq_refl (fun C => match C with eq_refl => I end
                                                           : False))
    as (sl & tp & H1 & H2 & H3 & _).
  exists sl, tp. split; [exact H1|]. split; [exact H2|]. exact H3.
Defined.

(** The P&L the form derives.  With an entry price and a quantity
    present, typing an exit price computes it for the side chosen: for
    a long trade a hundredth within half a hundredth of (exit - entry)
    x quantity, not negative when the exit is not below the entry and
    the quantity is not negative, and for a short trade the opposite
    number.  The Buy and Sell buttons change the side and leave the
    P&L as it is, so after a switch the P&L of the other side stays
    until the exit price is typed again.  A P&L typed by hand, or
    cleared, is replaced by the derived one when the exit price is
    typed. *)
Theorem handleChange_recomputed_pnl (prev : TradeForm.FormData) (entry exit qty : Q) :
  TradeForm.f_entryPrice prev = Some entry ->
  TradeForm.f_quantity prev = Some qty ->
  let typed := TradeForm.ChangeNumber TradeForm.N_exitPrice (Some exit) in
  let bought :=
    TradeForm.handleChange (TradeFormHandlers.handleSideClick LONG prev) typed in
  let sold :=
    TradeForm.handleChange (TradeFormHandlers.handleSideClick SHORT prev) typed in
  exists long short : Q,
    TradeForm.f_pnl bought = Some long /\
    TradeForm.f_pnl sold = Some short /\
    short == - long /\
    Qabs (long - (exit - entry) * qty) <= 1 # 200 /\
    (exists k : Z, long == inject_Z k / 100) /\
    (0 <= qty -> entry <= exit -> 0 <= long) /\
    (forall (type : TradeType) (p : TradeForm.FormData),
        TradeForm.f_type (TradeFormHandlers.handleSideClick type p) = type /\
        TradeForm.f_pnl (TradeFormHandlers.handleSideClick type p) = TradeForm.f_pnl p) /\
    TradeForm.f_pnl (TradeFormHandlers.handleSideClick SHORT bought) = Some long /\
    TradeForm.f_pnl
      (TradeForm.handleChange (TradeFormHandlers.handleSideClick SHORT bought) typed)
    = Some short /\
    (forall byHand : option Q,
        TradeForm.handleChange
          (TradeForm.handleChange prev (TradeForm.ChangeNumber TradeForm.N_pnl byHand))
          typed
        = TradeForm.handleChange prev typed) /\
    TradeForm.handleChange (TradeFormHandlers.clearPnL prev) typed
    = TradeForm.handleChange prev typed.
Proof.
  intros He Hq. cbv zeta.
  destruct prev as [i sy ty st ed xd ep xp q sl tp p su no ta].
  cbn in He, Hq. subst ep q.
  exists (JS.toFixed2 ((exit - entry) * qty)), (JS.toFixed2 (- (exit - entry) * qty)).
  split; [reflexivity|]. split; [reflexivity|].
  split.
  { rewrite <- toFixed2_opp. apply toFixed2_comp. ring. }
  split; [apply toFixed2_error|].
  split; [apply toFixed2_is_hundredths|].
  split.
  { intros H1 H2.
    assert (Z : JS.toFixed2 0 == 0) by reflexivity.
    rewrite <- Z. apply toFixed2_mono. apply Qmult_le_0_compat; lra. }
  split; [intros type f; destruct f; split; reflexivity|].
  split; [reflexivity|]. split; [reflexivity|].
  split; [intro byHand; destruct ty; reflexivity | destruct ty; reflexivity].
Qed.

(** Entry 100, quantity 10, Buy, exit 120, then Sell. *)
Lemma handleChange_recomputed_pnl_witness :
  let prev :=
    TradeForm.mkFormData None (Some "NIFTY"%string) LONG CLOSED (Some "2024-01-05"%string)
                         None (Some 100) None (Some 10) None None None
                         None None None in
  let typed := TradeForm.ChangeNumber TradeForm.N_exitPrice (Some 120) in
  let bought :=
    TradeForm.handleChange (TradeFormHandlers.handleSideClick LONG prev) typed in
  exists long : Q,
    TradeForm.f_pnl bought = Some long /\ long == 200 /\
    TradeForm.f_pnl (TradeFormHandlers.handleSideClick SHORT bought) = Some long.
Proof.
  intros prev typed bought.
  destruct (handleChange_recomputed_pnl prev 100 120 10 eq_refl eq_refl)
    as (long & short & H1 & _ & _ & _ & _ & _ & _ & H2 & _).
  exists long. split; [exact H1|]. split; [|exact H2].
  vm_compute in H1. injection H1 as <-. reflexivity.
Defined.

Section Submit.

Lemma upper_ascii_idem (c : ascii) :
  TradeForm.upper_ascii (TradeForm.upper_ascii c) = TradeForm.upper_ascii c.
Proof.
  destruct c as [[] [] [] [] [] [] [] []]; vm_compute; reflexivity.
Qed.

Lemma toUpperCase_idem (s : string) :
  TradeForm.toUpperCase (TradeForm.toUpperCase s) = TradeForm.toUpperCase s.
Proof.
  induction s as [|c r IH]; simpl; [reflexivity|].
  rewrite upper_ascii_idem, IH. reflexivity.
Qed.

Lemma toUpperCase_length (s : string) :
  String.length (TradeForm.toUpperCase s) = String.length s.
Proof. induction s as [|c r IH]; simpl; [reflexivity | rewrite IH; reflexivity]. Qed.

Lemma or_string_nonempty (s : option string) (d : string) :
  d <> EmptyString -> JS.or_string s d <> EmptyString.
Proof. intro H. destruct s as [[|c r]|]; simpl; [exact H | discriminate | exact H]. Qed.

End Submit.

(** Submitting the form.  Nothing is handed to [onSave] exactly when
    the symbol is absent or empty or the entry price is absent.
    Otherwise the trade has a symbol that is not empty and is in upper
    case, a quantity that is not 0, a setup that is not empty, an
    entry date that is not empty when the clock's is not; it keeps the
    identifier of the trade being edited when that is not empty and
    takes the fresh one for a new trade.  Saved by the application, an
    edited trade therefore leaves the identifiers of the trades as they
    were, and a new one is put in front. *)
Theorem handleSubmit_trade (initialData : option Trade) (freshId now : string)
        (formData : TradeForm.FormData) :
  (TradeForm.handleSubmit initialData freshId now formData = None <->
   TradeForm.f_symbol formData = None \/ TradeForm.f_symbol formData = Some EmptyString
   \/ TradeForm.f_entryPrice formData = None) /\
  forall trade : Trade,
    TradeForm.handleSubmit initialData freshId now formData = Some trade ->
    symbol trade <> EmptyString /\
    TradeForm.toUpperCase (symbol trade) = symbol trade /\
    ~ quantity trade == 0 /\
    setup trade <> EmptyString /\
    (now <> EmptyString -> entryDate trade <> EmptyString) /\
    (match initialData with
     | Some edited => id edited <> EmptyString -> id trade = id edited
     | None => id trade = freshId
     end) /\
    (forall (E F : Type) (fetchedTrades : JS.Outcome E (list Trade))
            (fetchedNotes : JS.Outcome E (list DailyNote)) (st : App.State),
        match initialData with
        | Some edited =>
            id edited <> EmptyString -> App.editingTrade st = Some edited ->
            map id (App.trades (fst (@App.handleSaveTrade E F trade (JS.Returned tt)
                                       fetchedTrades fetchedNotes st)))
            = map id (App.trades st)
        | None =>
            App.editingTrade st = None ->
            App.trades (fst (@App.handleSaveTrade E F trade (JS.Returned tt)
                               fetchedTrades fetchedNotes st))
            = trade :: App.trades st
        end).
Proof.
  unfold TradeForm.handleSubmit.
  destruct (TradeForm.f_symbol formData) as [[|c r]|] eqn:Es.
  - split; [split; [intros _; right; left; reflexivity | reflexivity]|].
    intros trade C. discriminate C.
  - destruct (TradeForm.f_entryPrice formData) as [entry|] eqn:Ee.
    + split.
      { split; [intro C; discriminate C|].
        intros [C|[C|C]]; discriminate C. }
      intros trade H. injection H as <-.
      cbn [symbol quantity setup entryDate id].
      split; [simpl; discriminate|].
      split; [apply (toUpperCase_idem (String c r))|].
      split.
      { destruct (TradeForm.f_quantity formData) as [q|]; [|discriminate].
        destruct (JS.truthy q) eqn:T; [apply truthy_iff; exact T | discriminate]. }
      split; [apply or_string_nonempty; discriminate|].
      split; [apply or_string_nonempty|].
      split.
      { destruct initialData as [edited|]; [|reflexivity].
        intro H. destruct (id edited) as [|c0 r0]; [contradiction | reflexivity]. }
      intros E F ft fn st. destruct initialData as [edited|].
      * intros Hid He. cbn [App.handleSaveTrade fst App.trades]. rewrite He.
        cbn [App.withTrade]. apply replace_ids.
      * intro He. cbn [App.handleSaveTrade fst App.trades]. rewrite He. reflexivity.
    + split; [split; [intros _; right; right; reflexivity | reflexivity]|].
      intros trade C. discriminate C.
  - split; [split; [intros _; left; reflexivity | reflexivity]|].
    intros trade C. discriminate C.
Qed.

(** A new trade submitted with the symbol typed in lower case. *)
Lemma handleSubmit_trade_witness :
  let formData :=
    TradeForm.mkFormData None (Some "nifty"%string) LONG OPEN (Some "2024-01-05"%string)
                         None (Some 100) None (Some 0) None None None
                         None None None in
  exists trade : Trade,
    TradeForm.handleSubmit None "7f3c" "2024-01-06T00:00:00.000Z" formData = Some trade /\
    symbol trade = "NIFTY"%string /\ ~ quantity trade == 0 /\ id trade = "7f3c"%string.
Proof.
  intro formData.
  destruct (TradeForm.handleSubmit None "7f3c" "2024-01-06T00:00:00.000Z" formData)
    as [trade|] eqn:E; [|vm_compute in E; discriminate E].
  exists trade.
  destruct (proj2 (handleSubmit_trade None "7f3c" "2024-01-06T00:00:00.000Z" formData)
                  trade E) as (_ & _ & Hq & _ & _ & Hid & _).
  split; [reflexivity|]. split; [|split; [exact Hq | exact Hid]].
  vm_compute in E. injection E as <-. reflexivity.
Defined.

Section Tags.

Lemma prefix_app (p r : string) : String.prefix p (p ++ r) = true.
Proof.
  induction p as [|a p IH]; simpl; [destruct r; reflexivity|].
  destruct (ascii_dec a a) as [_|C]; [exact IH | contradiction].
Qed.

Lemma prefix_app_r (p s b : string) :
  String.prefix p s = true -> String.prefix p (s ++ b) = true.
Proof.
  revert s. induction p as [|a p IH]; intros s H; simpl.
  - destruct (s ++ b)%string; reflexivity.
  - destruct s as [|c s]; simpl in *; [discriminate H|].
    destruct (ascii_dec a c); [apply IH; exact H | discriminate H].
Qed.

Lemma includes_app_l (a s p : string) :
  Str.includes s p = true -> Str.includes (a ++ s) p = true.
Proof.
  intro H. induction a as [|c a IH]; simpl; [exact H|].
  rewrite IH. apply orb_true_r.
Qed.

Lemma includes_app_r (s b p : string) :
  Str.includes s p = true -> Str.includes (s ++ b) p = true.
Proof.
  induction s as [|c s IH]; intro H.
  - simpl in H. rewrite orb_false_r in H.
    destruct p as [|x p]; [|discriminate H].
    destruct b; reflexivity.
  - cbn [Str.includes] in H. apply orb_true_iff in H.
    change ((String c s ++ b)%string) with (String c (s ++ b)).
    cbn [Str.includes]. apply orb_true_iff. destruct H as [H|H].
    + left. apply (prefix_app_r p (String c s) b). exact H.
    + right. apply IH. exact H.
Qed.

Lemma includes_self_app (p r : string) : Str.includes (p ++ r) p = true.
Proof.
  destruct (p ++ r)%string eqn:E; cbn [Str.includes]; rewrite <- E, prefix_app;
    reflexivity.
Qed.

Lemma or_string_Some (s : string) : JS.or_string (Some s) EmptyString = s.
Proof. destruct s; reflexivity. Qed.

Lemma f_notes_assign (prev : TradeForm.FormData) (v : string) :
  TradeForm.f_notes (TradeForm.assign prev (TradeForm.ChangeText TradeForm.T_notes v))
  = Some v.
Proof. destruct prev; reflexivity. Qed.

End Tags.

(** The psychology tags.  After a click the notes contain the tag;
    a second click on the same tag changes nothing, and neither does a
    click when the notes contained it already.  The click only appends
    to the notes, at most a space, the hash sign and the tag, so every
    tag that was in the notes is still there. *)
Theorem handlePsychologyTag_once (tag : string) (prev : TradeForm.FormData) :
  let notesOf := fun d => JS.or_string (TradeForm.f_notes d) EmptyString in
  let after := TradeFormHandlers.handlePsychologyTag tag prev in
  Str.includes (notesOf after) ("#" ++ tag) = true /\
  TradeFormHandlers.handlePsychologyTag tag after = after /\
  (Str.includes (notesOf prev) ("#" ++ tag) = true -> after = prev) /\
  (exists added : string,
      notesOf after = (notesOf prev ++ added)%string /\
      (String.length added <= String.length tag + 2)%nat) /\
  (forall other : string,
      Str.includes (notesOf prev) ("#" ++ other) = true ->
      Str.includes (notesOf after) ("#" ++ other) = true).
Proof.
  cbv zeta. unfold TradeFormHandlers.handlePsychologyTag.
  set (current := JS.or_string (TradeForm.f_notes prev) EmptyString).
  destruct (Str.includes current ("#" ++ tag)) eqn:I.
  - fold current. rewrite I.
    split; [reflexivity|]. split; [reflexivity|]. split; [reflexivity|].
    split.
    { exists EmptyString. split; [|simpl; lia].
      clear. induction current as [|c r IH]; simpl; [reflexivity | rewrite <- IH; reflexivity]. }
    intros other H. exact H.
  - set (separator := if (0 <? String.length current)%nat
                            && negb (Str.endsWithSpace current)
                      then " "%string else EmptyString).
    rewrite f_notes_assign, or_string_Some.
    assert (New : Str.includes (current ++ separator ++ "#" ++ tag) ("#" ++ tag) = true).
    { apply includes_app_l. apply includes_app_l.
      pose proof (includes_self_app ("#" ++ tag) EmptyString) as H.
      replace (("#" ++ tag) ++ EmptyString)%string with ("#" ++ tag)%string in H;
        [exact H|].
      clear. simpl. f_equal.
      induction tag as [|c r IH]; simpl; [reflexivity | rewrite <- IH; reflexivity]. }
    split; [exact New|].
    split; [rewrite New; reflexivity|].
    split; [intro C; discriminate C|].
    split.
    { exists (separator ++ "#" ++ tag)%string. split; [reflexivity|].
      unfold separator.
      destruct ((0 <? String.length current)%nat && negb (Str.endsWithSpace current));
        simpl; lia. }
    intros other H. apply includes_app_r. exact H.
Qed.

(** ** The symbol builder *)

Section Builder.

Lemma targetDay_range (upperSymbol : string) :
  TradeFormBuilder.targetDay upperSymbol = (-1)%Z
  \/ (1 <= TradeFormBuilder.targetDay upperSymbol <= 5)%Z.
Proof.
  unfold TradeFormBuilder.targetDay.
  repeat match goal with
         | |- context [if ?b then _ else _] => destruct b
         end; lia.
Qed.

Lemma daysUntil_spec (targetDay currentDay : Z) :
  (0 <= targetDay <= 6)%Z -> (0 <= currentDay <= 6)%Z ->
  let n := TradeFormBuilder.daysUntil targetDay currentDay in
  (0 <= n <= 6)%Z /\ ((currentDay + n) mod 7 = targetDay)%Z /\
  forall m, (0 <= m < n)%Z -> ((currentDay + m) mod 7 <> targetDay)%Z.
Proof.
  intros Ht Hc. cbv zeta. unfold TradeFormBuilder.daysUntil.
  destruct (Z.ltb_spec (targetDay - currentDay) 0) as [L|L].
  - split; [lia|]. split.
    + replace (currentDay + (targetDay - currentDay + 7))%Z with (targetDay + 1 * 7)%Z by lia.
      rewrite Z.mod_add by lia. apply Z.mod_small. lia.
    + intros m Hm C.
      destruct (Z.lt_ge_cases (currentDay + m) 7) as [S|S].
      * rewrite Z.mod_small in C by lia. lia.
      * replace (currentDay + m)%Z with (currentDay + m - 7 + 1 * 7)%Z in C by lia.
        rewrite Z.mod_add, Z.mod_small in C by lia. lia.
  - split; [lia|]. split.
    + replace (currentDay + (targetDay - currentDay))%Z with targetDay by lia.
      apply Z.mod_small. lia.
    + intros m Hm C. rewrite Z.mod_small in C by lia. lia.
Qed.

Lemma upper_index (idx : string) :
  In idx TradeFormBuilder.INDIAN_INDICES ->
  (1 <= TradeFormBuilder.targetDay (TradeForm.toUpperCase idx) <= 5)%Z /\
  exists q : Q, TradeFormBuilder.LOT_SIZES idx = Some q /\ 1 < q /\
                PositionCalculator.INDICES_LOT_SIZES idx = Some q.
Proof.
  intros [<-|[<-|[<-|[<-|[<-|[]]]]]];
    (split; [vm_compute; split; discriminate|]);
    eexists; (split; [reflexivity|]); split; reflexivity.
Qed.

End Builder.

(** The expiry proposed for a symbol that names an index, from a
    reference date the host reads as a day of the week.  The function
    returns the date the host gives for the reference date moved by n
    days, where n is between 0 and 6 and is the least number of days
    after which the weekday is the one of the index: Monday for
    MIDCPNIFTY, Tuesday for FINNIFTY and NIFTY, Wednesday for
    BANKNIFTY, Friday for SENSEX.  A symbol that names no index has no
    expiry, whatever the date; an index with a string that is no date
    makes the function throw. *)
Theorem calculateExpiry_weekday
        (getDay : string -> option Z) (isoDateAfter : string -> Z -> string)
        (symbol dateStr : string) (currentDay : Z) :
  getDay dateStr = Some currentDay -> (0 <= currentDay <= 6)%Z ->
  let target := TradeFormBuilder.targetDay (TradeForm.toUpperCase symbol) in
  (target = (-1)%Z /\
   forall otherDate,
     TradeFormBuilder.calculateExpiry getDay isoDateAfter symbol otherDate
     = JS.Returned None)
  \/ ((1 <= target <= 5)%Z /\
      (forall otherDate,
          getDay otherDate = None ->
          TradeFormBuilder.calculateExpiry getDay isoDateAfter symbol otherDate
          = JS.Thrown TradeFormBuilder.InvalidTimeValue) /\
      exists n : Z,
        TradeFormBuilder.calculateExpiry getDay isoDateAfter symbol dateStr
        = JS.Returned (Some (isoDateAfter dateStr n)) /\
        (0 <= n <= 6)%Z /\
        ((currentDay + n) mod 7 = target)%Z /\
        forall m, (0 <= m < n)%Z -> ((currentDay + m) mod 7 <> target)%Z).
Proof.
  intros Hd Hc. cbv zeta. unfold TradeFormBuilder.calculateExpiry.
  destruct (targetDay_range (TradeForm.toUpperCase symbol)) as [E|R].
  - left. split; [exact E|]. intro otherDate. rewrite E. reflexivity.
  - right. split; [exact R|].
    destruct (Z.eqb_spec (TradeFormBuilder.targetDay (TradeForm.toUpperCase symbol)) (-1))
      as [C|_]; [lia|].
    split; [intros otherDate Ho; rewrite Ho; reflexivity|].
    rewrite Hd.
    exists (TradeFormBuilder.daysUntil
              (TradeFormBuilder.targetDay (TradeForm.toUpperCase symbol)) currentDay).
    split; [reflexivity|].
    apply daysUntil_spec; lia.
Qed.

(** BANKNIFTY from a Friday, on a host that only records the number
    of days: five days to the next Wednesday. *)
Lemma calculateExpiry_weekday_witness :
  exists n : Z,
    TradeFormBuilder.calculateExpiry
      (fun _ => Some 5%Z) (fun d n => (d ++ "+" ++ JS.String_of_N (Z.to_N n))%string)
      "banknifty 48000 ce" "2024-01-05"
    = JS.Returned (Some ("2024-01-05" ++ "+" ++ JS.String_of_N (Z.to_N n))%string) /\
    (0 <= n <= 6)%Z /\ ((5 + n) mod 7 = 3)%Z.
Proof.
  destruct (calculateExpiry_weekday
              (fun _ => Some 5%Z)
              (fun d n => (d ++ "+" ++ JS.String_of_N (Z.to_N n))%string)
              "banknifty 48000 ce" "2024-01-05" 5 eq_refl ltac:(lia))
    as [[C _]|(_ & _ & n & H & Hn & Hm & _)].
  - vm_compute in C. discriminate C.
  - exists n. split; [exact H|]. split; [exact Hn | exact Hm].
Defined.

(** An index button, the entry date (or today, when the form has
    none) being a date.  The form then carries the index as symbol,
    one lot of it as quantity, which is more than 1 and is the lot
    size the position calculator uses for that index, and an expiry
    that is the reference date moved by at most six days; asking for
    the automatic expiry right after the click changes nothing. *)
Theorem handleIndexClick_lot_and_expiry
        (getDay : string -> option Z) (isoDateAfter : string -> Z -> string)
        (today idx : string) (prev : TradeForm.FormData) (currentDay : Z) :
  In idx TradeFormBuilder.INDIAN_INDICES ->
  getDay (JS.or_string (TradeForm.f_entryDate prev) today) = Some currentDay ->
  (0 <= currentDay <= 6)%Z ->
  exists (after : TradeForm.FormData) (lotSize : Q) (days : Z),
    TradeFormBuilder.handleIndexClick getDay isoDateAfter today idx prev prev
    = JS.Returned after /\
    TradeForm.f_symbol after = Some idx /\
    TradeForm.f_quantity after = Some lotSize /\ 1 < lotSize /\
    PositionCalculator.INDICES_LOT_SIZES idx = Some lotSize /\
    TradeForm.f_expiryDate after
    = Some (isoDateAfter (JS.or_string (TradeForm.f_entryDate prev) today) days) /\
    (0 <= days <= 6)%Z /\
    TradeForm.f_entryDate after = TradeForm.f_entryDate prev /\
    TradeFormBuilder.handleAutoExpiry getDay isoDateAfter today after after
    = JS.Returned after.
Proof.
  intros Hidx Hd Hcur.
  destruct (upper_index idx Hidx) as (Ht & q & Hq & Hq1 & Hc).
  unfold TradeFormBuilder.handleIndexClick, TradeFormBuilder.handleAutoExpiry,
    TradeFormBuilder.calculateExpiry.
  set (dateRef := JS.or_string (TradeForm.f_entryDate prev) today) in *.
  destruct (Z.eqb_spec (TradeFormBuilder.targetDay (TradeForm.toUpperCase idx)) (-1))
    as [C|NC]; [lia|].
  rewrite Hd, Hq. cbn [JS.bind].
  set (days := TradeFormBuilder.daysUntil
                 (TradeFormBuilder.targetDay (TradeForm.toUpperCase idx)) currentDay).
  exists (TradeFormBuilder.withIndex prev idx (Some (isoDateAfter dateRef days)) (Some q)),
    q, days.
  split; [reflexivity|].
  assert (Fs : forall x l, TradeForm.f_symbol (TradeFormBuilder.withIndex prev idx x l)
                           = Some idx) by (intros; destruct prev; reflexivity).
  assert (Fq : forall x l, TradeForm.f_quantity (TradeFormBuilder.withIndex prev idx x l)
                           = l) by (intros; destruct prev; reflexivity).
  assert (Fx : forall x l, TradeForm.f_expiryDate (TradeFormBuilder.withIndex prev idx x l)
                           = x) by (intros; destruct prev; reflexivity).
  assert (Fe : forall x l, TradeForm.f_entryDate (TradeFormBuilder.withIndex prev idx x l)
                           = TradeForm.f_entryDate prev)
    by (intros; destruct prev; reflexivity).
  rewrite Fs, Fq, Fx, Fe. fold dateRef.
  split; [reflexivity|]. split; [reflexivity|]. split; [exact Hq1|].
  split; [exact Hc|]. split; [reflexivity|].
  split; [apply daysUntil_spec; lia|]. split; [reflexivity|].
  assert (Ne : idx <> EmptyString).
  { intro E. subst idx. revert Hidx. clear. intro Hidx. simpl in Hidx.
    repeat destruct Hidx as [Hidx|Hidx]; try discriminate Hidx. exact Hidx. }
  destruct idx as [|c r]; [contradiction|].
  destruct (Z.eqb_spec (TradeFormBuilder.targetDay (TradeForm.toUpperCase (String c r)))
                       (-1)) as [C|_]; [lia|].
  rewrite Hd. cbn [JS.bind]. fold days.
  destruct (isoDateAfter dateRef days) as [|c0 r0] eqn:Ei; [reflexivity|].
  destruct prev; reflexivity.
Qed.

(** The NIFTY button on a Friday, on a host that only records the
    number of days. *)
Lemma handleIndexClick_lot_and_expiry_witness :
  exists after : TradeForm.FormData,
    TradeFormBuilder.handleIndexClick
      (fun _ => Some 5%Z) (fun d n => (d ++ "+" ++ JS.String_of_N (Z.to_N n))%string)
      "2024-01-05" "NIFTY"
      (TradeForm.initialFormData "2024-01-05") (TradeForm.initialFormData "2024-01-05")
    = JS.Returned after /\
    TradeForm.f_symbol after = Some "NIFTY"%string /\
    exists lotSize : Q, TradeForm.f_quantity after = Some lotSize /\ 1 < lotSize.
Proof.
  destruct (handleIndexClick_lot_and_expiry
              (fun _ => Some 5%Z)
              (fun d n => (d ++ "+" ++ JS.String_of_N (Z.to_N n))%string)
              "2024-01-05" "NIFTY" (TradeForm.initialFormData "2024-01-05") 5
              (or_introl eq_refl) eq_refl ltac:(lia))
    as (after & lotSize & _ & H1 & H2 & H3 & H4 & _).
  exists after. split; [exact H1|]. split; [exact H2|].
  exists lotSize. split; [exact H3 | exact H4].
Defined.

(** Typing a stock into the builder.  The symbol of the form becomes
    the text in upper case.  When the table lists a lot size for it
    that is not 0, the quantity becomes that lot size, which is more
    than 1; when the table does not list it, or lists 0 (as it does for
    PBFINTECH only), the quantity is left as it was.  Typing the same
    text again, in either case, changes nothing. *)
Theorem handleBuilderStockChange_quantity (value : string) (prev : TradeForm.FormData) :
  let val := TradeForm.toUpperCase value in
  let after := TradeFormBuilder.handleBuilderStockChange value prev in
  TradeForm.f_symbol after = Some val /\
  (forall lotSize : Q,
      TradeFormBuilder.LOT_SIZES val = Some lotSize -> ~ lotSize == 0 ->
      TradeForm.f_quantity after = Some lotSize /\ 1 < lotSize) /\
  (TradeFormBuilder.LOT_SIZES val = None \/ TradeFormBuilder.LOT_SIZES val = Some 0 ->
   TradeForm.f_quantity after = TradeForm.f_quantity prev) /\
  (forall lotSize : Q,
      TradeFormBuilder.LOT_SIZES val = Some lotSize -> lotSize == 0 -> lotSize = 0) /\
  (TradeFormBuilder.LOT_SIZES val = Some 0 <-> val = "PBFINTECH"%string) /\
  TradeFormBuilder.LOT_SIZES "RELIANCE" = Some 250 /\
  TradeFormBuilder.handleBuilderStockChange value after = after /\
  TradeFormBuilder.handleBuilderStockChange val prev = after.
Proof.
  cbv zeta. unfold TradeFormBuilder.handleBuilderStockChange.
  rewrite toUpperCase_idem.
  set (val := TradeForm.toUpperCase value).
  destruct prev as [i sy ty st ed xd ep xp q sl tp p su no ta].
  split.
  { destruct (TradeFormBuilder.LOT_SIZES val) as [l|]; [destruct (JS.truthy l)|];
      reflexivity. }
  split.
  { intros l El Hl. rewrite El. apply truthy_iff in Hl. rewrite Hl. cbn.
    split; [reflexivity|].
    unfold TradeFormBuilder.LOT_SIZES in El.
    repeat match type of El with
           | context [String.eqb val ?k] => destruct (String.eqb val k)
           end;
      try discriminate El; injection El as <-; try reflexivity.
    exfalso. revert Hl. vm_compute. discriminate. }
  split.
  { intros [E|E]; rewrite E; reflexivity. }
  split.
  { intros l El Hl. unfold TradeFormBuilder.LOT_SIZES in El.
    repeat match type of El with
           | context [String.eqb val ?k] => destruct (String.eqb val k)
           end;
      try discriminate El; injection El as <-; try reflexivity;
      exfalso; revert Hl; vm_compute; discriminate. }
  split.
  { unfold TradeFormBuilder.LOT_SIZES.
    repeat match goal with
           | |- context [String.eqb val ?k] =>
               destruct (String.eqb_spec val k) as [->|?]
           end;
      (split; [intro C; try discriminate C; try reflexivity
              | intro C; try discriminate C; try reflexivity; try contradiction]). }
  split; [reflexivity|].
  split; [|reflexivity].
  destruct (TradeFormBuilder.LOT_SIZES val) as [l|]; [destruct (JS.truthy l)|];
    reflexivity.
Qed.

(** ** The strategy chart *)

Section StrategyFacts.

Lemma sign_pos (x : Q) : (0 < DashboardStrategy.sign x)%Z <-> 0 < x.
Proof.
  destruct x as [n d]. unfold DashboardStrategy.sign, Qlt. simpl.
  rewrite Z.mul_1_r. destruct n; simpl; lia.
Qed.

Lemma byValueDescending_le (a b : DashboardStrategy.Slice) :
  (DashboardStrategy.byValueDescending a b <= 0)%Z
  <-> DashboardStrategy.value b <= DashboardStrategy.value a.
Proof.
  unfold DashboardStrategy.byValueDescending. split.
  - intro H. apply Qnot_lt_le. intro C.
    assert (P : 0 < DashboardStrategy.value b - DashboardStrategy.value a) by lra.
    apply sign_pos in P. lia.
  - intro H. apply Z.nlt_ge. intro C. apply sign_pos in C. lra.
Qed.

Lemma counts_value (l : list Trade) (data : Dashboard.Obj) (name : string) :
  JS.or_zero (Dashboard.get (fold_left DashboardStrategy.countSetup l data) name)
  == JS.or_zero (Dashboard.get data name) + inject_Z (Z.of_nat (tradesOfSetup name l)).
Proof.
  revert data. induction l as [|t r IH]; intro data.
  - unfold tradesOfSetup. simpl. change (inject_Z 0) with 0. ring.
  - cbn [fold_left]. rewrite IH. unfold tradesOfSetup. cbn [filter].
    unfold DashboardStrategy.countSetup.
    destruct (String.eqb_spec (DashboardStrategy.setupOf t) name) as [E|E].
    + rewrite E, get_set_same. cbn [List.length].
      rewrite Nat2Z.inj_succ, <- Z.add_1_l, inject_Z_plus. rewrite or_zero_Some.
      change (inject_Z 1) with 1. ring.
    + rewrite get_set_other by congruence. reflexivity.
Qed.

Lemma counts_keys (l : list Trade) (data : Dashboard.Obj) (name : string) :
  In name (map fst (fold_left DashboardStrategy.countSetup l data))
  <-> In name (map fst data) \/ exists t, In t l /\ DashboardStrategy.setupOf t = name.
Proof.
  revert data. induction l as [|t r IH]; intro data.
  - simpl. split; [tauto|]. intros [H|(t & [] & _)]. exact H.
  - cbn [fold_left]. rewrite IH. unfold DashboardStrategy.countSetup at 1.
    rewrite set_keys.
    destruct (existsb (String.eqb (DashboardStrategy.setupOf t)) (map fst data)) eqn:E.
    + apply existsb_exists in E. destruct E as (k & Hk & Ek).
      apply String.eqb_eq in Ek. subst k. split.
      * intros [H|(u & Hu & Eu)]; [left; exact H | right; exists u; split;
                                                   [right; exact Hu | exact Eu]].
      * intros [H|(u & [Hu|Hu] & Eu)].
        -- left. exact H.
        -- subst u. left. rewrite <- Eu. exact Hk.
        -- right. exists u. split; assumption.
    + rewrite in_app_iff. simpl. split.
      * intros [[H|[H|[]]]|(u & Hu & Eu)].
        -- left. exact H.
        -- right. exists t. split; [left; reflexivity | exact H].
        -- right. exists u. split; [right; exact Hu | exact Eu].
      * intros [H|(u & [Hu|Hu] & Eu)].
        -- left. left. exact H.
        -- subst u. left. right. left. exact Eu.
        -- right. exists u. split; assumption.
Qed.

Lemma counts_NoDup (l : list Trade) (data : Dashboard.Obj) :
  NoDup (map fst data) -> NoDup (map fst (fold_left DashboardStrategy.countSetup l data)).
Proof.
  revert data. induction l as [|t r IH]; intros data ND; [exact ND|].
  cbn [fold_left]. apply IH. apply set_NoDup. exact ND.
Qed.

Lemma counts_sum (l : list Trade) (data : Dashboard.Obj) :
  sumEntries (fold_left DashboardStrategy.countSetup l data)
  == sumEntries data + inject_Z (Z.of_nat (List.length l)).
Proof.
  revert data. induction l as [|t r IH]; intro data.
  - simpl. change (inject_Z 0) with 0. ring.
  - cbn [fold_left]. rewrite IH. unfold DashboardStrategy.countSetup.
    rewrite sumEntries_set. cbn [List.length].
    rewrite Nat2Z.inj_succ, <- Z.add_1_l, inject_Z_plus. change (inject_Z 1) with 1. ring.
Qed.

Lemma sumSlices_perm (d d' : list DashboardStrategy.Slice) :
  Permutation d d' -> sumSlices d == sumSlices d'.
Proof.
  induction 1 as [|e l l' _ IH|e f l|l l' l'' _ IH1 _ IH2]; simpl.
  - reflexivity.
  - rewrite IH. reflexivity.
  - ring.
  - rewrite IH1. exact IH2.
Qed.

Lemma sumSlices_map (entries : Dashboard.Obj) :
  sumSlices (map (fun e => DashboardStrategy.mkSlice (fst e) (snd e)) entries)
  == sumEntries entries.
Proof.
  induction entries as [|[k v] r IH]; simpl; [reflexivity|].
  rewrite IH. reflexivity.
Qed.

End StrategyFacts.

(** The strategy chart, for setups that an object used as a map
    treats as ordinary keys.  There is one slice for each setup that
    occurs among the trades, an empty setup counting as 'Other'; the
    value of a slice is the number of trades of its setup, open and
    pending ones included; the values add up to the number of trades;
    and no slice is larger than one before it. *)
Theorem strategyData_counts (trades : list Trade) :
  (forall t, In t trades -> ordinaryKey (DashboardStrategy.setupOf t) = true) ->
  let data := DashboardStrategy.strategyData trades in
  NoDup (map DashboardStrategy.s_name data) /\
  (forall name, In name (map DashboardStrategy.s_name data)
                <-> exists t, In t trades /\ DashboardStrategy.setupOf t = name) /\
  (forall p, In p data ->
             DashboardStrategy.value p
             == inject_Z (Z.of_nat (tradesOfSetup (DashboardStrategy.s_name p) trades))) /\
  sumSlices data == inject_Z (Z.of_nat (List.length trades)) /\
  StronglySorted (fun a b => DashboardStrategy.value b <= DashboardStrategy.value a) data.
Proof.
  intros _. cbv zeta. unfold DashboardStrategy.strategyData.
  set (toSlice := fun e : string * Q => DashboardStrategy.mkSlice (fst e) (snd e)).
  set (cs := DashboardStrategy.counts trades).
  pose proof (Array_sort_perm DashboardStrategy.byValueDescending (map toSlice cs)) as P.
  assert (Names : map DashboardStrategy.s_name (map toSlice cs) = map fst cs).
  { rewrite map_map. apply map_ext. intros [k v]. reflexivity. }
  assert (ND : NoDup (map fst cs)) by (apply counts_NoDup; constructor).
  split.
  { apply (Permutation_NoDup (Permutation_sym (Permutation_map _ P))).
    rewrite Names. exact ND. }
  split.
  { intro name. split.
    - intro H. apply (Permutation_in _ (Permutation_map _ P)) in H.
      rewrite Names in H. apply counts_keys in H.
      destruct H as [[]|H]. exact H.
    - intro H. apply (Permutation_in _ (Permutation_sym (Permutation_map _ P))).
      rewrite Names. apply counts_keys. right. exact H. }
  split.
  { intros p Hp. apply (Permutation_in _ P) in Hp. apply in_map_iff in Hp.
    destruct Hp as ([k v] & <- & Hkv). cbn.
    pose proof (counts_value trades [] k) as V.
    fold (DashboardStrategy.counts trades) in V. fold cs in V.
    rewrite (In_get cs k v ND Hkv), or_zero_Some in V. rewrite V.
    cbn. ring. }
  split.
  { rewrite (sumSlices_perm _ _ P). unfold toSlice. rewrite sumSlices_map.
    unfold cs, DashboardStrategy.counts. rewrite counts_sum. simpl. ring. }
  apply Sorted_StronglySorted;
    [intros a b c H1 H2; apply (Qle_trans _ _ _ H2 H1)|].
  assert (T : forall x y, (0 < DashboardStrategy.byValueDescending x y)%Z ->
                          (DashboardStrategy.byValueDescending y x <= 0)%Z).
  { intros x y H. apply byValueDescending_le.
    unfold DashboardStrategy.byValueDescending in H. apply sign_pos in H. lra. }
  pose proof (Array_sort_Sorted DashboardStrategy.byValueDescending T (map toSlice cs)) as S.
  clear P. induction S as [|a l Hs IH Hh]; [constructor|].
  constructor; [exact IH|].
  destruct Hh as [|b l Hab]; constructor.
  apply byValueDescending_le. exact Hab.
Qed.

(** Two breakouts, one trade without a setup. *)
Lemma strategyData_counts_witness :
  let t := fun i s => mkTrade i "NIFTY" LONG OPEN "2024-01-05" None 100 None 75
                              None None None s EmptyString [] in
  sumSlices (DashboardStrategy.strategyData [t "a" "Breakout"; t "b" ""; t "c" "Breakout"]%string)
  == 3.
Proof.
  intro t.
  refine (proj1 (proj2 (proj2 (proj2
            (strategyData_counts [t "a" "Breakout"; t "b" ""; t "c" "Breakout"]%string _))))).
  intros u [<-|[<-|[<-|[]]]]; reflexivity.
Defined.

(** ** The note of a day *)

(** Opening a day of the calendar and saving without typing.  A note
    is handed to the application; it is the note the day had when that
    note carried a mood, the same content with the mood Neutral when it
    carried none, and an empty note with the mood Neutral when the day
    had no note.  After the save it is the note found for the day, the
    notes found for the other days are the ones found before, and the
    calendar cell of the day shows a note, also when it is empty. *)
Theorem day_note_round_trip
        (E : Type) (displayDate : string -> string) (dateStr : string)
        (ed : DashboardNotes.Editor)
        (fetchedTrades : JS.Outcome E (list Trade))
        (fetchedNotes : JS.Outcome E (list DailyNote)) (st : App.State) :
  let opened := DashboardNotes.handleDayClick displayDate (App.dailyNotes st) dateStr ed in
  exists note : DailyNote,
    DashboardNotes.saveCurrentNote opened
    = (Some note,
       DashboardNotes.mkEditor (Some (dateStr, displayDate dateStr))
                               (content note)
                               (match mood note with Some m => m | None => Neutral end)
                               false) /\
    date note = dateStr /\
    match Dashboard.findNote (App.dailyNotes st) dateStr with
    | Some old =>
        content note = content old /\
        (mood old <> None -> note = old) /\
        (mood old = None -> mood note = Some Neutral)
    | None => content note = EmptyString /\ mood note = Some Neutral
    end /\
    let after := fst (App.handleSaveNote note (JS.Returned tt)
                                         fetchedTrades fetchedNotes st) in
    Dashboard.findNote (App.dailyNotes after) dateStr = Some note /\
    (forall d, d <> dateStr ->
               Dashboard.findNote (App.dailyNotes after) d
               = Dashboard.findNote (App.dailyNotes st) d) /\
    (forall (trades : list Trade) (year month i : nat),
        Dashboard.dateStrOf year month i = dateStr ->
        exists (p : Q) (hasTrades : bool),
          Dashboard.dayCell trades (App.dailyNotes after) year month i
          = Dashboard.Day i dateStr p hasTrades true).
Proof.
  cbv zeta. unfold DashboardNotes.handleDayClick, DashboardNotes.saveCurrentNote.
  cbn [DashboardNotes.selectedDay DashboardNotes.noteContent DashboardNotes.noteMood].
  exists (mkDailyNote
            dateStr
            (match Dashboard.findNote (App.dailyNotes st) dateStr with
             | Some n => JS.or_string (Some (content n)) EmptyString
             | None => EmptyString
             end)
            (Some (match Dashboard.findNote (App.dailyNotes st) dateStr with
                   | Some n => match mood n with Some m => m | None => Neutral end
                   | None => Neutral
                   end))).
  split; [reflexivity|].
  cbn [date content mood App.handleSaveNote fst App.setDailyNotes App.dailyNotes].
  split; [reflexivity|].
  split.
  { destruct (Dashboard.findNote (App.dailyNotes st) dateStr) as [old|] eqn:F.
    - assert (Hd : date old = dateStr).
      { unfold Dashboard.findNote in F. apply find_some in F.
        apply String.eqb_eq. apply F. }
      assert (Hs : forall s : string, JS.or_string (Some s) EmptyString = s)
        by (intros [|c r]; reflexivity).
      rewrite Hs. split; [reflexivity|].
      destruct old as [d c [m|]]; cbn in *; subst d.
      + split; [intros _; reflexivity | intro C; discriminate C].
      + split; [intro C; contradiction C; reflexivity | intros _; reflexivity].
    - split; reflexivity. }
  set (note := mkDailyNote dateStr _ _).
  pose proof (findNote_withNote_same (App.dailyNotes st) note) as F.
  change (date note) with dateStr in F.
  split; [exact F|].
  split; [intros d Hd; exact (findNote_withNote_other (App.dailyNotes st) note d Hd)|].
  intros trades year month i Hd. unfold Dashboard.dayCell. rewrite Hd, F.
  eexists. eexists. reflexivity.
Qed.

(** ** The option type buttons *)

Section SymbolFacts.

Import TradeFormSymbol.

Lemma trimStart_solid (s : string) : startsSolid s -> trimStart s = s.
Proof. destruct s as [|c r]; simpl; [tauto|]. intros ->. reflexivity. Qed.

Lemma trimEnd_solid (s : string) : endsSolid s -> trimEnd s = s.
Proof.
  unfold endsSolid. induction s as [|c r IH]; [reflexivity|].
  intro H. cbn [Str.lastChar] in H. destruct r as [|d r'] eqn:Er.
  - simpl. rewrite H. reflexivity.
  - rewrite <- Er in *. cbn [trimEnd]. rewrite (IH H). rewrite Er. reflexivity.
Qed.

Lemma trim_solid (s : string) : startsSolid s -> endsSolid s -> trim s = s.
Proof. intros H1 H2. unfold trim. rewrite (trimStart_solid s H1). apply trimEnd_solid. exact H2. Qed.

Lemma trimStart_cases (s : string) : trimStart s = EmptyString \/ startsSolid (trimStart s).
Proof.
  induction s as [|c r IH]; [left; reflexivity|]. simpl.
  destruct (isWhiteSpace c) eqn:W; [exact IH | right; exact W].
Qed.

Lemma trimEnd_first (s : string) :
  trimEnd s = EmptyString \/ exists c r r', s = String c r /\ trimEnd s = String c r'.
Proof.
  destruct s as [|c r]; [left; reflexivity|]. cbn [trimEnd].
  destruct (trimEnd r) as [|d r'].
  - destruct (isWhiteSpace c); [left; reflexivity|].
    right. exists c, r, EmptyString. split; reflexivity.
  - right. exists c, r, (String d r'). split; reflexivity.
Qed.

Lemma trim_cases (s : string) : trim s = EmptyString \/ startsSolid (trim s).
Proof.
  unfold trim. destruct (trimEnd_first (trimStart s)) as [E|(c & r & r' & E1 & E2)].
  - left. exact E.
  - right. rewrite E2. destruct (trimStart_cases s) as [C|C].
    + rewrite C in E1. discriminate E1.
    + rewrite E1 in C. exact C.
Qed.

Lemma split_nonempty (s : string) : split s <> [].
Proof.
  induction s as [|c r IH]; simpl; [discriminate|].
  destruct (Ascii.eqb c " "); [discriminate|].
  destruct (split r); discriminate.
Qed.

Lemma join_cons (x : string) (l : list string) :
  l <> [] -> join (x :: l) = (x ++ " " ++ join l)%string.
Proof. destruct l; [contradiction | reflexivity]. Qed.

Lemma join_split (s : string) : join (split s) = s.
Proof.
  induction s as [|c r IH]; [reflexivity|]. cbn [split].
  destruct (Ascii.eqb_spec c " ") as [E|E].
  - subst c. rewrite join_cons by apply split_nonempty. rewrite IH. reflexivity.
  - destruct (split r) as [|h t] eqn:S; [exfalso; exact (split_nonempty r S)|].
    destruct t as [|h' t'].
    + simpl in *. rewrite IH. reflexivity.
    + rewrite join_cons by discriminate. rewrite join_cons in IH by discriminate.
      simpl. f_equal. exact IH.
Qed.

Lemma split_app (a t : string) :
  noSpace t -> split (a ++ " " ++ t) = split a ++ [t].
Proof.
  intro Ht. induction a as [|c r IH].
  - simpl. rewrite Ht. reflexivity.
  - change ((String c r ++ " " ++ t)%string) with (String c (r ++ " " ++ t)).
    cbn [split]. rewrite IH.
    destruct (Ascii.eqb c " "); [reflexivity|].
    destruct (split r) as [|h tl] eqn:S; [exfalso; exact (split_nonempty r S)|].
    reflexivity.
Qed.

Lemma string_app_assoc (a b c : string) : ((a ++ b) ++ c = a ++ b ++ c)%string.
Proof. induction a as [|x a IH]; simpl; [reflexivity | rewrite IH; reflexivity]. Qed.

Lemma join_snoc (l : list string) (x : string) :
  l <> [] -> join (l ++ [x]) = (join l ++ " " ++ x)%string.
Proof.
  induction l as [|y r IH]; [contradiction|]. intros _.
  destruct r as [|z r'].
  - reflexivity.
  - change ((y :: z :: r') ++ [x]) with (y :: ((z :: r') ++ [x])).
    rewrite join_cons by (simpl; discriminate).
    rewrite IH by discriminate. rewrite (join_cons y (z :: r')) by discriminate.
    rewrite !string_app_assoc. reflexivity.
Qed.

Lemma lastChar_app (a r : string) :
  r <> EmptyString -> Str.lastChar (a ++ r) = Str.lastChar r.
Proof.
  intro Hr. induction a as [|c a IH]; [reflexivity|].
  change ((String c a ++ r)%string) with (String c (a ++ r)).
  cbn [Str.lastChar]. destruct (a ++ r)%string as [|d s] eqn:E.
  - destruct a; simpl in E; [contradiction | discriminate E].
  - exact IH.
Qed.

Lemma startsSolid_app (a b : string) : startsSolid a -> startsSolid (a ++ b).
Proof. destruct a; simpl; tauto. Qed.

Lemma option_type_facts (type : string) :
  In type OPTION_TYPES ->
  isOptionType type = true /\ noSpace type /\ startsSolid type /\ endsSolid type
  /\ type <> EmptyString.
Proof.
  intros [<-|[<-|[<-|[]]]]; repeat split; try reflexivity; discriminate.
Qed.

Lemma retyped_stem (type : string) (symbol : option string) :
  retyped type symbol
  = match stem symbol with
    | EmptyString => type
    | String c r => trim (String c r ++ " " ++ type)
    end.
Proof.
  unfold retyped, stem. cbv zeta.
  destruct (if isOptionType (last (split (trim (JS.or_string symbol EmptyString)))
                                  EmptyString)
            then join (removelast (split (trim (JS.or_string symbol EmptyString))))
            else trim (JS.or_string symbol EmptyString)); reflexivity.
Qed.

Lemma stem_cases (symbol : option string) :
  stem symbol = EmptyString \/ startsSolid (stem symbol).
Proof.
  unfold stem. set (current := trim (JS.or_string symbol EmptyString)).
  destruct (isOptionType (last (split current) EmptyString)) eqn:T;
    [|apply trim_cases].
  destruct (exists_last (split_nonempty current)) as (rl & lastp & S).
  rewrite S, removelast_last.
  destruct rl as [|h0 t0]; [left; reflexivity|].
  pose proof (join_split current) as J. rewrite S in J.
  rewrite join_snoc in J by discriminate.
  destruct (join (h0 :: t0)) as [|c r] eqn:Ej; [left; reflexivity|].
  right. destruct (trim_cases (JS.or_string symbol EmptyString)) as [C|C];
    fold current in C; rewrite <- J in C; [discriminate C | exact C].
Qed.

Lemma stem_retyped (type : string) (symbol : option string) :
  In type OPTION_TYPES ->
  stem (Some (retyped type symbol)) = stem symbol.
Proof.
  intro Ht. destruct (option_type_facts type Ht) as (T1 & T2 & T3 & T4 & T5).
  rewrite retyped_stem.
  assert (Hs : forall s : string, JS.or_string (Some s) EmptyString = s)
    by (intros [|c r]; reflexivity).
  destruct (stem_cases symbol) as [E|S].
  - rewrite E. unfold stem. rewrite Hs, (trim_solid type T3 T4), T2.
    cbn [last removelast]. rewrite T1. reflexivity.
  - destruct (stem symbol) as [|c r] eqn:E; [destruct S|].
    assert (Solid : trim (String c r ++ " " ++ type) = (String c r ++ " " ++ type)%string).
    { apply trim_solid; [exact S|]. unfold endsSolid.
      rewrite lastChar_app by discriminate.
      change (" " ++ type)%string with (String " " type).
      cbn [Str.lastChar]. destruct type as [|t0 tr]; [contradiction|]. exact T4. }
    rewrite Solid. unfold stem. rewrite Hs, Solid, (split_app _ _ T2).
    rewrite last_last, removelast_last, T1. apply join_split.
Qed.

Lemma retyped_last (type : string) (symbol : option string) :
  In type OPTION_TYPES -> last (split (retyped type symbol)) EmptyString = type.
Proof.
  intro Ht. destruct (option_type_facts type Ht) as (T1 & T2 & T3 & T4 & T5).
  rewrite retyped_stem.
  destruct (stem_cases symbol) as [E|S].
  - rewrite E, T2. reflexivity.
  - destruct (stem symbol) as [|c r] eqn:E; [destruct S|].
    assert (Solid : trim (String c r ++ " " ++ type) = (String c r ++ " " ++ type)%string).
    { apply trim_solid; [exact S|]. unfold endsSolid.
      rewrite lastChar_app by discriminate.
      change (" " ++ type)%string with (String " " type).
      cbn [Str.lastChar]. destruct type as [|t0 tr]; [contradiction|]. exact T4. }
    rewrite Solid, (split_app _ _ T2). apply last_last.
Qed.

Lemma builtSymbol_last (type builderStock builderStrike newSymbol : string) :
  In type OPTION_TYPES ->
  builtSymbol type builderStock builderStrike = Some newSymbol ->
  last (split newSymbol) EmptyString = type.
Proof.
  intros Ht. destruct (option_type_facts type Ht) as (T1 & T2 & T3 & T4 & T5).
  unfold builtSymbol. remember (TradeForm.toUpperCase builderStock) as u eqn:Eu.
  clear Eu. destruct builderStock as [|c r]; [discriminate|].
  destruct (String.eqb_spec type "FUT") as [E|E].
  - intro H. injection H as <-. subst type.
    exact (eq_trans (f_equal (fun l => last l EmptyString) (split_app u "FUT" T2))
                    (last_last _ _ _)).
  - destruct builderStrike as [|d k]; [discriminate|].
    intro H. injection H as <-.
    exact (eq_trans
             (f_equal (fun l => last l EmptyString)
                      (eq_trans
                         (f_equal split
                                  (eq_sym (string_app_assoc u (" " ++ String d k)
                                                            (" " ++ type))))
                         (split_app (u ++ " " ++ String d k) type T2)))
             (last_last _ _ _)).
Qed.

End SymbolFacts.

(** The option type buttons CE, PE and FUT.  After a click the last
    word of the symbol is the type clicked, and a second click on the
    same button changes nothing.  Clicking one type and then another
    gives what clicking the other at once gives, so the buttons
    replace the type and never pile types up; the one exception is the
    builder holding a stock without a strike, where FUT writes the
    stock and a following CE or PE then applies to that symbol. *)
Theorem handleOptionTypeClick_toggle
        (first second builderStock builderStrike : string) (prev : TradeForm.FormData) :
  In first TradeFormSymbol.OPTION_TYPES -> In second TradeFormSymbol.OPTION_TYPES ->
  let click := fun type =>
                 TradeFormSymbol.handleOptionTypeClick type builderStock builderStrike in
  (exists symbol : string,
      TradeForm.f_symbol (click second prev) = Some symbol /\
      last (TradeFormSymbol.split symbol) EmptyString = second) /\
  click second (click second prev) = click second prev /\
  (~ (builderStock <> EmptyString /\ builderStrike = EmptyString
      /\ first = "FUT"%string /\ second <> "FUT"%string) ->
   click second (click first prev) = click second prev).
Proof.
  intros H1 H2. cbv zeta.
  assert (F : forall p v, TradeForm.f_symbol
                            (TradeForm.assign p
                               (TradeForm.ChangeText TradeForm.T_symbol v)) = Some v)
    by (intros p v; destruct p; reflexivity).
  assert (Toggle :
            forall one, In one TradeFormSymbol.OPTION_TYPES ->
            ~ (builderStock <> EmptyString /\ builderStrike = EmptyString
               /\ one = "FUT"%string /\ second <> "FUT"%string) ->
            TradeFormSymbol.handleOptionTypeClick
              second builderStock builderStrike
              (TradeFormSymbol.handleOptionTypeClick one builderStock builderStrike prev)
            = TradeFormSymbol.handleOptionTypeClick second builderStock builderStrike prev).
  { intros one Hone Hmix. unfold TradeFormSymbol.handleOptionTypeClick.
    destruct (TradeFormSymbol.builtSymbol second builderStock builderStrike)
      as [s2|] eqn:B2.
    - destruct (TradeFormSymbol.builtSymbol one builderStock builderStrike);
        destruct prev; reflexivity.
    - destruct (TradeFormSymbol.builtSymbol one builderStock builderStrike)
        as [s1|] eqn:B1.
      + exfalso. apply Hmix. unfold TradeFormSymbol.builtSymbol in B1, B2.
        destruct builderStock as [|c r]; [discriminate B1|].
        destruct (String.eqb_spec second "FUT") as [E2|E2]; [discriminate B2|].
        destruct builderStrike as [|d k]; [|discriminate B2].
        destruct (String.eqb_spec one "FUT") as [E1|E1]; [|discriminate B1].
        repeat split; [discriminate | exact E1 | exact E2].
      + rewrite F.
        rewrite (retyped_stem second (Some (TradeFormSymbol.retyped one
                                                (TradeForm.f_symbol prev)))).
        rewrite (stem_retyped one _ Hone), <- retyped_stem.
        destruct prev; reflexivity. }
  split; [|split].
  - unfold TradeFormSymbol.handleOptionTypeClick.
    destruct (TradeFormSymbol.builtSymbol second builderStock builderStrike)
      as [s2|] eqn:B2; rewrite F; eexists; (split; [reflexivity|]).
    + apply (builtSymbol_last second builderStock builderStrike s2 H2 B2).
    + apply retyped_last. exact H2.
  - apply Toggle; [exact H2|]. intros (_ & _ & E & N). contradiction.
  - apply Toggle. exact H1.
Qed.

(** CE and then PE on a symbol typed by hand. *)
Lemma handleOptionTypeClick_toggle_witness :
  let prev :=
    TradeForm.handleChange (TradeForm.initialFormData "2024-01-05")
                           (TradeForm.ChangeText TradeForm.T_symbol " nifty 22000 ") in
  TradeForm.f_symbol
    (TradeFormSymbol.handleOptionTypeClick
       "PE" EmptyString EmptyString
       (TradeFormSymbol.handleOptionTypeClick "CE" EmptyString EmptyString prev))
  = Some "nifty 22000 PE"%string.
Proof.
  intro prev.
  refine (eq_trans
            (f_equal TradeForm.f_symbol
               (proj2 (proj2 (handleOptionTypeClick_toggle
                                "CE" "PE" EmptyString EmptyString prev
                                (or_introl eq_refl) (or_intror (or_introl eq_refl)))) _))
            eq_refl).
  intros (C & _). apply C. reflexivity.
Defined.

(** ** The position calculator and the equity curve, once more *)

(** More money at risk never sizes a smaller position: when capital
    times risk percentage grows, the other inputs staying, the risk
    amount, the number of lots and the quantity do not shrink. *)
Theorem results_monotone
        (capital riskPercent capital' riskPercent' entryPrice stopLoss : Q)
        (instrument : string) :
  capital * riskPercent <= capital' * riskPercent' ->
  let r := PositionCalculator.results capital riskPercent entryPrice stopLoss instrument in
  let r' := PositionCalculator.results capital' riskPercent' entryPrice stopLoss
                                       instrument in
  PositionCalculator.riskAmount r <= PositionCalculator.riskAmount r' /\
  PositionCalculator.lots r <= PositionCalculator.lots r' /\
  PositionCalculator.qty r <= PositionCalculator.qty r' /\
  PositionCalculator.totalValue r <= PositionCalculator.totalValue r' /\
  PositionCalculator.slPoints r = PositionCalculator.slPoints r'.
Proof.
  intros H r r'.
  assert (Hrisk : capital * riskPercent / 100 <= capital' * riskPercent' / 100).
  { unfold Qdiv. change (/ 100) with (1 # 100). lra. }
  destruct (Qlt_le_dec 0 entryPrice) as [He|He];
    [|unfold r, r'; rewrite !results_unguarded by (left; exact He);
      cbn; repeat split; try apply Qle_refl; exact Hrisk].
  destruct (Qlt_le_dec 0 stopLoss) as [Hs|Hs];
    [|unfold r, r'; rewrite !results_unguarded by (right; exact Hs);
      cbn; repeat split; try apply Qle_refl; exact Hrisk].
  destruct (Qeq_dec entryPrice stopLoss) as [Heq|Hne];
    [unfold r, r'; rewrite !results_flat by assumption;
     cbn; repeat split; try apply Qle_refl; exact Hrisk|].
  assert (Hd : 0 < Qabs (entryPrice - stopLoss)) by (apply abs_pos_iff; exact Hne).
  unfold r, r'. rewrite !results_sized by assumption. cbv zeta.
  set (dist := Qabs (entryPrice - stopLoss)) in *.
  assert (Hraw : JS.Math_floor (capital * riskPercent / 100 / dist)
                 <= JS.Math_floor (capital' * riskPercent' / 100 / dist)).
  { unfold JS.Math_floor. rewrite <- Zle_Qle. apply Qfloor_resp_le.
    unfold Qdiv at 1 3. apply Qmult_le_compat_r; [exact Hrisk|].
    apply Qlt_le_weak. apply Qinv_lt_0_compat. exact Hd. }
  pose proof (lotSize_gt_1_table instrument) as Ht.
  destruct (PositionCalculator.lotSize_gt_1
              (PositionCalculator.INDICES_LOT_SIZES instrument)) as [l|].
  - destruct Ht as [_ H1].
    assert (Hl0 : 0 < l) by (apply Qlt_trans with 1; [reflexivity | exact H1]).
    assert (Hlots : JS.Math_floor (JS.Math_floor (capital * riskPercent / 100 / dist) / l)
                    <= JS.Math_floor
                         (JS.Math_floor (capital' * riskPercent' / 100 / dist) / l)).
    { unfold JS.Math_floor at 1 3. rewrite <- Zle_Qle. apply Qfloor_resp_le.
      unfold Qdiv at 1 4. apply Qmult_le_compat_r; [exact Hraw|].
      apply Qlt_le_weak. apply Qinv_lt_0_compat. exact Hl0. }
    cbn. split; [exact Hrisk|]. split; [exact Hlots|].
    assert (Hq : JS.Math_floor (JS.Math_floor (capital * riskPercent / 100 / dist) / l) * l
                 <= JS.Math_floor
                      (JS.Math_floor (capital' * riskPercent' / 100 / dist) / l) * l)
      by (apply Qmult_le_compat_r; [exact Hlots | apply Qlt_le_weak; exact Hl0]).
    split; [exact Hq|]. split; [|reflexivity].
    apply Qmult_le_compat_r; [exact Hq | apply Qlt_le_weak; exact He].
  - cbn. split; [exact Hrisk|]. split; [exact Hraw|]. split; [exact Hraw|].
    split; [|reflexivity].
    apply Qmult_le_compat_r; [exact Hraw | apply Qlt_le_weak; exact He].
Qed.

(** Twice the capital on NIFTY. *)
Lemma results_monotone_witness :
  PositionCalculator.qty (PositionCalculator.results 100000 2 20000 19900 "NIFTY")
  <= PositionCalculator.qty (PositionCalculator.results 200000 2 20000 19900 "NIFTY").
Proof.
  refine (proj1 (proj2 (proj2 (results_monotone 100000 2 200000 2 20000 19900 "NIFTY" _)))).
  discriminate.
Defined.

Section EquitySteps.

Variable label : string -> string.

Lemma equityPoints_nth (l : list Trade) (b : Q) (i : nat) (t : Trade) :
  nth_error l i = Some t ->
  exists p : Dashboard.EquityPoint,
    nth_error (Dashboard.equityPoints label b l) i = Some p /\
    Dashboard.e_date p = label (entryDate t) /\
    Dashboard.e_pnl p = pnl t /\
    Dashboard.equity p == b + sumPnl (firstn (S i) l) /\
    Dashboard.equity p
    == match i with
       | O => b
       | S j => match nth_error (Dashboard.equityPoints label b l) j with
                | Some q => Dashboard.equity q
                | None => 0
                end
       end + realized t.
Proof.
  revert b i. induction l as [|x r IH]; intros b i H; [destruct i; discriminate H|].
  destruct i as [|j].
  - injection H as <-. cbn [Dashboard.equityPoints nth_error].
    eexists. split; [reflexivity|].
    cbn [Dashboard.e_date Dashboard.e_pnl Dashboard.equity firstn sumPnl fold_right].
    split; [reflexivity|]. split; [reflexivity|].
    rewrite realized_or_zero. split; ring.
  - cbn [nth_error] in H.
    destruct (IH (b + JS.or_zero (pnl x)) j H) as (p & Hp & Hd & Hn & He & Hstep).
    exists p. cbn [Dashboard.equityPoints nth_error].
    split; [exact Hp|]. split; [exact Hd|]. split; [exact Hn|]. split.
    + rewrite He. change (firstn (S (S j)) (x :: r)) with (x :: firstn (S j) r).
      change (sumPnl (x :: firstn (S j) r)) with (realized x + sumPnl (firstn (S j) r)).
      rewrite realized_or_zero. ring.
    + rewrite Hstep. destruct j as [|k]; [|reflexivity].
      cbn [nth_error Dashboard.equity]. reflexivity.
Qed.

End EquitySteps.

(** The equity curve point by point.  The closed trades are taken in
    the order of their entry time, trades of the same time in the
    order of the collection.  The curve has one point for each, with
    the label and the P&L of its trade; the equity of a point is the
    sum of the realized P&L of the trades up to it, which is the equity
    of the point before (0 for the first) plus the P&L of its trade. *)
Theorem equityCurveData_running_sum
        (getTime : string -> Z) (toLocaleDateString : string -> string)
        (trades : list Trade) :
  let sorted := Dashboard.sortedTrades getTime trades in
  let curve := Dashboard.equityCurveData getTime toLocaleDateString trades in
  Permutation sorted (filter Dashboard.isClosed trades) /\
  StronglySorted (fun a b => (getTime (entryDate a) <= getTime (entryDate b))%Z) sorted /\
  (forall k, enteredAt getTime k sorted
             = enteredAt getTime k (filter Dashboard.isClosed trades)) /\
  List.length curve = List.length sorted /\
  forall (i : nat) (t : Trade),
    nth_error sorted i = Some t ->
    exists p : Dashboard.EquityPoint,
      nth_error curve i = Some p /\
      Dashboard.e_date p = toLocaleDateString (entryDate t) /\
      Dashboard.e_pnl p = pnl t /\
      Dashboard.equity p == sumPnl (firstn (S i) sorted) /\
      Dashboard.equity p
      == match i with
         | O => 0
         | S j => match nth_error curve j with
                  | Some q => Dashboard.equity q
                  | None => 0
                  end
         end + realized t.
Proof.
  cbv zeta. unfold Dashboard.equityCurveData, Dashboard.sortedTrades.
  split; [apply Array_sort_perm|].
  split.
  { apply Sorted_StronglySorted; [intros a b c; lia|].
    assert (T : forall x y, (0 < Dashboard.byDate getTime x y)%Z ->
                            (Dashboard.byDate getTime y x <= 0)%Z)
      by (intros x y; unfold Dashboard.byDate; lia).
    pose proof (Array_sort_Sorted (Dashboard.byDate getTime) T
                                  (filter Dashboard.isClosed trades)) as S.
    induction S as [|a l Hs IH Hh]; [constructor|].
    constructor; [exact IH|].
    destruct Hh as [|b l Hab]; constructor.
    unfold JS.notAfter, Dashboard.byDate in Hab. lia. }
  split.
  { intro k. unfold enteredAt.
    induction (filter Dashboard.isClosed trades) as [|x r IH]; [reflexivity|].
    cbn [JS.Array_sort fold_right].
    fold (JS.Array_sort (Dashboard.byDate getTime) r).
    transitivity (filter (fun t => (getTime (entryDate t) =? k)%Z)
                         (x :: JS.Array_sort (Dashboard.byDate getTime) r));
      [|cbn [filter]; rewrite IH; reflexivity].
    generalize (JS.Array_sort (Dashboard.byDate getTime) r). clear IH.
    intro l. induction l as [|z l IHl]; [reflexivity|].
    cbn [JS.sort_insert].
    destruct (Z.ltb_spec 0 (Dashboard.byDate getTime x z)) as [L|L]; [|reflexivity].
    cbn [filter] in *. rewrite IHl. unfold Dashboard.byDate in L.
    destruct (Z.eqb_spec (getTime (entryDate x)) k) as [Ex|Ex];
      destruct (Z.eqb_spec (getTime (entryDate z)) k) as [Ez|Ez];
      try reflexivity. lia. }
  split; [apply equityPoints_length|].
  intros i t H.
  destruct (equityPoints_nth toLocaleDateString _ 0 i t H) as (p & Hp & Hd & Hn & He & Hs).
  exists p. split; [exact Hp|]. split; [exact Hd|]. split; [exact Hn|].
  split; [rewrite He; ring | exact Hs].
Qed.

(** ** A write the store refuses *)

(** A write the store refuses, and the reload that follows.  When the
    reload arrives, the trades and the notes are exactly those fetched,
    whatever the optimistic update had put there, and one alert is
    shown; when the reload fails too, the optimistic update stays: the
    state is the one a successful write would have left, although the
    store never took the change.  This holds for saving a note, saving
    a trade and deleting a trade alike. *)
Theorem failed_write_reload
        (E : Type) (note : DailyNote) (trade : Trade) (tradeId : string) (error : E)
        (st : App.State) :
  (forall (ts : list Trade) (ns : list DailyNote),
      let noteAfter := App.handleSaveNote note (JS.Thrown error)
                                          (JS.Returned ts) (JS.Returned ns) st in
      let tradeAfter := App.handleSaveTrade trade (JS.Thrown error)
                                            (JS.Returned (E:=E) ts) (JS.Returned ns) st in
      let deleteAfter := App.handleDeleteTrade tradeId true (JS.Thrown error)
                                               (JS.Returned ts) (JS.Returned ns) st in
      (App.trades (fst noteAfter) = ts /\ App.dailyNotes (fst noteAfter) = ns /\
       filter isAlert (snd noteAfter) = [App.Alert "Failed to save note to cloud."]) /\
      (App.trades (fst tradeAfter) = ts /\ App.dailyNotes (fst tradeAfter) = ns /\
       filter isAlert (snd tradeAfter) = [App.Alert "Failed to save trade to cloud."]) /\
      (App.trades (fst deleteAfter) = ts /\ App.dailyNotes (fst deleteAfter) = ns /\
       filter isAlert (snd deleteAfter)
       = [App.Alert "Failed to delete trade from cloud."])) /\
  (forall (fetchedTrades : JS.Outcome E (list Trade))
          (fetchedNotes : JS.Outcome E (list DailyNote)),
      (forall ts ns, ~ (fetchedTrades = JS.Returned ts /\ fetchedNotes = JS.Returned ns)) ->
      fst (App.handleSaveNote note (JS.Thrown error) fetchedTrades fetchedNotes st)
      = fst (App.handleSaveNote note (JS.Returned tt) fetchedTrades fetchedNotes st) /\
      fst (App.handleSaveTrade trade (JS.Thrown error) fetchedTrades fetchedNotes st)
      = fst (App.handleSaveTrade trade (JS.Returned (E:=E) tt)
                                 fetchedTrades fetchedNotes st) /\
      fst (App.handleDeleteTrade tradeId true (JS.Thrown error)
                                 fetchedTrades fetchedNotes st)
      = fst (App.handleDeleteTrade tradeId true (JS.Returned tt)
                                   fetchedTrades fetchedNotes st)).
Proof.
  split.
  - intros ts ns. cbv zeta. repeat split.
  - intros fetchedTrades fetchedNotes H.
    unfold App.handleSaveNote, App.handleSaveTrade, App.handleDeleteTrade.
    destruct fetchedTrades as [ts|e1]; destruct fetchedNotes as [ns|e2];
      try (exfalso; apply (H ts ns); split; reflexivity);
      cbn [App.loadData fst]; repeat split.
Qed.

(** The store is unreachable for the write and for the reload. *)
Lemma failed_write_reload_witness :
  App.dailyNotes
    (fst (App.handleSaveNote (mkDailyNote "2024-01-05" "calm" None) (JS.Thrown tt)
                             (JS.Thrown tt) (JS.Thrown tt)
                             (App.mkState [] [] false None false EmptyString false)))
  = [mkDailyNote "2024-01-05" "calm" None].
Proof.
  refine (eq_trans
            (f_equal App.dailyNotes
               (proj1 (proj2 (failed_write_reload
                                unit (mkDailyNote "2024-01-05" "calm" None)
                                (closedTrade "a" "2024-01-05" None) "a" tt
                                (App.mkState [] [] false None false EmptyString false))
                             (JS.Thrown tt) (JS.Thrown tt) _)))
            eq_refl).
  intros ts ns [C _]. discriminate C.
Defined.
